(** * px_xtras: the chart helpers of [demos/plotly_extras_0_2.py]

    A shallow embedding of the helper module and the properties of its
    waffle, waterfall and dumbbell builders.

    Conventions of the embedding.
    - A Python [int] is a [Z].  A Python [float] is the rational it denotes:
      arithmetic on floats is carried out exactly in [Q], so a position
      computed here is the real number of which the float of the program is
      the rounding.  [math.sqrt] and [math.ceil] are exact as well.
    - A raised exception is a value of [pyerr]; a function that may raise
      returns a [result].
    - [plotly], [numpy], [pandas] and [matplotlib] are not part of the
      repository.  A figure is the record of the arguments handed to
      plotly's constructors; numpy's [reshape] and [fliplr] are modelled on
      lists of rows; a DataFrame is its ordered list of named columns;
      [matplotlib.colors.to_rgb] and [Figure.to_html] are parameters. *)

From Stdlib Require Import ZArith QArith Qround Lia.
From Stdlib Require String Ascii HexString.
From stdpp Require Import base tactics option list list_numbers strings gmap.

Close Scope Q_scope.
Local Open Scope Z_scope.

(** ** Exceptions *)

Inductive pyerr : Type :=
  | ValueError (msg : string)   (* [raise ValueError(msg)] of this module *)
  | ZeroDivisionError           (* [/] or [%] with a zero right operand *)
  | IndexError                  (* sequence index out of range *)
  | KeyError                    (* missing DataFrame column *)
  | TypeError                   (* operand of the wrong dynamic type *)
  | MathDomainError             (* the ValueError of [math.sqrt] below zero *)
  | ReshapeError                (* the ValueError of [ndarray.reshape] *)
  | ColorError.                 (* the ValueError of [mcolors.to_rgb] *)

Inductive result (A : Type) : Type :=
  | Return (a : A)
  | Raise (e : pyerr).
Arguments Return {A} a.
Arguments Raise {A} e.

Global Instance result_ret : MRet result := @Return.
Global Instance result_bind : MBind result := λ A B f m,
  match m with Return a => f a | Raise e => Raise e end.
Global Instance result_fmap : FMap result := λ A B f m,
  match m with Return a => Return (f a) | Raise e => Raise e end.

Definition returns {A} (m : result A) : Prop := ∃ a, m = Return a.
Definition raises {A} (m : result A) : Prop := ∃ e, m = Raise e.

(** ** Dynamic values held by lists, dicts and DataFrame cells *)

Inductive pyval : Type :=
  | PStr (s : string)
  | PInt (z : Z)
  | PFloat (q : Q).

(** [x / y] on numbers (true division). *)
Definition py_truediv (x y : Q) : result Q :=
  if Qeq_bool y 0 then Raise ZeroDivisionError else Return (x / y)%Q.

(** [i % n] on ints. *)
Definition py_mod (i n : Z) : result Z :=
  if decide (n = 0) then Raise ZeroDivisionError else Return (i mod n).

(** [int(q)]: truncation towards zero. *)
Definition py_int (q : Q) : Z := Z.quot (Qnum q) (Z.pos (Qden q)).

(** [math.ceil(q)]. *)
Definition math_ceil (q : Q) : Z := Qceiling q.

(** [math.ceil(math.sqrt(t))] for an int [t]: [math.sqrt] rejects a negative
    argument, and the ceiling of the root is the least [r] with [t <= r*r]. *)
Definition ceil_sqrt (t : Z) : result Z :=
  if decide (t < 0) then Raise MathDomainError else Return (Z.sqrt_up t).

(** [[x] * k]: a non-positive [k] gives the empty list. *)
Definition py_repeat {A} (x : A) (k : Z) : list A := replicate (Z.to_nat k) x.

(** [range(k)] and [range(a, b)]. *)
Definition py_range (k : Z) : list Z := seqZ 0 k.
Definition py_range2 (a b : Z) : list Z := seqZ a (b - a).

(** [len(l)]. *)
Definition len {A} (l : list A) : Z := Z.of_nat (length l).

(** Truthiness of an [Optional[str]], an [Optional[int]] and an
    [Optional[List]]: [None], [""], [0] and [[]] are false. *)
Definition truthy_str (s : option string) : bool :=
  match s with Some s => negb (String.eqb s "") | None => false end.
Definition truthy_int (z : option Z) : bool :=
  match z with Some z => negb (Z.eqb z 0) | None => false end.
Definition truthy_list {A} (l : option (list A)) : bool :=
  match l with Some (_ :: _) => true | _ => false end.

(** ** ['%02x' % z] *)

Definition hex_digits (z : Z) : string :=
  match z with
  | Z0 => "0"
  | Zpos p => HexString.Raw.of_pos p ""
  | Zneg p => HexString.Raw.of_pos p ""
  end.

Definition format_02x (z : Z) : string :=
  let d := hex_digits z in
  if decide (z < 0) then "-" +:+ d
  else if decide (String.length d < 2)%nat then "0" +:+ d else d.

(** ** Colour helpers (lines 391-439) *)

Definition rgb : Type := Q * Q * Q.

Section helpers.
(** [matplotlib.colors.to_rgb]: a colour name or hex code to its three
    channels in [0,1], or ValueError for an unknown colour. *)
Variable to_rgb : string → result rgb.

(** lines 391-409 *)
Definition get_color_gradient (start_color end_color : string)
    (num_colors : Z) : result (list string) :=
  start_rgb ← to_rgb start_color;
  end_rgb ← to_rgb end_color;
  ts ← mapM (λ i, py_truediv (inject_Z i) (inject_Z (num_colors - 1)))
            (py_range num_colors);
  let channel (s e t : Q) : Q := (s + (e - s) * t)%Q in
  let gradient :=
    (λ t, let '(sr, sg, sb) := start_rgb in
          let '(er, eg, eb) := end_rgb in
          (channel sr er t, channel sg eg t, channel sb eb t)) <$> ts in
  Return ((λ '(r, g, b),
             "#" +:+ format_02x (py_int (r * 255)%Q)
                 +:+ format_02x (py_int (g * 255)%Q)
                 +:+ format_02x (py_int (b * 255)%Q)) <$> gradient).
End helpers.

(** lines 412-424 *)
Definition get_section_bounds (x : Q) (y : Z) : result (list (Q * Q)) :=
  section_length ← py_truediv x (inject_Z y);
  Return ((λ i, (inject_Z i * section_length,
                 inject_Z (i + 1) * section_length)%Q) <$> py_range y).

(** lines 427-439 *)
Definition find_midpoints (x y : Z) : result (list Q) :=
  let indices := py_range2 1 (y + 1) in
  mapM (λ i, py_truediv (inject_Z ((2 * i - 1) * x)) (inject_Z (2 * y)))
       indices.

(** ** Lists, dicts and DataFrames *)

Global Instance Q_eq_dec : EqDecision Q.
Proof. solve_decision. Defined.
Global Instance pyval_eq_dec : EqDecision pyval.
Proof. solve_decision. Defined.
Global Instance pyerr_eq_dec : EqDecision pyerr.
Proof. solve_decision. Defined.

(** [l[i]] for an int [i]: a negative index counts from the end. *)
Definition py_getitem {A} (l : list A) (i : Z) : result A :=
  let j := if decide (i < 0) then i + len l else i in
  if decide (j < 0) then Raise IndexError
  else match l !! Z.to_nat j with
       | Some a => Return a
       | None => Raise IndexError
       end.

(** A dict in insertion order.  [d[k] = v] overwrites in place when the key
    is present and appends otherwise. *)
Abbreviation dict := (list (pyval * pyval)).

Fixpoint dict_set (d : dict) (k v : pyval) : dict :=
  match d with
  | [] => [(k, v)]
  | (k', v') :: d' =>
      if decide (k' = k) then (k', v) :: d' else (k', v') :: dict_set d' k v
  end.

(** [dict(zip(ks, vs))] *)
Definition dict_of_zip (ks vs : list pyval) : dict :=
  foldl (λ d kv, dict_set d kv.1 kv.2) [] (zip ks vs).

(** The values of a dict read as ints: [sum] and [range] raise TypeError on
    anything else. *)
Definition int_values (vs : list pyval) : result (list Z) :=
  mapM (λ v, match v with PInt z => Return z | _ => Raise TypeError end) vs.

(** [sum] of a list of ints. *)
Definition py_sum (l : list Z) : Z := foldr Z.add 0 l.

(** A DataFrame: its columns, in order, each with its cells. *)
Abbreviation DataFrame := (list (string * list pyval)).

(** [df.columns[i]] *)
Definition df_columns_at (df : DataFrame) (i : nat) : result string :=
  match df.*1 !! i with Some c => Return c | None => Raise IndexError end.

(** [df[col].tolist()] *)
Fixpoint df_tolist (df : DataFrame) (col : string) : result (list pyval) :=
  match df with
  | [] => Raise KeyError
  | (c, cells) :: df' =>
      if String.eqb c col then Return cells else df_tolist df' col
  end.

(** [if col and col not in df.columns: raise ValueError(f"Column '{col}' not
    found in DataFrame.")] *)
Definition check_column (df : DataFrame) (col : option string)
    : result unit :=
  match col with
  | Some c =>
      if truthy_str col && negb (bool_decide (c ∈ df.*1))
      then Raise (ValueError ("Column '" +:+ c +:+ "' not found in DataFrame."))
      else Return ()
  | None => Return ()
  end.

(** [col or df.columns[i]] *)
Definition column_or (df : DataFrame) (col : option string) (i : nat)
    : result string :=
  match col with
  | Some c => if truthy_str col then Return c else df_columns_at df i
  | None => df_columns_at df i
  end.

(** ** Figures: the arguments given to plotly *)

(** A cell of the waffle grid: [np.nan] or a category index. *)
Inductive tile : Type :=
  | nan
  | tile_of (idx : Z).

Global Instance tile_eq_dec : EqDecision tile.
Proof. solve_decision. Defined.

Record Waterfall : Type := {
  wf_orientation : string;
  wf_measure : list string;
  wf_textposition : string;
  wf_y : list pyval;
  wf_x : list pyval;
  wf_connector_color : string;
  wf_decreasing_color : string;
  wf_increasing_color : string;
  wf_totals_color : string;
  wf_text : option (list string);
}.

Record Colorbar : Type := {
  cb_thickness : Z;
  cb_tickvals : list Q;
  cb_ticktext : list pyval;
  cb_outlinecolor : string;
  cb_outlinewidth : Z;
}.

Record Heatmap : Type := {
  hm_z : list (list tile);
  hm_xgap : Z;
  hm_ygap : Z;
  hm_colorbar : Colorbar;
  hm_colorscale : list (Q * string);
  hm_autocolorscale : bool;
}.

Record Scatter : Type := {
  sc_x : list pyval;
  sc_y : list pyval;
  sc_mode : string;
  sc_line : option (string * Z);      (* dict(color, width) *)
  sc_marker : option (string * Z);    (* dict(color, size) *)
  sc_name : option string;
  sc_showlegend : option bool;
}.

Inductive trace : Type :=
  | TWaterfall (w : Waterfall)
  | THeatmap (h : Heatmap)
  | TScatter (s : Scatter).

(** [fig.add_annotation(...)]; [an_text_of] is the value [v] of [text=str(v)]. *)
Record Annotation : Type := {
  an_x : pyval;
  an_y : pyval;
  an_text_of : pyval;
  an_showarrow : bool;
  an_font_color : string;
  an_xanchor : string;
  an_yanchor : string;
  an_xshift : option Z;
  an_yshift : option Z;
}.

(** An axis with [showticklabels], [showgrid] and [zeroline]. *)
Record Axis : Type := {
  ax_showticklabels : bool;
  ax_showgrid : bool;
  ax_zeroline : bool;
}.

Record Layout : Type := {
  ly_title : option string;
  ly_xaxis : option Axis;
  ly_yaxis : option Axis;
  ly_yaxis_scaleanchor : option string;
  ly_height : option Z;
  ly_xaxis_title : option string;
  ly_yaxis_title : option string;
  ly_template : option string;
  ly_showlegend : option bool;
}.

Record Figure : Type := {
  fig_data : list trace;
  fig_annotations : list Annotation;
  fig_layout : Layout;
}.

Definition empty_layout : Layout :=
  {| ly_title := None; ly_xaxis := None; ly_yaxis := None;
     ly_yaxis_scaleanchor := None; ly_height := None;
     ly_xaxis_title := None; ly_yaxis_title := None;
     ly_template := None; ly_showlegend := None |}.

(** [go.Figure(data=...)] and [go.Figure()] *)
Definition go_Figure (ts : list trace) : Figure :=
  {| fig_data := ts; fig_annotations := []; fig_layout := empty_layout |}.

Definition add_trace (t : trace) (fig : Figure) : Figure :=
  {| fig_data := fig_data fig ++ [t];
     fig_annotations := fig_annotations fig;
     fig_layout := fig_layout fig |}.

Definition add_annotation (a : Annotation) (fig : Figure) : Figure :=
  {| fig_data := fig_data fig;
     fig_annotations := fig_annotations fig ++ [a];
     fig_layout := fig_layout fig |}.

Definition set_layout (l : Layout) (fig : Figure) : Figure :=
  {| fig_data := fig_data fig;
     fig_annotations := fig_annotations fig;
     fig_layout := l |}.

(** ** The steps of [waffle] (lines 549-582), named for the statements *)

(** line 566: [[idx for idx, count in enumerate(data.values())
    for _ in range(count)]] *)
Definition waffle_tiles (counts : list Z) : list tile :=
  mjoin (imap (λ idx count, (λ _, tile_of (Z.of_nat idx)) <$> py_range count)
              counts).

(** line 568: [grid_width or math.ceil(math.sqrt(total))] *)
Definition waffle_width (total : Z) (grid_width : option Z) : result Z :=
  match grid_width with
  | Some w => if truthy_int grid_width then Return w else ceil_sqrt total
  | None => ceil_sqrt total
  end.

(** line 569: [math.ceil(total / width)] *)
Definition waffle_height (total width : Z) : result Z :=
  q ← py_truediv (inject_Z total) (inject_Z width);
  Return (math_ceil q).

(** [np.array(cat).reshape((-1, width))]: a negative [width] is a second
    unknown dimension, and the size must be a multiple of [width]. *)
Definition np_reshape (cat : list tile) (width : Z)
    : result (list (list tile)) :=
  if decide (width <= 0) then Raise ReshapeError
  else if decide (len cat mod width = 0)
       then Return (reshape (replicate (Z.to_nat (len cat / width))
                                       (Z.to_nat width)) cat)
       else Raise ReshapeError.

(** [np.fliplr(b)] *)
Definition np_fliplr (b : list (list tile)) : list (list tile) :=
  reverse <$> b.

(** lines 564-573: the padded grid [b], before the flip of line 582. *)
Definition waffle_grid (counts : list Z) (grid_width : option Z)
    : result (list (list tile)) :=
  let total := py_sum counts in
  let cat := waffle_tiles counts in
  width ← waffle_width total grid_width;
  height ← waffle_height total width;
  let padding_length := width * height - len cat in
  let cat := py_repeat nan padding_length ++ cat in
  np_reshape cat width.

(** lines 575-579 *)
Definition waffle_colorscale (number_of_values : Z)
    (local_colors : list string) : result (list (Q * string)) :=
  ranges ← get_section_bounds 1 number_of_values;
  mjoin <$> mapM (λ i,
      r0 ← py_getitem ranges i;
      k0 ← py_mod i (len local_colors);
      c0 ← py_getitem local_colors k0;
      r1 ← py_getitem ranges i;
      k1 ← py_mod i (len local_colors);
      c1 ← py_getitem local_colors k1;
      Return [(r0.1, c0); (r1.2, c1)]) (py_range number_of_values).

Definition hidden_axis : Axis :=
  {| ax_showticklabels := false; ax_showgrid := false; ax_zeroline := false |}.

Section charts.
Variable to_rgb : string → result rgb.

(** lines 549-559: the category counts, from the DataFrame or the dict. *)
Definition waffle_data (df : option DataFrame)
    (category_col value_col : option string) (data : option dict)
    : result dict :=
  match df with
  | Some df =>
      _ ← check_column df category_col;
      _ ← check_column df value_col;
      category_col ← column_or df category_col 0;
      value_col ← column_or df value_col 1;
      ks ← df_tolist df category_col;
      vs ← df_tolist df value_col;
      Return (dict_of_zip ks vs)
  | None =>
      match data with
      | None =>
          Raise (ValueError "Provide either a DataFrame or a data dictionary.")
      | Some d => Return d
      end
  end.

(** lines 561-562 *)
Definition waffle_colors (local_colors : option (list string))
    (startcolor endcolor : string) (data : dict) : result (list string) :=
  match local_colors with
  | None => get_color_gradient to_rgb startcolor endcolor (len data)
  | Some cs => Return cs
  end.

(** lines 518-603 *)
Definition waffle (df : option DataFrame)
    (category_col value_col : option string) (data : option dict)
    (title : string) (local_colors : option (list string))
    (startcolor endcolor : string) (fig_height tile_gap : Z)
    (grid_width : option Z) : result Figure :=
  data ←
    match df with
    | Some df =>
        _ ← check_column df category_col;
        _ ← check_column df value_col;
        category_col ← column_or df category_col 0;
        value_col ← column_or df value_col 1;
        ks ← df_tolist df category_col;
        vs ← df_tolist df value_col;
        Return (dict_of_zip ks vs)
    | None =>
        match data with
        | None =>
            Raise (ValueError
                     "Provide either a DataFrame or a data dictionary.")
        | Some d => Return d
        end
    end;
  local_colors ←
    match local_colors with
    | None => get_color_gradient to_rgb startcolor endcolor (len data)
    | Some cs => Return cs
    end;
  counts ← int_values data.*2;
  let total := py_sum counts in
  let number_of_values := len data.*2 in
  let cat := mjoin (imap (λ idx count,
               (λ _, tile_of (Z.of_nat idx)) <$> py_range count) counts) in
  width ←
    match grid_width with
    | Some w => if truthy_int grid_width then Return w else ceil_sqrt total
    | None => ceil_sqrt total
    end;
  q ← py_truediv (inject_Z total) (inject_Z width);
  let height := math_ceil q in
  let padding_length := width * height - len cat in
  let cat := py_repeat nan padding_length ++ cat in
  b ← np_reshape cat width;
  ranges ← get_section_bounds 1 number_of_values;
  colorscale ← mjoin <$> mapM (λ i,
      r0 ← py_getitem ranges i;
      k0 ← py_mod i (len local_colors);
      c0 ← py_getitem local_colors k0;
      r1 ← py_getitem ranges i;
      k1 ← py_mod i (len local_colors);
      c1 ← py_getitem local_colors k1;
      Return [(r0.1, c0); (r1.2, c1)]) (py_range number_of_values);
  tickvals ← find_midpoints (number_of_values - 1) number_of_values;
  let fig := go_Figure [THeatmap
    {| hm_z := np_fliplr b;
       hm_xgap := tile_gap;
       hm_ygap := tile_gap;
       hm_colorbar :=
         {| cb_thickness := 20;
            cb_tickvals := tickvals;
            cb_ticktext := data.*1;
            cb_outlinecolor := "black";
            cb_outlinewidth := 0 |};
       hm_colorscale := colorscale;
       hm_autocolorscale := false |}] in
  Return (set_layout
    {| ly_title := Some title;
       ly_xaxis := Some hidden_axis;
       ly_yaxis := Some hidden_axis;
       ly_yaxis_scaleanchor := Some "x";
       ly_height := Some fig_height;
       ly_xaxis_title := None; ly_yaxis_title := None;
       ly_template := None; ly_showlegend := None |} fig).
End charts.

(** ** waterfall *)

(** lines 478-489: the labels and the values, from the DataFrame or from the
    arguments. *)
Definition waterfall_inputs (df : option DataFrame)
    (category_col value_col : option string)
    (labels data : option (list pyval)) : result (list pyval * list pyval) :=
  match df with
  | Some df =>
      _ ← check_column df category_col;
      _ ← check_column df value_col;
      category_col ← column_or df category_col 0;
      value_col ← column_or df value_col 1;
      labels ← df_tolist df category_col;
      data ← df_tolist df value_col;
      Return (labels, data)
  | None =>
      if negb (truthy_list labels && truthy_list data)
      then Raise (ValueError
                    "Provide either a DataFrame or labels and data lists.")
      else Return (default [] labels, default [] data)
  end.

(** lines 442-515 *)
Definition waterfall (df : option DataFrame)
    (category_col value_col : option string)
    (labels data : option (list pyval)) (title : string)
    (annotation : option (list string))
    (icolor dcolor tcolor ccolor : string) (color : option string)
    (measure : option (list string)) : result Figure :=
  '(labels, data) ←
    match df with
    | Some df =>
        _ ← check_column df category_col;
        _ ← check_column df value_col;
        category_col ← column_or df category_col 0;
        value_col ← column_or df value_col 1;
        labels ← df_tolist df category_col;
        data ← df_tolist df value_col;
        Return (labels, data)
    | None =>
        if negb (truthy_list labels && truthy_list data)
        then Raise (ValueError
                      "Provide either a DataFrame or labels and data lists.")
        else Return (default [] labels, default [] data)
    end;
  let measure :=
    match measure with
    | None => py_repeat "relative" (len labels - 1) ++ ["total"]
    | Some m => m
    end in
  let '(icolor, dcolor, tcolor, ccolor) :=
    match color with
    | Some c => if truthy_str color then (c, c, c, c)
                else (icolor, dcolor, tcolor, ccolor)
    | None => (icolor, dcolor, tcolor, ccolor)
    end in
  let waterfall_params :=
    {| wf_orientation := "v";
       wf_measure := measure;
       wf_textposition := "outside";
       wf_y := data;
       wf_x := labels;
       wf_connector_color := ccolor;
       wf_decreasing_color := dcolor;
       wf_increasing_color := icolor;
       wf_totals_color := tcolor;
       wf_text := annotation |} in
  Return (set_layout
    {| ly_title := Some title;
       ly_xaxis := None; ly_yaxis := None; ly_yaxis_scaleanchor := None;
       ly_height := None; ly_xaxis_title := None; ly_yaxis_title := None;
       ly_template := None; ly_showlegend := None |}
    (go_Figure [TWaterfall waterfall_params])).

(** ** dumbbell, line_range and lollipop_chart (lines 606-713, 805-890) *)

Definition num_of (v : pyval) : Q :=
  match v with PInt z => inject_Z z | PFloat q => q | PStr _ => 0%Q end.

(** [a < b]: numbers by value, strings by code point, TypeError between a
    string and a number. *)
Definition py_lt (a b : pyval) : result bool :=
  match a, b with
  | PStr s, PStr t => Return (String.ltb s t)
  | PStr _, _ | _, PStr _ => Raise TypeError
  | _, _ => Return (negb (Qle_bool (num_of b) (num_of a)))
  end.

(** lines 648-666: the three parallel lists, from the DataFrame or from the
    arguments, and the check of their lengths. *)
Definition dumbbell_inputs (df : option DataFrame)
    (category_col value1_col value2_col : option string)
    (categories values1 values2 : option (list pyval))
    : result (list pyval * list pyval * list pyval) :=
  '(categories, values1, values2) ←
    match df with
    | Some df =>
        _ ← check_column df category_col;
        _ ← check_column df value1_col;
        _ ← check_column df value2_col;
        category_col ← column_or df category_col 0;
        value1_col ← column_or df value1_col 1;
        value2_col ← column_or df value2_col 2;
        categories ← df_tolist df category_col;
        values1 ← df_tolist df value1_col;
        values2 ← df_tolist df value2_col;
        Return (categories, values1, values2)
    | None =>
        if negb (truthy_list categories && truthy_list values1
                 && truthy_list values2)
        then Raise (ValueError "Provide either a DataFrame or all three lists: categories, values1, and values2.")
        else Return (default [] categories, default [] values1,
                     default [] values2)
    end;
  if negb (bool_decide (len categories = len values1)
           && bool_decide (len values1 = len values2))
  then Raise (ValueError "All input lists must have the same length.")
  else Return (categories, values1, values2).

(** lines 682-704: the two value labels of one category. *)
Definition dumbbell_labels (h : bool) (marker_color1 marker_color2 : string)
    (cat val1 val2 : pyval) : result (list Annotation) :=
  py_lt val1 val2 ≫= λ less : bool,
  if h then
    let '(xanchor1, xshift1, xanchor2, xshift2) :=
      (if less then ("right", -5, "left", 5) else ("left", 5, "right", -5))
        : string * Z * string * Z in
    Return
      [ {| an_x := val1; an_y := cat; an_text_of := val1;
           an_showarrow := false; an_font_color := marker_color1;
           an_xanchor := xanchor1; an_yanchor := "middle";
           an_xshift := Some xshift1; an_yshift := None |};
        {| an_x := val2; an_y := cat; an_text_of := val2;
           an_showarrow := false; an_font_color := marker_color2;
           an_xanchor := xanchor2; an_yanchor := "middle";
           an_xshift := Some xshift2; an_yshift := None |} ]
  else
    let '(yanchor1, yshift1, yanchor2, yshift2) :=
      (if less then ("top", -5, "bottom", 5) else ("bottom", 5, "top", -5))
        : string * Z * string * Z in
    Return
      [ {| an_x := cat; an_y := val1; an_text_of := val1;
           an_showarrow := false; an_font_color := marker_color1;
           an_xanchor := "center"; an_yanchor := yanchor1;
           an_xshift := None; an_yshift := Some yshift1 |};
        {| an_x := cat; an_y := val2; an_text_of := val2;
           an_showarrow := false; an_font_color := marker_color2;
           an_xanchor := "center"; an_yanchor := yanchor2;
           an_xshift := None; an_yshift := Some yshift2 |} ].

(** lines 606-713 *)
Definition dumbbell (df : option DataFrame)
    (category_col value1_col value2_col : option string)
    (categories values1 values2 : option (list pyval))
    (label1 label2 : option string) (title orientation : string)
    (marker_color1 marker_color2 line_color : string)
    (marker_size line_width : Z) : result Figure :=
  '(categories, values1, values2) ←
    match df with
    | Some df =>
        _ ← check_column df category_col;
        _ ← check_column df value1_col;
        _ ← check_column df value2_col;
        category_col ← column_or df category_col 0;
        value1_col ← column_or df value1_col 1;
        value2_col ← column_or df value2_col 2;
        categories ← df_tolist df category_col;
        values1 ← df_tolist df value1_col;
        values2 ← df_tolist df value2_col;
        Return (categories, values1, values2)
    | None =>
        if negb (truthy_list categories && truthy_list values1
                 && truthy_list values2)
        then Raise (ValueError "Provide either a DataFrame or all three lists: categories, values1, and values2.")
        else Return (default [] categories, default [] values1,
                     default [] values2)
    end;
  if negb (bool_decide (len categories = len values1)
           && bool_decide (len values1 = len values2))
  then Raise (ValueError "All input lists must have the same length.")
  else
  let fig := go_Figure [] in
  let showlegend := truthy_str label1 && truthy_str label2 in
  let h := String.eqb orientation "h" in
  let '(x_markers1, y_markers1) :=
    if h then (values1, categories) else (categories, values1) in
  let '(x_markers2, y_markers2) :=
    if h then (values2, categories) else (categories, values2) in
  let rows := zip (zip categories values1) values2 in
  let fig := foldl (λ fig '(cat, val1, val2),
      let '(x_line_vals, y_line_vals) :=
        if h then ([val1; val2], [cat; cat]) else ([cat; cat], [val1; val2]) in
      add_trace (TScatter
        {| sc_x := x_line_vals; sc_y := y_line_vals; sc_mode := "lines";
           sc_line := Some (line_color, line_width); sc_marker := None;
           sc_name := None; sc_showlegend := Some false |}) fig) fig rows in
  let fig := add_trace (TScatter
    {| sc_x := x_markers1; sc_y := y_markers1; sc_mode := "markers";
       sc_line := None; sc_marker := Some (marker_color1, marker_size);
       sc_name := label1; sc_showlegend := Some showlegend |}) fig in
  let fig := add_trace (TScatter
    {| sc_x := x_markers2; sc_y := y_markers2; sc_mode := "markers";
       sc_line := None; sc_marker := Some (marker_color2, marker_size);
       sc_name := label2; sc_showlegend := Some showlegend |}) fig in
  labels ← mapM (λ '(cat, val1, val2),
      dumbbell_labels h marker_color1 marker_color2 cat val1 val2) rows;
  let fig := foldl (λ fig a, add_annotation a fig) fig (mjoin labels) in
  Return (set_layout
    {| ly_title := Some title;
       ly_xaxis := None; ly_yaxis := None; ly_yaxis_scaleanchor := None;
       ly_height := None;
       ly_xaxis_title := Some (if h then "Value" else "Category");
       ly_yaxis_title := Some (if h then "Category" else "Value");
       ly_template := Some "plotly_white"; ly_showlegend := None |} fig).

(** lines 805-847: [label1] and [label2] are replaced by [None] and the
    markers take the colour and the width of the line. *)
Definition line_range (df : option DataFrame)
    (category_col value1_col value2_col : option string)
    (categories values1 values2 : option (list pyval))
    (label1 label2 : option string) (title orientation : string)
    (line_color : string) (line_width : Z) : result Figure :=
  let marker_color1 := line_color in
  let marker_color2 := line_color in
  let marker_size := line_width in
  let label1 : option string := None in
  let label2 : option string := None in
  dumbbell df category_col value1_col value2_col categories values1 values2
           label1 label2 title orientation marker_color1 marker_color2
           line_color marker_size line_width.

(** lines 849-890 *)
Definition lollipop_chart (categories values : list pyval)
    (title stick_color marker_color : string) : result Figure :=
  if negb (bool_decide (len categories = len values))
  then Raise (ValueError "Length of categories and values must match.")
  else
    let fig := go_Figure [] in
    let fig := foldl (λ fig '(x, y),
        add_trace (TScatter
          {| sc_x := [x; x]; sc_y := [PInt 0; y]; sc_mode := "lines";
             sc_line := Some (stick_color, 2); sc_marker := None;
             sc_name := None; sc_showlegend := Some false |}) fig)
      fig (zip categories values) in
    let fig := add_trace (TScatter
      {| sc_x := categories; sc_y := values; sc_mode := "markers";
         sc_line := None; sc_marker := Some (marker_color, 10);
         sc_name := Some "Value"; sc_showlegend := None |}) fig in
    Return (set_layout
      {| ly_title := Some title;
         ly_xaxis := None; ly_yaxis := None; ly_yaxis_scaleanchor := None;
         ly_height := None;
         ly_xaxis_title := Some "Category";
         ly_yaxis_title := Some "Value";
         ly_template := Some "plotly_white";
         ly_showlegend := Some false |} fig).

(** lines 375-388: [fig.to_html(include_plotlyjs='cdn', full_html=False)],
    with plotly's [to_html] as a parameter. *)
Definition plotly_chart (to_html : Figure → string → bool → string)
    (fig : Figure) : string :=
  to_html fig "cdn" false.

(** ** The earlier definitions of the module

    The file holds the helper module twice over: lines 38-337 define
    [plotly_chart] ... [dumbbell] a first time, lines 375-801 define them
    again together with [line_range] and [lollipop_chart], and lines 805-890
    define these two once more.  [Earlier] transcribes the bodies that a later
    [def] of the same name replaces.  A name called inside a body is looked
    up when the call runs, that is in the finished module, so the bodies
    below call the definitions above; they are listed callers first. *)

Module Earlier.

(** lines 716-758 *)
Definition line_range (df : option DataFrame)
    (category_col value1_col value2_col : option string)
    (categories values1 values2 : option (list pyval))
    (label1 label2 : option string) (title orientation : string)
    (line_color : string) (line_width : Z) : result Figure :=
  let marker_color1 := line_color in
  let marker_color2 := line_color in
  let marker_size := line_width in
  let label1 : option string := None in
  let label2 : option string := None in
  dumbbell df category_col value1_col value2_col categories values1 values2
           label1 label2 title orientation marker_color1 marker_color2
           line_color marker_size line_width.

(** lines 760-801 *)
Definition lollipop_chart (categories values : list pyval)
    (title stick_color marker_color : string) : result Figure :=
  if negb (bool_decide (len categories = len values))
  then Raise (ValueError "Length of categories and values must match.")
  else
    let fig := go_Figure [] in
    let fig := foldl (λ fig '(x, y),
        add_trace (TScatter
          {| sc_x := [x; x]; sc_y := [PInt 0; y]; sc_mode := "lines";
             sc_line := Some (stick_color, 2); sc_marker := None;
             sc_name := None; sc_showlegend := Some false |}) fig)
      fig (zip categories values) in
    let fig := add_trace (TScatter
      {| sc_x := categories; sc_y := values; sc_mode := "markers";
         sc_line := None; sc_marker := Some (marker_color, 10);
         sc_name := Some "Value"; sc_showlegend := None |}) fig in
    Return (set_layout
      {| ly_title := Some title;
         ly_xaxis := None; ly_yaxis := None; ly_yaxis_scaleanchor := None;
         ly_height := None;
         ly_xaxis_title := Some "Category";
         ly_yaxis_title := Some "Value";
         ly_template := Some "plotly_white";
         ly_showlegend := Some false |} fig).

(** lines 105-178 *)
Definition waterfall (df : option DataFrame)
    (category_col value_col : option string)
    (labels data : option (list pyval)) (title : string)
    (annotation : option (list string))
    (icolor dcolor tcolor ccolor : string) (color : option string)
    (measure : option (list string)) : result Figure :=
  '(labels, data) ←
    match df with
    | Some df =>
        _ ← check_column df category_col;
        _ ← check_column df value_col;
        category_col ← column_or df category_col 0;
        value_col ← column_or df value_col 1;
        labels ← df_tolist df category_col;
        data ← df_tolist df value_col;
        Return (labels, data)
    | None =>
        if negb (truthy_list labels && truthy_list data)
        then Raise (ValueError
                      "Provide either a DataFrame or labels and data lists.")
        else Return (default [] labels, default [] data)
    end;
  let measure :=
    match measure with
    | None => py_repeat "relative" (len labels - 1) ++ ["total"]
    | Some m => m
    end in
  let '(icolor, dcolor, tcolor, ccolor) :=
    match color with
    | Some c => if truthy_str color then (c, c, c, c)
                else (icolor, dcolor, tcolor, ccolor)
    | None => (icolor, dcolor, tcolor, ccolor)
    end in
  let waterfall_params :=
    {| wf_orientation := "v";
       wf_measure := measure;
       wf_textposition := "outside";
       wf_y := data;
       wf_x := labels;
       wf_connector_color := ccolor;
       wf_decreasing_color := dcolor;
       wf_increasing_color := icolor;
       wf_totals_color := tcolor;
       wf_text := annotation |} in
  Return (set_layout
    {| ly_title := Some title;
       ly_xaxis := None; ly_yaxis := None; ly_yaxis_scaleanchor := None;
       ly_height := None; ly_xaxis_title := None; ly_yaxis_title := None;
       ly_template := None; ly_showlegend := None |}
    (go_Figure [TWaterfall waterfall_params])).

(** lines 181-266 *)
Definition waffle (to_rgb : string → result rgb) (df : option DataFrame)
    (category_col value_col : option string) (data : option dict)
    (title : string) (local_colors : option (list string))
    (startcolor endcolor : string) (fig_height tile_gap : Z)
    (grid_width : option Z) : result Figure :=
  data ←
    match df with
    | Some df =>
        _ ← check_column df category_col;
        _ ← check_column df value_col;
        category_col ← column_or df category_col 0;
        value_col ← column_or df value_col 1;
        ks ← df_tolist df category_col;
        vs ← df_tolist df value_col;
        Return (dict_of_zip ks vs)
    | None =>
        match data with
        | None =>
            Raise (ValueError
                     "Provide either a DataFrame or a data dictionary.")
        | Some d => Return d
        end
    end;
  local_colors ←
    match local_colors with
    | None => get_color_gradient to_rgb startcolor endcolor (len data)
    | Some cs => Return cs
    end;
  counts ← int_values data.*2;
  let total := py_sum counts in
  let number_of_values := len data.*2 in
  let cat := mjoin (imap (λ idx count,
               (λ _, tile_of (Z.of_nat idx)) <$> py_range count) counts) in
  width ←
    match grid_width with
    | Some w => if truthy_int grid_width then Return w else ceil_sqrt total
    | None => ceil_sqrt total
    end;
  q ← py_truediv (inject_Z total) (inject_Z width);
  let height := math_ceil q in
  let padding_length := width * height - len cat in
  let cat := py_repeat nan padding_length ++ cat in
  b ← np_reshape cat width;
  ranges ← get_section_bounds 1 number_of_values;
  colorscale ← mjoin <$> mapM (λ i,
      r0 ← py_getitem ranges i;
      k0 ← py_mod i (len local_colors);
      c0 ← py_getitem local_colors k0;
      r1 ← py_getitem ranges i;
      k1 ← py_mod i (len local_colors);
      c1 ← py_getitem local_colors k1;
      Return [(r0.1, c0); (r1.2, c1)]) (py_range number_of_values);
  tickvals ← find_midpoints (number_of_values - 1) number_of_values;
  let fig := go_Figure [THeatmap
    {| hm_z := np_fliplr b;
       hm_xgap := tile_gap;
       hm_ygap := tile_gap;
       hm_colorbar :=
         {| cb_thickness := 20;
            cb_tickvals := tickvals;
            cb_ticktext := data.*1;
            cb_outlinecolor := "black";
            cb_outlinewidth := 0 |};
       hm_colorscale := colorscale;
       hm_autocolorscale := false |}] in
  Return (set_layout
    {| ly_title := Some title;
       ly_xaxis := Some hidden_axis;
       ly_yaxis := Some hidden_axis;
       ly_yaxis_scaleanchor := Some "x";
       ly_height := Some fig_height;
       ly_xaxis_title := None; ly_yaxis_title := None;
       ly_template := None; ly_showlegend := None |} fig).

(** lines 269-336: the body stops after the marker coordinates.  Line 338
    opens the second copy of the module docstring in column 0, which ends
    the function: no trace is added and nothing is returned, so a call
    that passes the checks gives [None]. *)
Definition dumbbell (df : option DataFrame)
    (category_col value1_col value2_col : option string)
    (categories values1 values2 : option (list pyval))
    (label1 label2 : option string) (title orientation : string)
    (marker_color1 marker_color2 line_color : string)
    (marker_size line_width : Z) : result (option Figure) :=
  '(categories, values1, values2) ←
    match df with
    | Some df =>
        _ ← check_column df category_col;
        _ ← check_column df value1_col;
        _ ← check_column df value2_col;
        category_col ← column_or df category_col 0;
        value1_col ← column_or df value1_col 1;
        value2_col ← column_or df value2_col 2;
        categories ← df_tolist df category_col;
        values1 ← df_tolist df value1_col;
        values2 ← df_tolist df value2_col;
        Return (categories, values1, values2)
    | None =>
        if negb (truthy_list categories && truthy_list values1
                 && truthy_list values2)
        then Raise (ValueError "Provide either a DataFrame or all three lists: categories, values1, and values2.")
        else Return (default [] categories, default [] values1,
                     default [] values2)
    end;
  if negb (bool_decide (len categories = len values1)
           && bool_decide (len values1 = len values2))
  then Raise (ValueError "All input lists must have the same length.")
  else
    let fig := go_Figure [] in
    let showlegend := truthy_str label1 && truthy_str label2 in
    let h := String.eqb orientation "h" in
    let '(x_markers1, y_markers1) :=
      if h then (values1, categories) else (categories, values1) in
    let '(x_markers2, y_markers2) :=
      if h then (values2, categories) else (categories, values2) in
    Return None.

(** lines 38-51 *)
Definition plotly_chart (to_html : Figure → string → bool → string)
    (fig : Figure) : string :=
  to_html fig "cdn" false.

(** lines 54-72 *)
Definition get_color_gradient (to_rgb : string → result rgb)
    (start_color end_color : string) (num_colors : Z)
    : result (list string) :=
  start_rgb ← to_rgb start_color;
  end_rgb ← to_rgb end_color;
  ts ← mapM (λ i, py_truediv (inject_Z i) (inject_Z (num_colors - 1)))
            (py_range num_colors);
  let channel (s e t : Q) : Q := (s + (e - s) * t)%Q in
  let gradient :=
    (λ t, let '(sr, sg, sb) := start_rgb in
          let '(er, eg, eb) := end_rgb in
          (channel sr er t, channel sg eg t, channel sb eb t)) <$> ts in
  Return ((λ '(r, g, b),
             "#" +:+ format_02x (py_int (r * 255)%Q)
                 +:+ format_02x (py_int (g * 255)%Q)
                 +:+ format_02x (py_int (b * 255)%Q)) <$> gradient).

(** lines 75-87 *)
Definition get_section_bounds (x : Q) (y : Z) : result (list (Q * Q)) :=
  section_length ← py_truediv x (inject_Z y);
  Return ((λ i, (inject_Z i * section_length,
                 inject_Z (i + 1) * section_length)%Q) <$> py_range y).

(** lines 90-102 *)
Definition find_midpoints (x y : Z) : result (list Q) :=
  let indices := py_range2 1 (y + 1) in
  mapM (λ i, py_truediv (inject_Z ((2 * i - 1) * x)) (inject_Z (2 * y)))
       indices.

End Earlier.

(** ** The module as a sequence of [def] statements *)

Definition waterfall_t : Type :=
  option DataFrame → option string → option string →
  option (list pyval) → option (list pyval) → string →
  option (list string) → string → string → string → string →
  option string → option (list string) → result Figure.

Definition waffle_t : Type :=
  option DataFrame → option string → option string → option dict →
  string → option (list string) → string → string → Z → Z → option Z →
  result Figure.

Definition dumbbell_t (R : Type) : Type :=
  option DataFrame → option string → option string → option string →
  option (list pyval) → option (list pyval) → option (list pyval) →
  option string → option string → string → string →
  string → string → string → Z → Z → result R.

Definition line_range_t : Type :=
  option DataFrame → option string → option string → option string →
  option (list pyval) → option (list pyval) → option (list pyval) →
  option string → option string → string → string → string → Z →
  result Figure.

(** A function object, by the name it is defined under.  What a call of
    [dumbbell] evaluates to is a figure or [None]. *)
Inductive pyfun : Type :=
  | Fplotly_chart (f : Figure → string)
  | Fget_color_gradient (f : string → string → Z → result (list string))
  | Fget_section_bounds (f : Q → Z → result (list (Q * Q)))
  | Ffind_midpoints (f : Z → Z → result (list Q))
  | Fwaterfall (f : waterfall_t)
  | Fwaffle (f : waffle_t)
  | Fdumbbell (f : dumbbell_t (option Figure))
  | Fline_range (f : line_range_t)
  | Flollipop_chart
      (f : list pyval → list pyval → string → string → string → result Figure).

(** The figure a completed call of the full [dumbbell] returns. *)
Definition dumbbell_fun : dumbbell_t (option Figure) :=
  λ df category_col value1_col value2_col categories values1 values2
    label1 label2 title orientation marker_color1 marker_color2 line_color
    marker_size line_width,
  Some <$> dumbbell df category_col value1_col value2_col categories values1
                    values2 label1 label2 title orientation marker_color1
                    marker_color2 line_color marker_size line_width.

Section module.
Variable to_rgb : string → result rgb.
Variable to_html : Figure → string → bool → string.

(** The eighteen [def] statements, in the order of the file. *)
Definition module_defs : list (string * pyfun) :=
  [ ("plotly_chart", Fplotly_chart (Earlier.plotly_chart to_html));
    ("get_color_gradient",
       Fget_color_gradient (Earlier.get_color_gradient to_rgb));
    ("get_section_bounds", Fget_section_bounds Earlier.get_section_bounds);
    ("find_midpoints", Ffind_midpoints Earlier.find_midpoints);
    ("waterfall", Fwaterfall Earlier.waterfall);
    ("waffle", Fwaffle (Earlier.waffle to_rgb));
    ("dumbbell", Fdumbbell Earlier.dumbbell);
    ("plotly_chart", Fplotly_chart (plotly_chart to_html));
    ("get_color_gradient", Fget_color_gradient (get_color_gradient to_rgb));
    ("get_section_bounds", Fget_section_bounds get_section_bounds);
    ("find_midpoints", Ffind_midpoints find_midpoints);
    ("waterfall", Fwaterfall waterfall);
    ("waffle", Fwaffle (waffle to_rgb));
    ("dumbbell", Fdumbbell dumbbell_fun);
    ("line_range", Fline_range Earlier.line_range);
    ("lollipop_chart", Flollipop_chart Earlier.lollipop_chart);
    ("line_range", Fline_range line_range);
    ("lollipop_chart", Flollipop_chart lollipop_chart) ].

(** Executing a [def] binds the name, replacing an earlier binding. *)
Definition exec_def (ns : gmap string pyfun) (d : string * pyfun)
    : gmap string pyfun :=
  <[d.1 := d.2]> ns.

(** The namespace of the module once it is loaded. *)
Definition module_namespace : gmap string pyfun :=
  foldl exec_def ∅ module_defs.
End module.

(** ** Vocabulary of the statements *)

(** A typed category-count mapping [Dict[str, int]] as a dict. *)
Definition dict_of (counts : list (string * Z)) : dict :=
  (λ kc, (PStr kc.1, PInt kc.2)) <$> counts.

(** The cells of a grid in row-major order. *)
Definition cells (z : list (list tile)) : list tile := mjoin z.

(** How many cells hold [t]. *)
Definition count_of (t : tile) (l : list tile) : nat :=
  length (filter (λ c, c = t) l).

(** The cells that carry a category. *)
Definition populated (l : list tile) : list tile := filter (λ c, c ≠ nan) l.

(** A value that [<] compares with a number. *)
Definition is_number (v : pyval) : Prop :=
  match v with PStr _ => False | _ => True end.

(** The heat map of a figure made of one. *)
Definition heatmap_of (fig : Figure) : option Heatmap :=
  match fig_data fig with [THeatmap hm] => Some hm | _ => None end.


(** Strictly increasing and non-decreasing sequences of positions. *)
Definition increasing (l : list Q) : Prop :=
  ∀ i a b, l !! i = Some a → l !! S i = Some b → (a < b)%Q.

(** The points [(x, y)] of the marker traces of a figure. *)
Definition marker_points (fig : Figure) : list (list (pyval * pyval)) :=
  omap (λ t, match t with
             | TScatter s =>
                 if String.eqb (sc_mode s) "markers"
                 then Some (zip (sc_x s) (sc_y s)) else None
             | _ => None
             end) (fig_data fig).

(** An instance of the [to_rgb] parameter: the two CSS colours that are the
    defaults of [waffle], with the channels matplotlib gives them
    (lightblue is #ADD8E6, darkblue is #00008B). *)
Definition named_rgb (name : string) : result rgb :=
  if String.eqb name "lightblue"
  then Return (173 # 255, 216 # 255, 230 # 255)%Q
  else if String.eqb name "darkblue"
  then Return (0, 0, 139 # 255)%Q
  else Raise ColorError.

(** [waffle(data=counts, local_colors=..., grid_width=...)] with every other
    argument at its default. *)
Definition waffle_call (counts : list (string * Z))
    (local_colors : option (list string)) (grid_width : option Z)
    : result Figure :=
  waffle named_rgb None None None (Some (dict_of counts)) "" local_colors
         "lightblue" "darkblue" 600 2 grid_width.

(** [dumbbell(categories=..., values1=..., values2=..., orientation=...)]
    with every other argument at its default. *)
Definition dumbbell_call (categories values1 values2 : list pyval)
    (orientation : string) : result Figure :=
  dumbbell None None None None (Some categories) (Some values1) (Some values2)
           (Some "") (Some "") "Dumbbell Chart" orientation
           "blue" "orange" "gray" 10 2.

(** The tiles in insertion order: the first category's index as many times as
    its count, then the next category's, and so on. *)
Fixpoint tiles_in_order (idx : Z) (counts : list (string * Z)) : list tile :=
  match counts with
  | [] => []
  | (_, k) :: rest =>
      replicate (Z.to_nat k) (tile_of idx) ++ tiles_in_order (idx + 1) rest
  end.

(** The colour of band [i] when the colours are taken cyclically, and the two
    breakpoints that bound the band. *)
Definition band_color (cs : list string) (i : Z) : string :=
  default "" (cs !! Z.to_nat (i mod len cs)).

Definition band_breakpoints (n : Z) (cs : list string) (i : Z)
    : list (Q * string) :=
  [ ((inject_Z i * (1 / inject_Z n))%Q, band_color cs i);
    ((inject_Z (i + 1) * (1 / inject_Z n))%Q, band_color cs i) ].

(** The midpoint of band [i] (from 0) when [[0, x]] is cut into [n] equal
    bands: half the sum of the two ends of the band. *)
Definition midpoint_of_band (x n i : Z) : Q :=
  ((inject_Z i * (inject_Z x / inject_Z n)
    + inject_Z (i + 1) * (inject_Z x / inject_Z n)) / 2)%Q.

(** The figure of [waffle] from the results of its steps. *)
Definition waffle_figure (data : dict) (title : string) (fig_height tile_gap : Z)
    (b : list (list tile)) (colorscale : list (Q * string))
    (tickvals : list Q) : Figure :=
  set_layout
    {| ly_title := Some title;
       ly_xaxis := Some hidden_axis;
       ly_yaxis := Some hidden_axis;
       ly_yaxis_scaleanchor := Some "x";
       ly_height := Some fig_height;
       ly_xaxis_title := None; ly_yaxis_title := None;
       ly_template := None; ly_showlegend := None |}
    (go_Figure [THeatmap
      {| hm_z := np_fliplr b;
         hm_xgap := tile_gap;
         hm_ygap := tile_gap;
         hm_colorbar :=
           {| cb_thickness := 20;
              cb_tickvals := tickvals;
              cb_ticktext := data.*1;
              cb_outlinecolor := "black";
              cb_outlinewidth := 0 |};
         hm_colorscale := colorscale;
         hm_autocolorscale := false |}]).

(** The figure of [dumbbell] (lines 668-713) from the checked lists and the
    value labels. *)
Definition dumbbell_figure (categories values1 values2 : list pyval)
    (label1 label2 : option string) (title orientation : string)
    (marker_color1 marker_color2 line_color : string)
    (marker_size line_width : Z) (labels : list (list Annotation)) : Figure :=
  let fig := go_Figure [] in
  let showlegend := truthy_str label1 && truthy_str label2 in
  let h := String.eqb orientation "h" in
  let '(x_markers1, y_markers1) :=
    if h then (values1, categories) else (categories, values1) in
  let '(x_markers2, y_markers2) :=
    if h then (values2, categories) else (categories, values2) in
  let rows := zip (zip categories values1) values2 in
  let fig := foldl (λ fig '(cat, val1, val2),
      let '(x_line_vals, y_line_vals) :=
        if h then ([val1; val2], [cat; cat]) else ([cat; cat], [val1; val2]) in
      add_trace (TScatter
        {| sc_x := x_line_vals; sc_y := y_line_vals; sc_mode := "lines";
           sc_line := Some (line_color, line_width); sc_marker := None;
           sc_name := None; sc_showlegend := Some false |}) fig) fig rows in
  let fig := add_trace (TScatter
    {| sc_x := x_markers1; sc_y := y_markers1; sc_mode := "markers";
       sc_line := None; sc_marker := Some (marker_color1, marker_size);
       sc_name := label1; sc_showlegend := Some showlegend |}) fig in
  let fig := add_trace (TScatter
    {| sc_x := x_markers2; sc_y := y_markers2; sc_mode := "markers";
       sc_line := None; sc_marker := Some (marker_color2, marker_size);
       sc_name := label2; sc_showlegend := Some showlegend |}) fig in
  let fig := foldl (λ fig a, add_annotation a fig) fig (mjoin labels) in
  set_layout
    {| ly_title := Some title;
       ly_xaxis := None; ly_yaxis := None; ly_yaxis_scaleanchor := None;
       ly_height := None;
       ly_xaxis_title := Some (if h then "Value" else "Category");
       ly_yaxis_title := Some (if h then "Category" else "Value");
       ly_template := Some "plotly_white"; ly_showlegend := None |} fig.

(** The error of the length check of [dumbbell]. *)
Definition length_mismatch : pyerr :=
  ValueError "All input lists must have the same length.".

(** The error of [dumbbell] when an input is missing or empty. *)
Definition missing_lists : pyerr :=
  ValueError "Provide either a DataFrame or all three lists: categories, values1, and values2.".


(** ** Vocabulary of the further properties *)

(** The hex code of a colour, as the last line of [get_color_gradient]
    formats it. *)
Definition rgb_hex (c : rgb) : string :=
  let '(r, g, b) := c in
  "#" +:+ format_02x (py_int (r * 255)%Q)
      +:+ format_02x (py_int (g * 255)%Q)
      +:+ format_02x (py_int (b * 255)%Q).

(** A colour as [to_rgb] gives it: three channels between [0] and [1]. *)
Definition unit_rgb (c : rgb) : Prop :=
  let '(r, g, b) := c in
  ((0 <= r)%Q ∧ (r <= 1)%Q) ∧ ((0 <= g)%Q ∧ (g <= 1)%Q)
  ∧ ((0 <= b)%Q ∧ (b <= 1)%Q).

(** A scatter trace with its two axes exchanged. *)
Definition transpose_trace (t : trace) : trace :=
  match t with
  | TScatter s =>
      TScatter {| sc_x := sc_y s; sc_y := sc_x s; sc_mode := sc_mode s;
                  sc_line := sc_line s; sc_marker := sc_marker s;
                  sc_name := sc_name s; sc_showlegend := sc_showlegend s |}
  | _ => t
  end.

(** The error of a named column that the DataFrame does not have. *)
Definition column_not_found (c : string) : pyerr :=
  ValueError ("Column '" +:+ c +:+ "' not found in DataFrame.").

(** The line of one category in a dumbbell chart: from its first value to
    its second, along the value axis ([h] for a horizontal chart). *)
Definition line_trace (h : bool) (line_color : string) (line_width : Z)
    (row : pyval * pyval * pyval) : Scatter :=
  let '(cat, val1, val2) := row in
  {| sc_x := if h then [val1; val2] else [cat; cat];
     sc_y := if h then [cat; cat] else [val1; val2];
     sc_mode := "lines";
     sc_line := Some (line_color, line_width); sc_marker := None;
     sc_name := None; sc_showlegend := Some false |}.

(** The markers of one series of values in a dumbbell chart. *)
Definition marker_trace (h : bool) (categories values : list pyval)
    (color : string) (size : Z) (name : option string) (showlegend : bool)
    : Scatter :=
  {| sc_x := if h then values else categories;
     sc_y := if h then categories else values;
     sc_mode := "markers";
     sc_line := None; sc_marker := Some (color, size);
     sc_name := name; sc_showlegend := Some showlegend |}.

(** A value label of a dumbbell chart read along the value axis ([h] for a
    horizontal chart): its shift, its shift across, and its point as the
    value and the category. *)
Definition label_shift (h : bool) (a : Annotation) : option Z :=
  if h then an_xshift a else an_yshift a.

Definition label_point (h : bool) (a : Annotation) : pyval * pyval :=
  if h then (an_x a, an_y a) else (an_y a, an_x a).

(** * Properties *)
(** ** The error monad *)

Lemma bind_Return {A B} (f : A → result B) (a : A) :
  (Return a ≫= f) = f a.
Proof. reflexivity. Qed.

Lemma bind_Raise {A B} (f : A → result B) (e : pyerr) :
  (Raise e ≫= f) = Raise e.
Proof. reflexivity. Qed.

Lemma fmap_Return {A B} (f : A → B) (a : A) :
  f <$> Return a = Return (f a).
Proof. reflexivity. Qed.

Lemma mapM_cons {A B} (f : A → result B) (x : A) (l : list A) :
  mapM f (x :: l) = (y ← f x; k ← mapM f l; Return (y :: k)).
Proof. reflexivity. Qed.

(** A loop none of whose steps raises returns the list of the results. *)
Lemma mapM_Return {A B} (f : A → result B) (g : A → B) (l : list A) :
  (∀ x, x ∈ l → f x = Return (g x)) → mapM f l = Return (g <$> l).
Proof.
  induction l as [|x l IH]; intros Hf; [reflexivity|].
  rewrite mapM_cons, (Hf x) by left.
  rewrite bind_Return, IH; [reflexivity|].
  intros y Hy. apply Hf. by right.
Qed.

(** A loop whose first step raises raises the same error. *)
Lemma mapM_Raise_head {A B} (f : A → result B) (x : A) (l : list A) e :
  f x = Raise e → mapM f (x :: l) = Raise e.
Proof. intros Hx. by rewrite mapM_cons, Hx. Qed.

Lemma int_values_dict_of (counts : list (string * Z)) :
  int_values (dict_of counts).*2 = Return counts.*2.
Proof.
  unfold int_values, dict_of.
  rewrite <- list_fmap_compose.
  rewrite (mapM_Return _ (λ v, match v with PInt z => z | _ => 0 end)).
  - f_equal. rewrite <- !list_fmap_compose. by apply list_fmap_ext.
  - intros v Hv. apply list_elem_of_fmap in Hv as [kc [-> _]]. reflexivity.
Qed.

Lemma length_dict_of (counts : list (string * Z)) :
  length (dict_of counts) = length counts.
Proof. unfold dict_of. apply length_fmap. Qed.

(** ** Ranges and repetition *)

Lemma py_range_nonpos (k : Z) : k ≤ 0 → py_range k = [].
Proof.
  intros Hk. unfold py_range, seqZ.
  by replace (Z.to_nat k) with 0%nat by lia.
Qed.

Lemma fmap_const_py_range {A} (a : A) (k : Z) :
  (λ _, a) <$> py_range k = replicate (Z.to_nat k) a.
Proof.
  unfold py_range, seqZ. rewrite <- list_fmap_compose.
  generalize 0%nat. induction (Z.to_nat k) as [|n IH]; intros s; [done|].
  simpl. f_equal. apply IH.
Qed.

Lemma elem_of_py_range (i k : Z) : i ∈ py_range k ↔ 0 ≤ i < k.
Proof.
  unfold py_range. rewrite list_elem_of_lookup. split.
  - intros [j Hj]. apply lookup_seqZ in Hj. lia.
  - intros Hi. exists (Z.to_nat i). apply lookup_seqZ. lia.
Qed.

Lemma py_range_lookup (k : Z) (i : nat) :
  Z.of_nat i < k → py_range k !! i = Some (Z.of_nat i).
Proof. intros Hi. unfold py_range. by rewrite lookup_seqZ_lt. Qed.

Lemma length_py_range (k : Z) : length (py_range k) = Z.to_nat k.
Proof. apply length_seqZ. Qed.

(** ** The flat category sequence (line 566) *)

Lemma count_of_app (t : tile) (l1 l2 : list tile) :
  count_of t (l1 ++ l2) = (count_of t l1 + count_of t l2)%nat.
Proof. unfold count_of. by rewrite filter_app, length_app. Qed.

Lemma count_of_replicate (t u : tile) (n : nat) :
  count_of t (replicate n u) = if decide (u = t) then n else 0%nat.
Proof.
  unfold count_of. induction n as [|n IH]; simpl.
  - by destruct (decide (u = t)).
  - rewrite filter_cons. destruct (decide (u = t)); simpl; by rewrite IH.
Qed.

Lemma populated_app (l1 l2 : list tile) :
  populated (l1 ++ l2) = populated l1 ++ populated l2.
Proof. apply filter_app. Qed.

Lemma populated_replicate_nan (n : nat) : populated (replicate n nan) = [].
Proof.
  unfold populated. induction n as [|n IH]; [done|].
  simpl. rewrite filter_cons. by destruct (decide (nan ≠ nan)).
Qed.

Lemma populated_id (l : list tile) : nan ∉ l → populated l = l.
Proof.
  unfold populated. induction l as [|t l IH]; intros Hl; [done|].
  rewrite filter_cons. destruct (decide (t ≠ nan)) as [_|Ht].
  - f_equal. apply IH. intros ?. apply Hl. by right.
  - exfalso. apply Hl. apply dec_stable in Ht. subst. by left.
Qed.

Lemma waffle_tiles_in_order_from (o : nat) (counts : list (string * Z)) :
  mjoin (imap (λ idx count,
           (λ _, tile_of (Z.of_nat (o + idx))) <$> py_range count) counts.*2)
  = tiles_in_order (Z.of_nat o) counts.
Proof.
  revert o. induction counts as [|[c k] counts IH]; intros o; [done|].
  rewrite fmap_cons, imap_cons. simpl.
  rewrite fmap_const_py_range, Nat.add_0_r. f_equal.
  replace (Z.of_nat o + 1) with (Z.of_nat (S o)) by lia.
  rewrite <- IH. f_equal. apply imap_ext. intros i x _. simpl.
  by replace (o + S i)%nat with (S o + i)%nat by lia.
Qed.

(** The comprehension of line 566 lists the tiles in insertion order. *)
Lemma waffle_tiles_in_order (counts : list (string * Z)) :
  waffle_tiles counts.*2 = tiles_in_order 0 counts.
Proof. apply (waffle_tiles_in_order_from 0). Qed.

Lemma len_tiles_in_order (o : Z) (counts : list (string * Z)) :
  Forall (λ kc, 0 ≤ kc.2) counts →
  len (tiles_in_order o counts) = py_sum counts.*2.
Proof.
  intros Hpos. revert o.
  induction Hpos as [|[c k] counts Hk _ IH]; intros o; [done|].
  unfold len in *. simpl in *.
  rewrite length_app, length_replicate, Nat2Z.inj_add, IH.
  rewrite Z2Nat.id by done. reflexivity.
Qed.

Lemma elem_of_tiles_in_order (o : Z) (counts : list (string * Z)) (t : tile) :
  t ∈ tiles_in_order o counts →
  ∃ i c k, t = tile_of (o + Z.of_nat i) ∧ counts !! i = Some (c, k).
Proof.
  revert o. induction counts as [|[c k] counts IH]; intros o; simpl.
  - by intros ?%elem_of_nil.
  - rewrite elem_of_app. intros [Ht|Ht].
    + apply elem_of_replicate in Ht as [-> _].
      exists 0%nat, c, k. split; [f_equal; lia|done].
    + apply IH in Ht as (i & c' & k' & -> & Hi).
      exists (S i), c', k'. split; [f_equal; lia|done].
Qed.

Lemma nan_not_in_tiles (o : Z) (counts : list (string * Z)) :
  nan ∉ tiles_in_order o counts.
Proof. by intros (i & c & k & ? & _)%elem_of_tiles_in_order. Qed.

Lemma count_of_absent (t : tile) (l : list tile) : t ∉ l → count_of t l = 0%nat.
Proof.
  unfold count_of. induction l as [|u l IH]; intros Hl; [done|].
  rewrite filter_cons. destruct (decide (u = t)) as [->|_].
  - exfalso. apply Hl. by left.
  - apply IH. intros ?. apply Hl. by right.
Qed.

(** The [i]-th category holds as many tiles as its count. *)
Lemma count_of_tiles_in_order (o : Z) (counts : list (string * Z)) i c k :
  counts !! i = Some (c, k) →
  count_of (tile_of (o + Z.of_nat i)) (tiles_in_order o counts) = Z.to_nat k.
Proof.
  revert o i. induction counts as [|[c' k'] counts IH]; intros o i; [done|].
  simpl. rewrite count_of_app, count_of_replicate. destruct i as [|i]; simpl.
  - intros [= -> ->]. rewrite decide_True by (f_equal; lia).
    rewrite count_of_absent; [lia|].
    intros (j & ? & ? & [= Hj] & _)%elem_of_tiles_in_order. lia.
  - intros Hi. rewrite decide_False by (intros [= ?]; lia).
    replace (o + Z.of_nat (S i)) with (o + 1 + Z.of_nat i) by lia.
    by rewrite (IH _ _ Hi).
Qed.

(** ** Width and height of the grid (lines 568-569) *)

Lemma py_truediv_nonzero (x : Q) (z : Z) :
  z ≠ 0 → py_truediv x (inject_Z z) = Return (x / inject_Z z)%Q.
Proof.
  intros Hz. unfold py_truediv.
  destruct (Qeq_bool (inject_Z z) 0) eqn:E; [|done].
  apply Qeq_bool_iff in E. unfold Qeq, inject_Z in E. simpl in E. lia.
Qed.

Lemma py_truediv_zero (x : Q) : py_truediv x (inject_Z 0) = Raise ZeroDivisionError.
Proof. reflexivity. Qed.

(** The ceiling of a quotient of ints with a positive divisor. *)
Lemma math_ceil_div (t w : Z) :
  0 < w → math_ceil (inject_Z t / inject_Z w)%Q = (t + w - 1) / w.
Proof.
  intros Hw. destruct w as [|p|p]; try lia.
  unfold math_ceil, Qceiling, Qfloor, Qdiv, Qinv, Qmult, Qopp, inject_Z.
  simpl. rewrite Z.mul_1_r, Pos.mul_1_l.
  assert (Hdm := Z.div_mod (- t) (Z.pos p) ltac:(lia)).
  assert (Hr := Z.mod_pos_bound (- t) (Z.pos p) ltac:(lia)).
  apply Z.div_unique with (r := (Z.pos p - 1 - (- t) mod Z.pos p)).
  - left. lia.
  - lia.
Qed.

(** The bounds that make [h] the ceiling of [t / w]. *)
Lemma ceil_div_bounds (t w : Z) :
  0 < w → w * ((t + w - 1) / w - 1) < t ≤ w * ((t + w - 1) / w).
Proof.
  intros Hw.
  assert (Hdm := Z.div_mod (t + w - 1) w ltac:(lia)).
  assert (Hr := Z.mod_pos_bound (t + w - 1) w Hw). lia.
Qed.

Lemma waffle_height_pos (t w : Z) :
  0 < w → waffle_height t w = Return ((t + w - 1) / w).
Proof.
  intros Hw. unfold waffle_height.
  rewrite py_truediv_nonzero by lia. simpl. by rewrite math_ceil_div.
Qed.

(** With nothing to place the height is zero whatever the sign of the width. *)
Lemma waffle_height_zero_total (w : Z) : w ≠ 0 → waffle_height 0 w = Return 0.
Proof.
  intros Hw. unfold waffle_height. rewrite py_truediv_nonzero by done.
  destruct w; done.
Qed.

Lemma waffle_width_supplied (t w : Z) :
  w ≠ 0 → waffle_width t (Some w) = Return w.
Proof.
  intros Hw. unfold waffle_width, truthy_int.
  by destruct (Z.eqb_spec w 0).
Qed.

Lemma waffle_width_zero (t : Z) : waffle_width t (Some 0) = waffle_width t None.
Proof. reflexivity. Qed.

(** The default width of a positive total is positive. *)
Lemma waffle_width_default (t : Z) :
  0 < t → ∃ w, waffle_width t None = Return w ∧ 0 < w.
Proof.
  intros Ht. exists (Z.sqrt_up t). split.
  - unfold waffle_width, ceil_sqrt. by rewrite decide_False by lia.
  - by apply Z.sqrt_up_pos.
Qed.

(** ** Reshape and flip (lines 573 and 582) *)

Lemma np_reshape_exact (cat : list tile) (w h : Z) :
  0 < w → 0 ≤ h → len cat = w * h →
  np_reshape cat w
  = Return (reshape (replicate (Z.to_nat h) (Z.to_nat w)) cat).
Proof.
  intros Hw Hh Hlen. unfold np_reshape.
  rewrite decide_False by lia. rewrite Hlen.
  rewrite decide_True by (rewrite Z.mul_comm; by apply Z.mod_mul; lia).
  rewrite (Z.mul_comm w h), Z.div_mul by lia. reflexivity.
Qed.

Lemma np_reshape_nonpos (cat : list tile) (w : Z) :
  w ≤ 0 → np_reshape cat w = Raise ReshapeError.
Proof. intros Hw. unfold np_reshape. by rewrite decide_True. Qed.

Lemma cells_reshape (cat : list tile) (w h : nat) :
  length cat = (w * h)%nat → cells (reshape (replicate h w) cat) = cat.
Proof.
  intros Hlen. unfold cells. apply join_reshape.
  rewrite sum_list_replicate. lia.
Qed.

Lemma rows_reshape (cat : list tile) (w h : nat) :
  length cat = (w * h)%nat →
  Forall (λ row, length row = w) (reshape (replicate h w) cat).
Proof.
  revert cat. induction h as [|h IH]; intros cat Hlen; simpl; [done|].
  constructor.
  - rewrite length_take. lia.
  - apply IH. rewrite length_drop. lia.
Qed.

Lemma length_np_fliplr (b : list (list tile)) :
  length (np_fliplr b) = length b.
Proof. apply length_fmap. Qed.

Lemma rows_np_fliplr (b : list (list tile)) (w : nat) :
  Forall (λ row, length row = w) b →
  Forall (λ row, length row = w) (np_fliplr b).
Proof.
  unfold np_fliplr. intros Hb. apply Forall_fmap.
  eapply Forall_impl; [exact Hb|]. intros row Hrow. simpl.
  by rewrite length_reverse.
Qed.

(** The flip of a flip is the grid itself. *)
Lemma np_fliplr_involutive (b : list (list tile)) : np_fliplr (np_fliplr b) = b.
Proof.
  unfold np_fliplr. rewrite <- list_fmap_compose.
  rewrite <- (list_fmap_id b) at 2. apply list_fmap_ext.
  intros _ row _. simpl. apply reverse_involutive.
Qed.

(** The flip moves cells inside their row: it keeps the cells of the grid up
    to their order. *)
Lemma cells_np_fliplr (b : list (list tile)) : cells (np_fliplr b) ≡ₚ cells b.
Proof.
  unfold cells, np_fliplr. induction b as [|row b IH]; [done|].
  simpl. by rewrite IH, reverse_Permutation.
Qed.

Lemma count_of_Permutation (t : tile) (l1 l2 : list tile) :
  l1 ≡ₚ l2 → count_of t l1 = count_of t l2.
Proof. intros Hp. unfold count_of. by rewrite Hp. Qed.

Lemma populated_Permutation (l1 l2 : list tile) :
  l1 ≡ₚ l2 → length (populated l1) = length (populated l2).
Proof. intros Hp. unfold populated. by rewrite Hp. Qed.

(** ** Quotients of ints as rationals *)

Lemma Qdiv_inject_Z (a b : Z) :
  0 < b → (inject_Z a / inject_Z b == a # Z.to_pos b)%Q.
Proof.
  intros Hb. destruct b as [|p|p]; try lia.
  unfold Qdiv, Qinv, Qmult, Qeq, inject_Z. simpl.
  rewrite Pos.mul_1_l. lia.
Qed.

Lemma Qdiv_inject_Z_lt (a b c d : Z) :
  0 < b → 0 < d →
  (inject_Z a / inject_Z b < inject_Z c / inject_Z d)%Q ↔ a * d < c * b.
Proof.
  intros Hb Hd. rewrite !Qdiv_inject_Z by done.
  unfold Qlt. simpl. by rewrite !Z2Pos.id by done.
Qed.

Lemma Qdiv_inject_Z_le (a b c d : Z) :
  0 < b → 0 < d →
  (inject_Z a / inject_Z b <= inject_Z c / inject_Z d)%Q ↔ a * d ≤ c * b.
Proof.
  intros Hb Hd. rewrite !Qdiv_inject_Z by done.
  unfold Qle. simpl. by rewrite !Z2Pos.id by done.
Qed.

Lemma Qdiv_inject_Z_pos (a b : Z) :
  0 < b → 0 < a → (0 < inject_Z a / inject_Z b)%Q.
Proof.
  intros Hb Ha. rewrite Qdiv_inject_Z by done. unfold Qlt. simpl. lia.
Qed.

Lemma Qdiv_inject_Z_below (a b c : Z) :
  0 < b → a < c * b → (inject_Z a / inject_Z b < inject_Z c)%Q.
Proof.
  intros Hb Ha. rewrite Qdiv_inject_Z by done. unfold Qlt. simpl.
  rewrite Z2Pos.id by done. lia.
Qed.


(** ** Section bounds and the colour scale (lines 412-424 and 575-579) *)

Lemma get_section_bounds_pos (x : Q) (y : Z) :
  y ≠ 0 →
  get_section_bounds x y
  = Return ((λ i, (inject_Z i * (x / inject_Z y),
                   inject_Z (i + 1) * (x / inject_Z y))%Q) <$> py_range y).
Proof.
  intros Hy. unfold get_section_bounds. by rewrite py_truediv_nonzero.
Qed.

Lemma get_section_bounds_zero (x : Q) :
  get_section_bounds x 0 = Raise ZeroDivisionError.
Proof. reflexivity. Qed.

Lemma py_getitem_lookup {A} (l : list A) (i : nat) (a : A) :
  l !! i = Some a → py_getitem l (Z.of_nat i) = Return a.
Proof.
  intros Hi. unfold py_getitem.
  destruct (decide (Z.of_nat i < 0)) as [?|_]; [lia|].
  destruct (decide (Z.of_nat i < 0)) as [?|_]; [lia|].
  by rewrite Nat2Z.id, Hi.
Qed.

(** The colour of band [i]: the list of colours taken cyclically. *)
Lemma cyclic_color (cs : list string) (i : Z) :
  cs ≠ [] → 0 ≤ i →
  ∃ c, cs !! Z.to_nat (i mod len cs) = Some c ∧
       (k ← py_mod i (len cs); py_getitem cs k) = Return c.
Proof.
  intros Hcs Hi.
  assert (0 < len cs) as Hlen by (destruct cs; [done|unfold len; simpl; lia]).
  assert (Hm := Z.mod_pos_bound i (len cs) Hlen).
  destruct (lookup_lt_is_Some_2 cs (Z.to_nat (i mod len cs))) as [c Hc].
  { unfold len in *. lia. }
  exists c. split; [done|].
  unfold py_mod. rewrite decide_False by lia. simpl.
  rewrite <- (Z2Nat.id (i mod len cs)) by lia.
  by apply py_getitem_lookup.
Qed.

Lemma waffle_colorscale_bands (n : Z) (cs : list string) :
  0 < n → cs ≠ [] →
  waffle_colorscale n cs = Return (mjoin (band_breakpoints n cs <$> py_range n)).
Proof.
  intros Hn Hcs. unfold waffle_colorscale.
  rewrite get_section_bounds_pos by lia. rewrite bind_Return.
  rewrite (mapM_Return _ (band_breakpoints n cs)); [done|].
  intros i [Hi0 Hin]%elem_of_py_range.
  destruct (cyclic_color cs i Hcs Hi0) as (c & Hc & Hget).
  destruct (Z_of_nat_complete i Hi0) as [j ->].
  erewrite !py_getitem_lookup; cycle 1.
  { rewrite list_lookup_fmap, py_range_lookup by lia. reflexivity. }
  simpl.
  unfold band_breakpoints, band_color. rewrite Hc. simpl.
  unfold py_mod in *. destruct (decide (len cs = 0)) as [?|_]; [done|].
  simpl in *. by rewrite Hget.
Qed.

(** An empty list of colours stops the first band on [i % 0]. *)
Lemma waffle_colorscale_no_color (n : Z) :
  0 < n → waffle_colorscale n [] = Raise ZeroDivisionError.
Proof.
  intros Hn. unfold waffle_colorscale.
  rewrite get_section_bounds_pos by lia. rewrite bind_Return.
  unfold py_range, seqZ. destruct (Z.to_nat n) as [|m] eqn:E; [lia|].
  change (seq 0 (S m)) with (0%nat :: seq 1 m). rewrite fmap_cons.
  by rewrite (mapM_Raise_head _ _ _ ZeroDivisionError).
Qed.

Section pairs.
Context {X : Type} (a b : Z → X).



End pairs.





(** ** Tick positions (lines 427-439) *)

Lemma find_midpoints_pos (x y : Z) :
  0 < y →
  find_midpoints x y
  = Return ((λ i, (inject_Z ((2 * i - 1) * x) / inject_Z (2 * y))%Q)
              <$> py_range2 1 (y + 1)).
Proof.
  intros Hy. unfold find_midpoints. apply mapM_Return.
  intros i _. by rewrite py_truediv_nonzero by lia.
Qed.

Lemma lookup_ticks (x y : Z) (j : nat) (t : Q) :
  ((λ i, (inject_Z ((2 * i - 1) * x) / inject_Z (2 * y))%Q)
     <$> py_range2 1 (y + 1)) !! j = Some t →
  Z.of_nat j < y ∧
  t = (inject_Z ((2 * Z.of_nat j + 1) * x) / inject_Z (2 * y))%Q.
Proof.
  rewrite list_lookup_fmap. unfold py_range2.
  destruct (seqZ 1 (y + 1 - 1) !! j) as [i|] eqn:Hi; [|done].
  apply lookup_seqZ in Hi as [-> Hj]. intros [= <-].
  split; [lia|].
  by replace (2 * (1 + Z.of_nat j) - 1) with (2 * Z.of_nat j + 1) by lia.
Qed.

Lemma length_ticks (x y : Z) :
  0 ≤ y →
  len ((λ i, (inject_Z ((2 * i - 1) * x) / inject_Z (2 * y))%Q)
         <$> py_range2 1 (y + 1)) = y.
Proof.
  intros Hy. unfold len, py_range2. rewrite length_fmap, length_seqZ. lia.
Qed.

(** A tick is the midpoint of its band of [[0, x]]. *)
Lemma tick_midpoint (x y j : Z) :
  0 < y →
  (inject_Z ((2 * j + 1) * x) / inject_Z (2 * y) == midpoint_of_band x y j)%Q.
Proof.
  intros Hy. unfold midpoint_of_band.
  rewrite !inject_Z_mult, !inject_Z_plus, !inject_Z_mult.
  change (inject_Z 2) with 2%Q. change (inject_Z 1) with 1%Q.
  field. intros Hq. unfold Qeq, inject_Z in Hq. simpl in Hq. lia.
Qed.

Lemma ticks_increasing (x y : Z) :
  0 < x → 0 < y →
  increasing ((λ i, (inject_Z ((2 * i - 1) * x) / inject_Z (2 * y))%Q)
                <$> py_range2 1 (y + 1)).
Proof.
  intros Hx Hy j p q Hp Hq.
  apply lookup_ticks in Hp as [_ ->]. apply lookup_ticks in Hq as [_ ->].
  apply Qdiv_inject_Z_lt; nia.
Qed.

Lemma ticks_inside (x y : Z) :
  0 < x → 0 < y →
  Forall (λ t, (0 < t)%Q ∧ (t < inject_Z x)%Q)
         ((λ i, (inject_Z ((2 * i - 1) * x) / inject_Z (2 * y))%Q)
            <$> py_range2 1 (y + 1)).
Proof.
  intros Hx Hy. apply Forall_lookup. intros j t [Hj ->]%lookup_ticks. split.
  - apply Qdiv_inject_Z_pos; nia.
  - apply Qdiv_inject_Z_below; nia.
Qed.

(** A single tick is trivially in increasing order. *)
Lemma increasing_short (l : list Q) : (length l ≤ 1)%nat → increasing l.
Proof.
  intros Hl i a b Ha Hb. apply lookup_lt_Some in Hb. lia.
Qed.

(** ** The grid of a typed mapping *)

Lemma waffle_grid_typed (counts : list (string * Z)) (grid_width : option Z)
    (w : Z) :
  Forall (λ kc, 0 ≤ kc.2) counts →
  waffle_width (py_sum counts.*2) grid_width = Return w →
  0 < w →
  let T := py_sum counts.*2 in
  let h := (T + w - 1) / w in
  waffle_grid counts.*2 grid_width
  = Return (reshape (replicate (Z.to_nat h) (Z.to_nat w))
              (replicate (Z.to_nat (w * h - T)) nan ++ tiles_in_order 0 counts)).
Proof.
  intros Hpos Hwidth Hw T h. subst T h. unfold waffle_grid.
  rewrite Hwidth, bind_Return, waffle_height_pos by done. rewrite bind_Return.
  rewrite waffle_tiles_in_order, len_tiles_in_order by done.
  assert (Hb := ceil_div_bounds (py_sum counts.*2) w Hw).
  assert (0 ≤ py_sum counts.*2) as HT.
  { rewrite <- (len_tiles_in_order 0) by done. unfold len. lia. }
  unfold py_repeat. apply np_reshape_exact; [done|apply Z.div_pos; lia|].
  unfold len. rewrite length_app, length_replicate, Nat2Z.inj_add.
  fold (len (tiles_in_order 0 counts)). rewrite len_tiles_in_order by done.
  lia.
Qed.

(** ** [waffle] from its steps *)

(** One step of a chain of binds: split on the result of its head. *)
Ltac bind_step :=
  match goal with
  | |- (?m ≫= _) = _ =>
      destruct m eqn:?; [rewrite ?bind_Return|reflexivity]
  end.

(** [waffle] is the chain of its steps. *)
Lemma waffle_unfold (to_rgb : string → result rgb) df category_col value_col
    data title local_colors startcolor endcolor fig_height tile_gap grid_width :
  waffle to_rgb df category_col value_col data title local_colors startcolor
         endcolor fig_height tile_gap grid_width
  = (d ← waffle_data df category_col value_col data;
     cs ← waffle_colors to_rgb local_colors startcolor endcolor d;
     counts ← int_values d.*2;
     b ← waffle_grid counts grid_width;
     scale ← waffle_colorscale (len d.*2) cs;
     ticks ← find_midpoints (len d.*2 - 1) (len d.*2);
     Return (waffle_figure d title fig_height tile_gap b scale ticks)).
Proof.
  unfold waffle, waffle_data, waffle_colors.
  do 3 bind_step.
  unfold waffle_grid, waffle_width, waffle_height, waffle_tiles.
  bind_step. bind_step. simpl. bind_step.
  unfold waffle_colorscale. bind_step. reflexivity.
Qed.

Lemma waffle_steps (to_rgb : string → result rgb) df category_col value_col
    data title local_colors startcolor endcolor fig_height tile_gap grid_width
    d cs counts b scale ticks :
  waffle_data df category_col value_col data = Return d →
  waffle_colors to_rgb local_colors startcolor endcolor d = Return cs →
  int_values d.*2 = Return counts →
  waffle_grid counts grid_width = Return b →
  waffle_colorscale (len d.*2) cs = Return scale →
  find_midpoints (len d.*2 - 1) (len d.*2) = Return ticks →
  waffle to_rgb df category_col value_col data title local_colors startcolor
         endcolor fig_height tile_gap grid_width
  = Return (waffle_figure d title fig_height tile_gap b scale ticks).
Proof.
  intros Hd Hcs Hcounts Hb Hscale Hticks. rewrite waffle_unfold.
  rewrite Hd, bind_Return, Hcs, bind_Return, Hcounts, bind_Return.
  by rewrite Hb, bind_Return, Hscale, bind_Return, Hticks.
Qed.

(** A figure returned by [waffle] comes from steps that all returned. *)
Lemma waffle_inv (to_rgb : string → result rgb) df category_col value_col
    data title local_colors startcolor endcolor fig_height tile_gap grid_width
    fig :
  waffle to_rgb df category_col value_col data title local_colors startcolor
         endcolor fig_height tile_gap grid_width = Return fig →
  ∃ d cs counts b scale ticks,
    waffle_data df category_col value_col data = Return d ∧
    waffle_colors to_rgb local_colors startcolor endcolor d = Return cs ∧
    int_values d.*2 = Return counts ∧
    waffle_grid counts grid_width = Return b ∧
    waffle_colorscale (len d.*2) cs = Return scale ∧
    find_midpoints (len d.*2 - 1) (len d.*2) = Return ticks ∧
    fig = waffle_figure d title fig_height tile_gap b scale ticks.
Proof.
  rewrite waffle_unfold.
  destruct (waffle_data _ _ _ _) as [d|] eqn:Hd; [|done].
  rewrite bind_Return.
  destruct (waffle_colors _ _ _ _ _) as [cs|] eqn:Hcs; [|done].
  rewrite bind_Return.
  destruct (int_values _) as [counts|] eqn:Hcounts; [|done].
  rewrite bind_Return.
  destruct (waffle_grid _ _) as [b|] eqn:Hb; [|done].
  rewrite bind_Return.
  destruct (waffle_colorscale _ _) as [scale|] eqn:Hscale; [|done].
  rewrite bind_Return.
  destruct (find_midpoints _ _) as [ticks|] eqn:Hticks; [|done].
  rewrite bind_Return.
  intros [= <-]. exists d, cs, counts, b, scale, ticks.
  repeat split; done.
Qed.

Lemma mapM_length {A B} (f : A → result B) (l : list A) (k : list B) :
  mapM f l = Return k → length k = length l.
Proof.
  revert k. induction l as [|x l IH]; intros k.
  - by intros [= <-].
  - rewrite mapM_cons. destruct (f x) as [y|]; [|done]. rewrite bind_Return.
    destruct (mapM f l) as [k'|]; [|done]. rewrite bind_Return.
    intros [= <-]. simpl. f_equal. by apply IH.
Qed.

(** A gradient that is produced has one colour per requested step. *)
Lemma get_color_gradient_length (to_rgb : string → result rgb)
    (start_color end_color : string) (num_colors : Z) (cs : list string) :
  get_color_gradient to_rgb start_color end_color num_colors = Return cs →
  length cs = Z.to_nat num_colors.
Proof.
  unfold get_color_gradient.
  destruct (to_rgb start_color) as [[[sr sg] sb]|]; [|done].
  destruct (to_rgb end_color) as [[[er eg] eb]|]; [|done].
  rewrite !bind_Return.
  destruct (mapM _ _) as [ts|] eqn:Hts; [|done]. rewrite bind_Return.
  intros [= <-]. rewrite !length_fmap.
  apply mapM_length in Hts. by rewrite Hts, length_py_range.
Qed.

(** With one colour requested the first step divides [0] by [0]. *)
Lemma get_color_gradient_one (to_rgb : string → result rgb)
    (start_color end_color : string) (s e : rgb) :
  to_rgb start_color = Return s → to_rgb end_color = Return e →
  get_color_gradient to_rgb start_color end_color 1 = Raise ZeroDivisionError.
Proof. intros Hs He. unfold get_color_gradient. by rewrite Hs, He. Qed.

Lemma get_color_gradient_one_raises (to_rgb : string → result rgb)
    (start_color end_color : string) :
  raises (get_color_gradient to_rgb start_color end_color 1).
Proof.
  unfold get_color_gradient.
  destruct (to_rgb start_color) as [s|e]; [|by exists e].
  destruct (to_rgb end_color) as [s'|e]; [|by exists e].
  by exists ZeroDivisionError.
Qed.

Lemma snd_dict_of (counts : list (string * Z)) :
  len (dict_of counts).*2 = len counts.
Proof. unfold len. by rewrite length_fmap, length_dict_of. Qed.

Lemma len_pos {A} (l : list A) : l ≠ [] → 0 < len l.
Proof. destruct l; [done|]. unfold len. simpl. lia. Qed.

(** ** [waffle] on a typed mapping *)

Section waffle_typed.
Context (to_rgb : string → result rgb).
Context (counts : list (string * Z)) (category_col value_col : option string).
Context (title : string) (local_colors : option (list string)).
Context (startcolor endcolor : string) (fig_height tile_gap : Z).
Context (grid_width : option Z) (w : Z) (cs : list string).
Hypothesis Hne : counts ≠ [].
Hypothesis Hpos : Forall (λ kc, 0 ≤ kc.2) counts.
Hypothesis Hwidth : waffle_width (py_sum counts.*2) grid_width = Return w.
Hypothesis Hw : 0 < w.
Hypothesis Hcolors :
  waffle_colors to_rgb local_colors startcolor endcolor (dict_of counts)
  = Return cs.
Hypothesis Hcs : cs ≠ [].

Let T := py_sum counts.*2.
Let h := (T + w - 1) / w.
Let n := len counts.
Let flat := replicate (Z.to_nat (w * h - T)) nan ++ tiles_in_order 0 counts.
Let b := reshape (replicate (Z.to_nat h) (Z.to_nat w)) flat.

Lemma waffle_typed :
  waffle to_rgb None category_col value_col (Some (dict_of counts)) title
         local_colors startcolor endcolor fig_height tile_gap grid_width
  = Return (waffle_figure (dict_of counts) title fig_height tile_gap b
              (mjoin (band_breakpoints n cs <$> py_range n))
              ((λ i, (inject_Z ((2 * i - 1) * (n - 1)) / inject_Z (2 * n))%Q)
                 <$> py_range2 1 (n + 1))).
Proof.
  assert (0 < n) as Hn by (by apply len_pos).
  apply waffle_steps with (cs := cs) (counts := counts.*2); rewrite ?snd_dict_of.
  - reflexivity.
  - exact Hcolors.
  - apply int_values_dict_of.
  - by apply waffle_grid_typed.
  - by apply waffle_colorscale_bands.
  - by apply find_midpoints_pos.
Qed.

Lemma total_nonneg : 0 ≤ T.
Proof.
  subst T. rewrite <- (len_tiles_in_order 0) by done. unfold len. lia.
Qed.

Lemma height_bounds : w * (h - 1) < T ≤ w * h.
Proof. by apply ceil_div_bounds. Qed.

Lemma height_nonneg : 0 ≤ h.
Proof. assert (H0 := total_nonneg). apply Z.div_pos; lia. Qed.

Lemma length_flat : length flat = (Z.to_nat w * Z.to_nat h)%nat.
Proof.
  assert (H0 := total_nonneg). assert (Hb := height_bounds).
  assert (Hh := height_nonneg).
  assert (Hlen := len_tiles_in_order 0 counts Hpos). unfold len in Hlen.
  subst flat. rewrite length_app, length_replicate. fold T in Hlen. nia.
Qed.

Lemma cells_grid : cells b = flat.
Proof. apply cells_reshape, length_flat. Qed.

Lemma populated_flat : populated flat = tiles_in_order 0 counts.
Proof.
  subst flat. rewrite populated_app, populated_replicate_nan. simpl.
  apply populated_id, nan_not_in_tiles.
Qed.
End waffle_typed.

Lemma count_nan_populated (l : list tile) :
  length l = (count_of nan l + length (populated l))%nat.
Proof.
  unfold count_of, populated. induction l as [|t l IH]; [done|].
  rewrite !filter_cons. destruct (decide (t = nan)) as [->|Ht].
  - rewrite decide_False by (by intros ?). simpl. lia.
  - rewrite decide_True by done. simpl. lia.
Qed.

(** ** The claims on the waffle grid *)

(** C1. For a non-empty mapping of non-negative counts with total [T] and
    chosen width [w > 0], and colours to draw with, [waffle] returns a heat
    map whose grid is built in two steps: [w * h - T] padding cells are put
    in front of the flat category sequence, where [h] is the ceiling of
    [T / w], the sequence is cut row-major into [h] rows of [w] cells, and
    every row is reversed.  The grid has [h * w] cells, [T] of them carry a
    category and the other [h * w - T] are padding. *)
Theorem waffle_grid_pad_reshape_flip (to_rgb : string → result rgb)
    (counts : list (string * Z)) (category_col value_col : option string)
    (title : string) (local_colors : option (list string))
    (startcolor endcolor : string) (fig_height tile_gap : Z)
    (grid_width : option Z) (w : Z) (cs : list string) :
  counts ≠ [] →
  Forall (λ kc, 0 ≤ kc.2) counts →
  waffle_width (py_sum counts.*2) grid_width = Return w →
  0 < w →
  waffle_colors to_rgb local_colors startcolor endcolor (dict_of counts)
    = Return cs →
  cs ≠ [] →
  let T := py_sum counts.*2 in
  ∃ fig hm h,
    waffle to_rgb None category_col value_col (Some (dict_of counts)) title
           local_colors startcolor endcolor fig_height tile_gap grid_width
      = Return fig ∧
    heatmap_of fig = Some hm ∧
    w * (h - 1) < T ≤ w * h ∧
    hm_z hm = reverse <$> reshape (replicate (Z.to_nat h) (Z.to_nat w))
                (replicate (Z.to_nat (w * h - T)) nan
                 ++ waffle_tiles counts.*2) ∧
    len (hm_z hm) = h ∧
    Forall (λ row, len row = w) (hm_z hm) ∧
    len (cells (hm_z hm)) = h * w ∧
    len (populated (cells (hm_z hm))) = T ∧
    Z.of_nat (count_of nan (cells (hm_z hm))) = h * w - T.
Proof.
  intros Hne Hpos Hwidth Hw Hcolors Hcs T.
  pose proof (waffle_typed to_rgb counts category_col value_col title
    local_colors startcolor endcolor fig_height tile_gap grid_width w cs
    Hne Hpos Hwidth Hw Hcolors Hcs) as Hfig.
  pose proof (height_bounds counts w Hw) as Hb.
  pose proof (height_nonneg counts w Hpos Hw) as Hh.
  pose proof (length_flat counts w Hpos Hw) as Hflat.
  pose proof (cells_grid counts w Hpos Hw) as Hcells.
  pose proof (populated_flat counts w) as Hpop.
  pose proof (len_tiles_in_order 0 counts Hpos) as Htiles.
  fold T in Hb, Hh, Hflat, Hcells, Hpop, Htiles, Hfig.
  set (h := (T + w - 1) / w) in *.
  set (flat := replicate (Z.to_nat (w * h - T)) nan ++ tiles_in_order 0 counts)
    in *.
  set (b := reshape (replicate (Z.to_nat h) (Z.to_nat w)) flat) in *.
  assert (len (cells (np_fliplr b)) = h * w) as Hlen.
  { unfold len. rewrite (Permutation_length (cells_np_fliplr b)), Hcells.
    rewrite Hflat. lia. }
  assert (len (populated (cells (np_fliplr b))) = T) as Hpopl.
  { unfold len.
    rewrite (populated_Permutation _ _ (cells_np_fliplr b)), Hcells, Hpop.
    exact Htiles. }
  eexists _, _, h. split; [exact Hfig|]. split; [reflexivity|]. simpl.
  split; [exact Hb|]. split.
  { unfold np_fliplr, b, flat. by rewrite waffle_tiles_in_order. }
  split.
  { unfold len. rewrite length_np_fliplr. unfold b.
    rewrite length_reshape, length_replicate. lia. }
  split.
  { eapply Forall_impl.
    - apply rows_np_fliplr, rows_reshape, Hflat.
    - intros row Hrow. simpl in *. unfold len. lia. }
  split; [exact Hlen|]. split; [exact Hpopl|].
  pose proof (count_nan_populated (cells (np_fliplr b))) as Hsplit.
  unfold len in *. lia.
Qed.

(** C2. Under the same conditions every category holds as many cells of the
    grid as its count, every populated cell belongs to one category and no
    other, and, read row by row before the flip, the populated cells list the
    categories in insertion order. *)
Theorem waffle_category_tile_counts (to_rgb : string → result rgb)
    (counts : list (string * Z)) (category_col value_col : option string)
    (title : string) (local_colors : option (list string))
    (startcolor endcolor : string) (fig_height tile_gap : Z)
    (grid_width : option Z) (w : Z) (cs : list string) :
  counts ≠ [] →
  Forall (λ kc, 0 ≤ kc.2) counts →
  waffle_width (py_sum counts.*2) grid_width = Return w →
  0 < w →
  waffle_colors to_rgb local_colors startcolor endcolor (dict_of counts)
    = Return cs →
  cs ≠ [] →
  ∃ fig hm,
    waffle to_rgb None category_col value_col (Some (dict_of counts)) title
           local_colors startcolor endcolor fig_height tile_gap grid_width
      = Return fig ∧
    heatmap_of fig = Some hm ∧
    (∀ i c k, counts !! i = Some (c, k) →
       Z.of_nat (count_of (tile_of (Z.of_nat i)) (cells (hm_z hm))) = k) ∧
    (∀ t, t ∈ cells (hm_z hm) → t ≠ nan →
       ∃ i c k, t = tile_of (Z.of_nat i) ∧ counts !! i = Some (c, k) ∧
         ∀ i' c' k', t = tile_of (Z.of_nat i') →
                     counts !! i' = Some (c', k') → i' = i ∧ c' = c) ∧
    populated (cells (np_fliplr (hm_z hm))) = tiles_in_order 0 counts.
Proof.
  intros Hne Hpos Hwidth Hw Hcolors Hcs.
  pose proof (waffle_typed to_rgb counts category_col value_col title
    local_colors startcolor endcolor fig_height tile_gap grid_width w cs
    Hne Hpos Hwidth Hw Hcolors Hcs) as Hfig.
  pose proof (cells_grid counts w Hpos Hw) as Hcells.
  pose proof (populated_flat counts w) as Hpop.
  set (T := py_sum counts.*2) in *.
  set (h := (T + w - 1) / w) in *.
  set (flat := replicate (Z.to_nat (w * h - T)) nan ++ tiles_in_order 0 counts)
    in *.
  set (b := reshape (replicate (Z.to_nat h) (Z.to_nat w)) flat) in *.
  eexists _, _. split; [exact Hfig|]. split; [reflexivity|]. simpl.
  split; [|split].
  - intros i c k Hi.
    rewrite (count_of_Permutation _ _ _ (cells_np_fliplr b)), Hcells.
    unfold flat. rewrite count_of_app, count_of_replicate.
    rewrite decide_False by done.
    pose proof (count_of_tiles_in_order 0 counts i c k Hi) as Hc.
    rewrite Z.add_0_l in Hc. rewrite Hc.
    rewrite Forall_lookup in Hpos. specialize (Hpos i _ Hi). simpl in Hpos.
    lia.
  - intros t Ht Hnan.
    rewrite (cells_np_fliplr b), Hcells in Ht. unfold flat in Ht.
    apply elem_of_app in Ht as [Ht|Ht].
    { by apply elem_of_replicate in Ht as [-> _]. }
    apply elem_of_tiles_in_order in Ht as (i & c & k & -> & Hi).
    rewrite Z.add_0_l. exists i, c, k. split; [done|]. split; [done|].
    intros i' c' k' [= Hi'] Hl. assert (i' = i) as -> by lia.
    rewrite Hi in Hl. by injection Hl as <- <-.
  - by rewrite np_fliplr_involutive, Hcells.
Qed.

(** ** The claims on the colour scale and the ticks *)




(** C3 (amended). For [n >= 1] categories the ticks of the colour bar are
    produced, there are [n] of them, the tick of band [i] is the midpoint of
    band [i] of the [n] equal bands of [[0, n - 1]], the range of the category
    indices held by the grid, they are strictly increasing, and for [n >= 2]
    each lies strictly inside [(0, n - 1)].  They are the ticks of every
    figure [waffle] returns for [n] categories. *)
Theorem waffle_tick_midpoints (n : Z) :
  1 ≤ n →
  ∃ ticks,
    find_midpoints (n - 1) n = Return ticks ∧
    len ticks = n ∧
    (∀ (i : nat) t, ticks !! i = Some t →
       (t == midpoint_of_band (n - 1) n (Z.of_nat i))%Q) ∧
    increasing ticks ∧
    (2 ≤ n → Forall (λ t, (0 < t)%Q ∧ (t < inject_Z (n - 1))%Q) ticks) ∧
    (∀ (to_rgb : string → result rgb) df category_col value_col data title
       local_colors startcolor endcolor fig_height tile_gap grid_width fig d,
       waffle to_rgb df category_col value_col data title local_colors
              startcolor endcolor fig_height tile_gap grid_width = Return fig →
       waffle_data df category_col value_col data = Return d →
       len d = n →
       ∃ hm, heatmap_of fig = Some hm ∧ cb_tickvals (hm_colorbar hm) = ticks).
Proof.
  intros Hn. eexists. split; [apply find_midpoints_pos; lia|].
  split; [apply length_ticks; lia|]. split; [|split; [|split]].
  - intros i t [_ ->]%lookup_ticks. apply tick_midpoint. lia.
  - destruct (decide (n = 1)) as [->|Hn1].
    + by apply increasing_short.
    + apply ticks_increasing; lia.
  - intros Hn2. apply ticks_inside; lia.
  - intros to_rgb df category_col value_col data title local_colors startcolor
      endcolor fig_height tile_gap grid_width fig d Hfig Hd Hlen.
    apply waffle_inv in Hfig
      as (d' & cs & counts & b & scale & ticks & Hd' & _ & _ & _ & _ & Ht & ->).
    rewrite Hd in Hd'. injection Hd' as <-.
    assert (len d.*2 = n) as Hlen2.
    { unfold len in *. by rewrite length_fmap. }
    rewrite Hlen2, find_midpoints_pos in Ht by lia. injection Ht as <-.
    eexists. split; reflexivity.
Qed.

(** ** A single category and the default colours *)

(** C10. With one colour requested [get_color_gradient] divides [0] by [0];
    so a [waffle] call whose data has one category and that supplies no
    colours fails at the colours, before the layout: with any error of
    [to_rgb] first, with the division by zero otherwise. *)
Theorem waffle_single_category_gradient_fails (to_rgb : string → result rgb)
    df (category_col value_col : option string) data (d : dict)
    (title startcolor endcolor : string) (fig_height tile_gap : Z)
    (grid_width : option Z) :
  waffle_data df category_col value_col data = Return d →
  len d = 1 →
  (∃ e,
     waffle_colors to_rgb None startcolor endcolor d = Raise e ∧
     waffle to_rgb df category_col value_col data title None startcolor
            endcolor fig_height tile_gap grid_width = Raise e) ∧
  (∀ s e, to_rgb startcolor = Return s → to_rgb endcolor = Return e →
     get_color_gradient to_rgb startcolor endcolor 1
       = Raise ZeroDivisionError ∧
     waffle to_rgb df category_col value_col data title None startcolor
            endcolor fig_height tile_gap grid_width
       = Raise ZeroDivisionError).
Proof.
  intros Hd Hlen.
  assert (∀ e, get_color_gradient to_rgb startcolor endcolor 1 = Raise e →
            waffle to_rgb df category_col value_col data title None startcolor
                   endcolor fig_height tile_gap grid_width = Raise e) as Hstep.
  { intros e He. rewrite waffle_unfold, Hd, bind_Return. simpl.
    by rewrite Hlen, He. }
  split.
  - destruct (get_color_gradient_one_raises to_rgb startcolor endcolor)
      as [e He].
    exists e. split; [|by apply Hstep]. simpl. by rewrite Hlen.
  - intros s e Hs He.
    pose proof (get_color_gradient_one to_rgb _ _ s e Hs He) as Hg.
    split; [exact Hg|by apply Hstep].
Qed.

(** C6. [waffle(data={"X": 5}, grid_width=3)] with the default colours does
    not give the grid of six cells: it raises ZeroDivisionError. *)
Theorem waffle_X5_width3_raises :
  waffle_call [("X", 5)] None (Some 3) = Raise ZeroDivisionError.
Proof. reflexivity. Qed.

(** With a colour supplied the same call gives the grid the example
    describes: two rows of three cells, one padding cell, five cells of
    category 0. *)
Lemma waffle_X5_width3_colored :
  ∃ fig hm,
    waffle_call [("X", 5)] (Some ["red"]) (Some 3) = Return fig ∧
    heatmap_of fig = Some hm ∧
    hm_z hm = [[tile_of 0; tile_of 0; nan];
               [tile_of 0; tile_of 0; tile_of 0]].
Proof. eexists _, _. repeat split. Qed.

(** ** What [waffle] checks on entry *)

(** C4 (amended). Called without a DataFrame, [waffle] checks only that a
    dict is given: without one it raises its ValueError on entry.  The
    counts and the grid width of the dict are not checked.  With colours to
    draw with and
    non-negative counts, a [grid_width] of [0] is treated as omitted; a zero
    total (an empty mapping included) with the width omitted raises
    ZeroDivisionError when the height is computed; an empty mapping with a
    positive width raises ZeroDivisionError at the section bounds; and a
    negative width raises the ValueError of [reshape]. *)
Theorem waffle_input_errors (to_rgb : string → result rgb)
    (counts : list (string * Z)) (category_col value_col : option string)
    (title : string) (local_colors : option (list string))
    (startcolor endcolor : string) (fig_height tile_gap : Z)
    (cs : list string) :
  Forall (λ kc, 0 ≤ kc.2) counts →
  waffle_colors to_rgb local_colors startcolor endcolor (dict_of counts)
    = Return cs →
  let call := waffle to_rgb None category_col value_col
                (Some (dict_of counts)) title local_colors startcolor endcolor
                fig_height tile_gap in
  (∀ grid_width,
     waffle to_rgb None category_col value_col None title local_colors
            startcolor endcolor fig_height tile_gap grid_width
     = Raise (ValueError "Provide either a DataFrame or a data dictionary.")) ∧
  call (Some 0) = call None ∧
  (py_sum counts.*2 = 0 → call None = Raise ZeroDivisionError) ∧
  (counts = [] → ∀ w, 0 < w → call (Some w) = Raise ZeroDivisionError) ∧
  (∀ w, w < 0 → call (Some w) = Raise ReshapeError).
Proof.
  intros Hpos Hcolors call. split; [done|]. split; [done|].
  assert (∀ gw e, waffle_grid counts.*2 gw = Raise e → call gw = Raise e)
    as Hgrid.
  { intros gw e He. unfold call. rewrite waffle_unfold. simpl.
    by rewrite Hcolors, bind_Return, int_values_dict_of, bind_Return, He. }
  split; [|split].
  - intros HT. apply Hgrid. unfold waffle_grid. by rewrite HT.
  - intros -> w Hw. unfold call. rewrite waffle_unfold. simpl in *.
    rewrite Hcolors, bind_Return. unfold waffle_grid.
    rewrite waffle_width_supplied by lia. rewrite bind_Return.
    rewrite waffle_height_zero_total by lia. rewrite bind_Return.
    rewrite Z.mul_0_r. simpl. unfold np_reshape.
    rewrite decide_False by lia. by rewrite decide_True by done.
  - intros w Hw. apply Hgrid. unfold waffle_grid.
    rewrite waffle_width_supplied by lia. rewrite bind_Return.
    unfold waffle_height. rewrite py_truediv_nonzero by lia.
    rewrite bind_Return. apply np_reshape_nonpos. lia.
Qed.

(** ** waterfall *)

(** C8. A [waterfall] call whose inputs give [n] labels and that omits
    [measure] returns a chart of these labels whose measure is ['relative']
    [n - 1] times and then one ['total']. *)
Theorem waterfall_default_measure df (category_col value_col : option string)
    (labels data : option (list pyval)) (title : string)
    (annotation : option (list string)) (icolor dcolor tcolor ccolor : string)
    (color : option string) (ls ds : list pyval) :
  waterfall_inputs df category_col value_col labels data = Return (ls, ds) →
  ∃ fig w,
    waterfall df category_col value_col labels data title annotation icolor
              dcolor tcolor ccolor color None = Return fig ∧
    fig_data fig = [TWaterfall w] ∧
    wf_x w = ls ∧
    wf_measure w = replicate (length ls - 1) "relative" ++ ["total"].
Proof.
  intros Hin. unfold waterfall, waterfall_inputs in *.
  rewrite Hin, bind_Return.
  assert (py_repeat "relative" (len ls - 1)
          = replicate (length ls - 1) "relative") as ->.
  { unfold py_repeat, len. f_equal. lia. }
  destruct color as [c|]; [destruct (truthy_str (Some c))|];
    eexists _, _; repeat split.
Qed.

(** ** dumbbell and line_range *)

Lemma py_lt_numbers (a b : pyval) :
  is_number a → is_number b → returns (py_lt a b).
Proof. destruct a, b; simpl; intros; try done; by eexists. Qed.

Lemma mapM_returns {A B} (f : A → result B) (l : list A) :
  Forall (λ x, returns (f x)) l → returns (mapM f l).
Proof.
  induction 1 as [|x l [y Hy] _ [k Hk]]; [by eexists|].
  exists (y :: k). by rewrite mapM_cons, Hy, bind_Return, Hk.
Qed.

Lemma dumbbell_labels_returns h c1 c2 cat val1 val2 :
  is_number val1 → is_number val2 →
  returns (dumbbell_labels h c1 c2 cat val1 val2).
Proof.
  intros H1 H2. destruct (py_lt_numbers val1 val2 H1 H2) as [less Hless].
  unfold dumbbell_labels. rewrite Hless, bind_Return.
  destruct h, less; by eexists.
Qed.

Lemma Forall_zip3 {A B C} (P : B → Prop) (Q : C → Prop)
    (l1 : list A) (l2 : list B) (l3 : list C) :
  Forall P l2 → Forall Q l3 →
  Forall (λ r, P r.1.2 ∧ Q r.2) (zip (zip l1 l2) l3).
Proof.
  intros H2. revert l1 l3.
  induction H2 as [|b l2 Hb _ IH]; intros l1 l3 H3.
  - destruct l1; constructor.
  - destruct l1 as [|a l1]; [constructor|].
    destruct H3 as [|c l3 Hc H3]; [constructor|].
    simpl. constructor; [done|]. by apply IH.
Qed.

(** The length check of [dumbbell] on three non-empty lists. *)
Lemma dumbbell_inputs_lists category_col value1_col value2_col
    (categories values1 values2 : list pyval) :
  categories ≠ [] → values1 ≠ [] → values2 ≠ [] →
  dumbbell_inputs None category_col value1_col value2_col (Some categories)
                  (Some values1) (Some values2)
  = if negb (bool_decide (len categories = len values1)
             && bool_decide (len values1 = len values2))
    then Raise length_mismatch
    else Return (categories, values1, values2).
Proof. by destruct categories, values1, values2. Qed.

(** [dumbbell] is its input step, the value labels and the figure. *)
Lemma dumbbell_unfold df category_col value1_col value2_col categories values1
    values2 label1 label2 title orientation marker_color1 marker_color2
    line_color marker_size line_width :
  dumbbell df category_col value1_col value2_col categories values1 values2
           label1 label2 title orientation marker_color1 marker_color2
           line_color marker_size line_width
  = ('(cats, vals1, vals2) ←
       dumbbell_inputs df category_col value1_col value2_col categories
                       values1 values2;
     labels ← mapM (λ '(cat, val1, val2),
         dumbbell_labels (String.eqb orientation "h") marker_color1
                         marker_color2 cat val1 val2)
       (zip (zip cats vals1) vals2);
     Return (dumbbell_figure cats vals1 vals2 label1 label2 title orientation
               marker_color1 marker_color2 line_color marker_size line_width
               labels)).
Proof.
  unfold dumbbell, dumbbell_inputs, dumbbell_figure. bind_step.
  destruct a as [[cats vals1] vals2].
  destruct (negb (bool_decide (len cats = len vals1) && _));
    [reflexivity|]. rewrite ?bind_Return.
  destruct (String.eqb orientation "h"); reflexivity.
Qed.

(** The earlier [dumbbell] is the input step alone. *)
Lemma earlier_dumbbell_unfold df category_col value1_col value2_col categories
    values1 values2 label1 label2 title orientation marker_color1
    marker_color2 line_color marker_size line_width :
  Earlier.dumbbell df category_col value1_col value2_col categories values1
           values2 label1 label2 title orientation marker_color1
           marker_color2 line_color marker_size line_width
  = (_ ← dumbbell_inputs df category_col value1_col value2_col categories
                         values1 values2;
     Return None).
Proof.
  unfold Earlier.dumbbell, dumbbell_inputs. bind_step.
  destruct a as [[cats vals1] vals2].
  destruct (negb (bool_decide (len cats = len vals1) && _));
    [reflexivity|]. rewrite ?bind_Return.
  destruct (String.eqb orientation "h"); reflexivity.
Qed.

Lemma mapM_Raise_inv {A B} (f : A → result B) (l : list A) (e : pyerr) :
  mapM f l = Raise e → ∃ x, x ∈ l ∧ f x = Raise e.
Proof.
  induction l as [|x l IH]; [done|]. rewrite mapM_cons.
  destruct (f x) as [y|e'] eqn:Hx.
  - rewrite bind_Return. destruct (mapM f l) as [k|e'']; [done|].
    intros [= ->]. destruct IH as (x' & Hx' & He); [done|].
    exists x'. split; [by right|done].
  - intros [= ->]. exists x. split; [by left|done].
Qed.

(** The value labels raise nothing but the TypeError of [<]. *)
Lemma dumbbell_labels_error h c1 c2 cat val1 val2 e :
  dumbbell_labels h c1 c2 cat val1 val2 = Raise e → e = TypeError.
Proof.
  unfold dumbbell_labels. destruct (py_lt val1 val2) as [less|e'] eqn:Hlt.
  - rewrite bind_Return. by destruct h, less.
  - intros [= <-]. destruct val1, val2; simpl in Hlt; congruence.
Qed.

(** [dumbbell] on three non-empty lists: the length check decides whether
    the length error is raised, and numbers of equal length give a figure. *)
Lemma dumbbell_lists_spec category_col value1_col value2_col
    (categories values1 values2 : list pyval) label1 label2 title orientation
    marker_color1 marker_color2 line_color marker_size line_width :
  categories ≠ [] → values1 ≠ [] → values2 ≠ [] →
  let same := length categories = length values1
              ∧ length values1 = length values2 in
  let call := dumbbell None category_col value1_col value2_col
                (Some categories) (Some values1) (Some values2) label1 label2
                title orientation marker_color1 marker_color2 line_color
                marker_size line_width in
  (call = Raise length_mismatch ↔ ¬ same) ∧
  (same → Forall is_number values1 → Forall is_number values2 →
   returns call).
Proof.
  intros Hc H1 H2 same call. subst call. rewrite dumbbell_unfold.
  rewrite dumbbell_inputs_lists by done.
  destruct (decide same) as [Hsame|Hdiff].
  - destruct Hsame as [E1 E2].
    rewrite !bool_decide_true by (unfold len; congruence). simpl.
    split.
    + split; [|by intros []].
      destruct (mapM _ _) as [labels|e] eqn:Hm; [done|].
      simpl. intros [= ->].
      apply mapM_Raise_inv in Hm as ([[cat val1] val2] & _ & He).
      by apply dumbbell_labels_error in He.
    + intros _ Hn1 Hn2.
      destruct (mapM_returns (λ '(cat, val1, val2),
        dumbbell_labels (String.eqb orientation "h") marker_color1
                        marker_color2 cat val1 val2)
        (zip (zip categories values1) values2)) as [labels Hl].
      { eapply Forall_impl; [by apply (Forall_zip3 is_number is_number)|].
        intros [[cat val1] val2] [??]. by apply dumbbell_labels_returns. }
      rewrite Hl. by eexists.
  - assert (negb (bool_decide (len categories = len values1)
                  && bool_decide (len values1 = len values2)) = true) as ->.
    { apply negb_true_iff, andb_false_iff. unfold same, len in Hdiff.
      destruct (decide (length categories = length values1)) as [E|E].
      - right. apply bool_decide_eq_false. unfold len. intros E2.
        apply Hdiff. split; [done|]. by apply Nat2Z.inj.
      - left. apply bool_decide_eq_false. unfold len. intros E1.
        apply E. by apply Nat2Z.inj. }
    split; [done|]. by intros ?.
Qed.

(** C9 (amended). Given three non-empty lists, [dumbbell], and [line_range]
    through it, raise the length error exactly when the lists do not all
    have the same length, and return a figure when they do and the values
    are numbers.  For categories P, Q with values [1, 2] and [3, 1] drawn
    horizontally the markers of P are at x=1 and x=3 on row P and those of Q
    at x=2 and x=1 on row Q; with [3] alone as second values the length
    error is raised. *)
Theorem dumbbell_length_check (category_col value1_col value2_col : option string)
    (categories values1 values2 : list pyval) (label1 label2 : option string)
    (title orientation marker_color1 marker_color2 line_color : string)
    (marker_size line_width : Z) :
  categories ≠ [] → values1 ≠ [] → values2 ≠ [] →
  let same := length categories = length values1
              ∧ length values1 = length values2 in
  let db := dumbbell None category_col value1_col value2_col
              (Some categories) (Some values1) (Some values2) label1 label2
              title orientation marker_color1 marker_color2 line_color
              marker_size line_width in
  let lr := line_range None category_col value1_col value2_col
              (Some categories) (Some values1) (Some values2) label1 label2
              title orientation line_color line_width in
  (db = Raise length_mismatch ↔ ¬ same) ∧
  (lr = Raise length_mismatch ↔ ¬ same) ∧
  (same → Forall is_number values1 → Forall is_number values2 →
   returns db ∧ returns lr) ∧
  (∃ fig,
     dumbbell_call [PStr "P"; PStr "Q"] [PInt 1; PInt 2] [PInt 3; PInt 1] "h"
       = Return fig ∧
     marker_points fig = [ [(PInt 1, PStr "P"); (PInt 2, PStr "Q")];
                           [(PInt 3, PStr "P"); (PInt 1, PStr "Q")] ]) ∧
  dumbbell_call [PStr "P"; PStr "Q"] [PInt 1; PInt 2] [PInt 3] "h"
    = Raise length_mismatch.
Proof.
  intros Hc H1 H2 same db lr.
  destruct (dumbbell_lists_spec category_col value1_col value2_col categories
    values1 values2 label1 label2 title orientation marker_color1
    marker_color2 line_color marker_size line_width Hc H1 H2) as [Hdb Hdb'].
  destruct (dumbbell_lists_spec category_col value1_col value2_col categories
    values1 values2 None None title orientation line_color line_color
    line_color line_width line_width Hc H1 H2) as [Hlr Hlr'].
  split; [exact Hdb|]. split; [exact Hlr|]. split; [|split].
  - intros Hs Hn1 Hn2. split; [by apply Hdb'|by apply Hlr'].
  - eexists. split; reflexivity.
  - reflexivity.
Qed.

(** ** The repeated definitions *)

Section shadowing.
Context (to_rgb : string → result rgb).
Context (to_html : Figure → string → bool → string).

(** The binding of a name in the loaded module. *)
Lemma namespace_lookup :
  module_namespace to_rgb to_html !! "plotly_chart"
    = Some (Fplotly_chart (plotly_chart to_html)) ∧
  module_namespace to_rgb to_html !! "get_color_gradient"
    = Some (Fget_color_gradient (get_color_gradient to_rgb)) ∧
  module_namespace to_rgb to_html !! "get_section_bounds"
    = Some (Fget_section_bounds get_section_bounds) ∧
  module_namespace to_rgb to_html !! "find_midpoints"
    = Some (Ffind_midpoints find_midpoints) ∧
  module_namespace to_rgb to_html !! "waterfall"
    = Some (Fwaterfall waterfall) ∧
  module_namespace to_rgb to_html !! "waffle"
    = Some (Fwaffle (waffle to_rgb)) ∧
  module_namespace to_rgb to_html !! "dumbbell"
    = Some (Fdumbbell dumbbell_fun) ∧
  module_namespace to_rgb to_html !! "line_range"
    = Some (Fline_range line_range) ∧
  module_namespace to_rgb to_html !! "lollipop_chart"
    = Some (Flollipop_chart lollipop_chart).
Proof.
  unfold module_namespace, module_defs, exec_def. cbn [foldl fst snd].
  repeat split;
    repeat (first [ apply lookup_insert_eq
                  | rewrite lookup_insert_ne by done ]).
Qed.
End shadowing.

(** The first [dumbbell] is cut short: it raises what the second raises on
    the input checks, and where the second returns a figure it returns
    [None]. *)
Lemma earlier_dumbbell_truncated df category_col value1_col value2_col
    categories values1 values2 label1 label2 title orientation marker_color1
    marker_color2 line_color marker_size line_width :
  (∀ e,
     Earlier.dumbbell df category_col value1_col value2_col categories
       values1 values2 label1 label2 title orientation marker_color1
       marker_color2 line_color marker_size line_width = Raise e →
     dumbbell_fun df category_col value1_col value2_col categories values1
       values2 label1 label2 title orientation marker_color1 marker_color2
       line_color marker_size line_width = Raise e) ∧
  (∀ r,
     dumbbell_fun df category_col value1_col value2_col categories values1
       values2 label1 label2 title orientation marker_color1 marker_color2
       line_color marker_size line_width = Return r →
     (∃ fig, r = Some fig) ∧
     Earlier.dumbbell df category_col value1_col value2_col categories
       values1 values2 label1 label2 title orientation marker_color1
       marker_color2 line_color marker_size line_width = Return None).
Proof.
  unfold dumbbell_fun.
  rewrite earlier_dumbbell_unfold, dumbbell_unfold.
  destruct (dumbbell_inputs _ _ _ _ _ _ _) as [[[cats vals1] vals2]|e'].
  - rewrite !bind_Return. split; [done|].
    intros r. destruct (mapM _ _) as [labels|e'']; [|done].
    rewrite bind_Return. intros [= <-]. split; [by eexists|done].
  - split; [|done]. by intros e [= ->].
Qed.

(** C7 (amended). Every [def] of a name other than [dumbbell], the earlier
    as well as the later, is the function the name is bound to once the
    module is loaded: the repeated bodies are the same and the earlier ones
    are dead.  [dumbbell] is bound to its later definition. *)
Theorem repeated_definitions (to_rgb : string → result rgb)
    (to_html : Figure → string → bool → string) :
  (∀ i name f,
     module_defs to_rgb to_html !! i = Some (name, f) →
     name ≠ "dumbbell" →
     module_namespace to_rgb to_html !! name = Some f) ∧
  module_namespace to_rgb to_html !! "dumbbell"
    = Some (Fdumbbell dumbbell_fun).
Proof.
  destruct (namespace_lookup to_rgb to_html)
    as (H1 & H2 & H3 & H4 & H5 & H6 & H7 & H8 & H9).
  split; [|exact H7].
  intros i name f Hi Hname. unfold module_defs in Hi.
  destruct i as [|i]; [injection Hi as <- <-; exact H1|].
  destruct i as [|i]; [injection Hi as <- <-; exact H2|].
  destruct i as [|i]; [injection Hi as <- <-; exact H3|].
  destruct i as [|i]; [injection Hi as <- <-; exact H4|].
  destruct i as [|i]; [injection Hi as <- <-; exact H5|].
  destruct i as [|i]; [injection Hi as <- <-; exact H6|].
  destruct i as [|i]; [injection Hi as <- <-; by destruct Hname|].
  destruct i as [|i]; [injection Hi as <- <-; exact H1|].
  destruct i as [|i]; [injection Hi as <- <-; exact H2|].
  destruct i as [|i]; [injection Hi as <- <-; exact H3|].
  destruct i as [|i]; [injection Hi as <- <-; exact H4|].
  destruct i as [|i]; [injection Hi as <- <-; exact H5|].
  destruct i as [|i]; [injection Hi as <- <-; exact H6|].
  destruct i as [|i]; [injection Hi as <- <-; by destruct Hname|].
  destruct i as [|i]; [injection Hi as <- <-; exact H8|].
  destruct i as [|i]; [injection Hi as <- <-; exact H9|].
  destruct i as [|i]; [injection Hi as <- <-; exact H8|].
  destruct i as [|i]; [injection Hi as <- <-; exact H9|].
  discriminate Hi.
Qed.

(** ** The claims at concrete inputs *)

(** C3. With three categories the ticks are [1/3], [1] and [5/3]: the last
    two are not below [1]. *)
Lemma waffle_ticks_three_categories :
  find_midpoints (3 - 1) 3 = Return [2 # 6; 6 # 6; 10 # 6]%Q ∧
  ¬ (6 # 6 < 1)%Q ∧ ¬ (10 # 6 < 1)%Q.
Proof. split; [reflexivity|]. split; intros H; discriminate H. Qed.

(** C4. A [grid_width] of [0] is accepted and gives the figure of the
    default width, and a zero total with a positive width gives a figure
    with an empty grid. *)
Lemma waffle_zero_width_accepted :
  (∃ fig, waffle_call [("A", 1); ("B", 3)] None (Some 0) = Return fig ∧
          waffle_call [("A", 1); ("B", 3)] None None = Return fig) ∧
  (∃ fig hm, waffle_call [("A", 0)] (Some ["red"]) (Some 3) = Return fig ∧
             heatmap_of fig = Some hm ∧ hm_z hm = []).
Proof. split; [by eexists|by eexists _, _]. Qed.


(** C7. The seventh [def] of the file is the first [dumbbell]; on the lists
    P, Q with values [1, 2] and [3, 1] it returns [None] and the second
    [dumbbell] a figure. *)
Lemma earlier_dumbbell_differs :
  module_defs named_rgb (λ _ _ _, "") !! 6%nat
    = Some ("dumbbell", Fdumbbell Earlier.dumbbell) ∧
  module_namespace named_rgb (λ _ _ _, "") !! "dumbbell"
    = Some (Fdumbbell dumbbell_fun) ∧
  Earlier.dumbbell None None None None (Some [PStr "P"; PStr "Q"])
    (Some [PInt 1; PInt 2]) (Some [PInt 3; PInt 1]) (Some "") (Some "")
    "Dumbbell Chart" "h" "blue" "orange" "gray" 10 2
  ≠ dumbbell_fun None None None None (Some [PStr "P"; PStr "Q"])
    (Some [PInt 1; PInt 2]) (Some [PInt 3; PInt 1]) (Some "") (Some "")
    "Dumbbell Chart" "h" "blue" "orange" "gray" 10 2.
Proof.
  split; [reflexivity|]. split; [apply namespace_lookup|].
  intros H. discriminate H.
Qed.

(** C9. With an empty list of second values the lengths differ, and the
    error raised is the one of a missing input, not the length error. *)
Lemma dumbbell_empty_values_other_error :
  ¬ (length [PStr "P"; PStr "Q"] = length [PInt 1; PInt 2]
     ∧ length [PInt 1; PInt 2] = length (@nil pyval)) ∧
  dumbbell_call [PStr "P"; PStr "Q"] [PInt 1; PInt 2] [] "h"
    = Raise missing_lists ∧
  dumbbell_call [PStr "P"; PStr "Q"] [PInt 1; PInt 2] [] "h"
    ≠ Raise length_mismatch.
Proof.
  split; [by intros [_ ?]|]. split; [reflexivity|]. intros H. discriminate H.
Qed.

(** ** The theorems at concrete inputs *)

(** [{"X": 5}] in red on three columns: six cells, five of them populated. *)
Lemma waffle_grid_pad_reshape_flip_witness :
  [("X", 5)] ≠ @nil (string * Z) ∧
  Forall (λ kc : string * Z, 0 ≤ kc.2) [("X", 5)] ∧
  waffle_width (py_sum [("X", 5)].*2) (Some 3) = Return 3 ∧
  0 < 3 ∧
  waffle_colors named_rgb (Some ["red"]) "lightblue" "darkblue"
                (dict_of [("X", 5)]) = Return ["red"] ∧
  ["red"] ≠ @nil string ∧
  ∃ fig hm h,
    waffle_call [("X", 5)] (Some ["red"]) (Some 3) = Return fig ∧
    heatmap_of fig = Some hm ∧
    len (cells (hm_z hm)) = h * 3 ∧
    len (populated (cells (hm_z hm))) = 5.
Proof.
  assert ([("X", 5)] ≠ @nil (string * Z)) as H1 by discriminate.
  assert (Forall (λ kc : string * Z, 0 ≤ kc.2) [("X", 5)]) as H2.
  { repeat constructor. simpl. lia. }
  assert (waffle_width (py_sum [("X", 5)].*2) (Some 3) = Return 3) as H3
    by reflexivity.
  assert (0 < 3) as H4 by lia.
  assert (waffle_colors named_rgb (Some ["red"]) "lightblue" "darkblue"
            (dict_of [("X", 5)]) = Return ["red"]) as H5 by reflexivity.
  assert (["red"] ≠ @nil string) as H6 by discriminate.
  do 6 (split; [assumption|]).
  destruct (waffle_grid_pad_reshape_flip named_rgb [("X", 5)] None None ""
              (Some ["red"]) "lightblue" "darkblue" 600 2 (Some 3) 3 ["red"]
              H1 H2 H3 H4 H5 H6)
    as (fig & hm & h & Hfig & Hhm & _ & _ & _ & _ & Hcells & Hpop & _).
  exists fig, hm, h. repeat split; assumption.
Defined.

(** [{"A": 1, "B": 3}] with the default colours and width: three cells of B. *)
Lemma waffle_category_tile_counts_witness :
  [("A", 1); ("B", 3)] ≠ @nil (string * Z) ∧
  Forall (λ kc : string * Z, 0 ≤ kc.2) [("A", 1); ("B", 3)] ∧
  waffle_width (py_sum [("A", 1); ("B", 3)].*2) None = Return 2 ∧
  0 < 2 ∧
  waffle_colors named_rgb None "lightblue" "darkblue"
                (dict_of [("A", 1); ("B", 3)])
    = Return ["#add8e6"; "#00008b"] ∧
  ["#add8e6"; "#00008b"] ≠ @nil string ∧
  ∃ fig hm,
    waffle_call [("A", 1); ("B", 3)] None None = Return fig ∧
    heatmap_of fig = Some hm ∧
    Z.of_nat (count_of (tile_of 1) (cells (hm_z hm))) = 3.
Proof.
  assert ([("A", 1); ("B", 3)] ≠ @nil (string * Z)) as H1 by discriminate.
  assert (Forall (λ kc : string * Z, 0 ≤ kc.2) [("A", 1); ("B", 3)]) as H2.
  { repeat constructor; simpl; lia. }
  assert (waffle_width (py_sum [("A", 1); ("B", 3)].*2) None = Return 2)
    as H3 by reflexivity.
  assert (0 < 2) as H4 by lia.
  assert (waffle_colors named_rgb None "lightblue" "darkblue"
            (dict_of [("A", 1); ("B", 3)])
          = Return ["#add8e6"; "#00008b"]) as H5 by reflexivity.
  assert (["#add8e6"; "#00008b"] ≠ @nil string) as H6 by discriminate.
  do 6 (split; [assumption|]).
  destruct (waffle_category_tile_counts named_rgb [("A", 1); ("B", 3)] None
              None "" None "lightblue" "darkblue" 600 2 None 2
              ["#add8e6"; "#00008b"] H1 H2 H3 H4 H5 H6)
    as (fig & hm & Hfig & Hhm & Hcount & _).
  exists fig, hm. split; [exact Hfig|]. split; [exact Hhm|].
  exact (Hcount 1%nat "B" 3 eq_refl).
Defined.


(** Three categories: three ticks. *)
Lemma waffle_tick_midpoints_witness :
  1 ≤ 3 ∧
  ∃ ticks, find_midpoints (3 - 1) 3 = Return ticks ∧ len ticks = 3.
Proof.
  assert (1 ≤ 3) as H1 by lia. split; [exact H1|].
  destruct (waffle_tick_midpoints 3 H1) as (ticks & Hticks & Hlen & _).
  exists ticks. split; assumption.
Defined.

(** The empty mapping with the default colours. *)
Lemma waffle_input_errors_witness :
  Forall (λ kc : string * Z, 0 ≤ kc.2) [] ∧
  waffle_colors named_rgb None "lightblue" "darkblue" (dict_of []) = Return [] ∧
  py_sum (@nil (string * Z)).*2 = 0 ∧
  0 < 3 ∧ -3 < 0 ∧
  waffle_call [] None None = Raise ZeroDivisionError ∧
  waffle_call [] None (Some 3) = Raise ZeroDivisionError ∧
  waffle_call [] None (Some (-3)) = Raise ReshapeError.
Proof.
  assert (Forall (λ kc : string * Z, 0 ≤ kc.2) []) as H1 by constructor.
  assert (waffle_colors named_rgb None "lightblue" "darkblue" (dict_of [])
          = Return []) as H2 by reflexivity.
  assert (py_sum (@nil (string * Z)).*2 = 0) as H3 by reflexivity.
  assert (0 < 3) as H4 by lia.
  assert (-3 < 0) as H5 by lia.
  do 5 (split; [assumption|]).
  destruct (waffle_input_errors named_rgb [] None None "" None "lightblue"
              "darkblue" 600 2 [] H1 H2) as (_ & _ & Hzero & Hempty & Hneg).
  split; [exact (Hzero H3)|].
  split; [exact (Hempty eq_refl 3 H4)|exact (Hneg (-3) H5)].
Defined.

(** Three labels given as lists. *)
Lemma waterfall_default_measure_witness :
  waterfall_inputs None None None (Some [PStr "a"; PStr "b"; PStr "c"])
                   (Some [PInt 1; PInt 2; PInt 3])
    = Return ([PStr "a"; PStr "b"; PStr "c"], [PInt 1; PInt 2; PInt 3]) ∧
  ∃ fig w,
    waterfall None None None (Some [PStr "a"; PStr "b"; PStr "c"])
              (Some [PInt 1; PInt 2; PInt 3]) "" None "Green" "Red" "Blue"
              "Dark Grey" None None = Return fig ∧
    fig_data fig = [TWaterfall w] ∧
    wf_measure w = ["relative"; "relative"; "total"].
Proof.
  assert (waterfall_inputs None None None
            (Some [PStr "a"; PStr "b"; PStr "c"])
            (Some [PInt 1; PInt 2; PInt 3])
          = Return ([PStr "a"; PStr "b"; PStr "c"], [PInt 1; PInt 2; PInt 3]))
    as H1 by reflexivity.
  split; [exact H1|].
  destruct (waterfall_default_measure None None None
              (Some [PStr "a"; PStr "b"; PStr "c"])
              (Some [PInt 1; PInt 2; PInt 3]) "" None "Green" "Red" "Blue"
              "Dark Grey" None _ _ H1) as (fig & w & Hfig & Hdata & _ & Hm).
  exists fig, w. repeat split; assumption.
Defined.

(** P and Q with two values each. *)
Lemma dumbbell_length_check_witness :
  [PStr "P"; PStr "Q"] ≠ [] ∧ [PInt 1; PInt 2] ≠ [] ∧ [PInt 3; PInt 1] ≠ [] ∧
  (length [PStr "P"; PStr "Q"] = length [PInt 1; PInt 2]
   ∧ length [PInt 1; PInt 2] = length [PInt 3; PInt 1]) ∧
  Forall is_number [PInt 1; PInt 2] ∧ Forall is_number [PInt 3; PInt 1] ∧
  returns (dumbbell_call [PStr "P"; PStr "Q"] [PInt 1; PInt 2]
                         [PInt 3; PInt 1] "h").
Proof.
  assert ([PStr "P"; PStr "Q"] ≠ []) as H1 by discriminate.
  assert ([PInt 1; PInt 2] ≠ []) as H2 by discriminate.
  assert ([PInt 3; PInt 1] ≠ []) as H3 by discriminate.
  assert (length [PStr "P"; PStr "Q"] = length [PInt 1; PInt 2]
          ∧ length [PInt 1; PInt 2] = length [PInt 3; PInt 1]) as H4
    by (split; reflexivity).
  assert (Forall is_number [PInt 1; PInt 2]) as H5
    by (repeat constructor).
  assert (Forall is_number [PInt 3; PInt 1]) as H6
    by (repeat constructor).
  do 6 (split; [assumption|]).
  destruct (dumbbell_length_check None None None [PStr "P"; PStr "Q"]
              [PInt 1; PInt 2] [PInt 3; PInt 1] (Some "") (Some "")
              "Dumbbell Chart" "h" "blue" "orange" "gray" 10 2 H1 H2 H3)
    as (_ & _ & Hret & _).
  exact (proj1 (Hret H4 H5 H6)).
Defined.

(** [{"X": 5}] and no colours. *)
Lemma waffle_single_category_gradient_fails_witness :
  waffle_data None None None (Some (dict_of [("X", 5)]))
    = Return (dict_of [("X", 5)]) ∧
  len (dict_of [("X", 5)]) = 1 ∧
  named_rgb "lightblue" = Return (173 # 255, 216 # 255, 230 # 255)%Q ∧
  named_rgb "darkblue" = Return (0, 0, 139 # 255)%Q ∧
  waffle_call [("X", 5)] None None = Raise ZeroDivisionError.
Proof.
  assert (waffle_data None None None (Some (dict_of [("X", 5)]))
          = Return (dict_of [("X", 5)])) as H1 by reflexivity.
  assert (len (dict_of [("X", 5)]) = 1) as H2 by reflexivity.
  assert (named_rgb "lightblue" = Return (173 # 255, 216 # 255, 230 # 255)%Q)
    as H3 by reflexivity.
  assert (named_rgb "darkblue" = Return (0, 0, 139 # 255)%Q) as H4
    by reflexivity.
  do 4 (split; [assumption|]).
  destruct (waffle_single_category_gradient_fails named_rgb None None None
              (Some (dict_of [("X", 5)])) (dict_of [("X", 5)]) "" "lightblue"
              "darkblue" 600 2 None H1 H2) as [_ Hzde].
  exact (proj2 (Hzde _ _ H3 H4)).
Defined.

(** The first [waffle] of the file is the function [waffle] is bound to. *)
Lemma repeated_definitions_witness :
  module_defs named_rgb (λ _ _ _, "") !! 5%nat
    = Some ("waffle", Fwaffle (Earlier.waffle named_rgb)) ∧
  "waffle" ≠ "dumbbell" ∧
  module_namespace named_rgb (λ _ _ _, "") !! "waffle"
    = Some (Fwaffle (Earlier.waffle named_rgb)).
Proof.
  assert (module_defs named_rgb (λ _ _ _, "") !! 5%nat
          = Some ("waffle", Fwaffle (Earlier.waffle named_rgb))) as H1
    by reflexivity.
  assert ("waffle" ≠ "dumbbell") as H2 by discriminate.
  do 2 (split; [assumption|]).
  exact (proj1 (repeated_definitions named_rgb (λ _ _ _, "")) 5%nat "waffle"
               _ H1 H2).
Defined.

(** * Further properties of the helpers *)

(** ** Section bounds and midpoints *)

Lemma lookup_section_bounds (x : Q) (y : Z) (i : nat) (r : Q * Q) :
  ((λ i, (inject_Z i * (x / inject_Z y),
          inject_Z (i + 1) * (x / inject_Z y))%Q) <$> py_range y) !! i
    = Some r →
  Z.of_nat i < y ∧
  r = ((inject_Z (Z.of_nat i) * (x / inject_Z y))%Q,
       (inject_Z (Z.of_nat i + 1) * (x / inject_Z y))%Q).
Proof.
  rewrite list_lookup_fmap. unfold py_range.
  destruct (seqZ 0 y !! i) as [k|] eqn:Hk; [|done].
  apply lookup_seqZ in Hk as [-> Hi]. intros [= <-].
  by rewrite Z.add_0_l.
Qed.

Lemma inject_Z_nonzero (y : Z) : y ≠ 0 → ¬ (inject_Z y == 0)%Q.
Proof. intros Hy Hq. unfold Qeq, inject_Z in Hq. simpl in Hq. lia. Qed.

(** X1. For [y >= 1], [get_section_bounds(x, y)] returns [y] sections that
    follow one another without a gap: the first starts at [0] and each
    section ends exactly where the next one starts.  For [x >= 0] no section
    ends before it starts. *)
Theorem get_section_bounds_contiguous (x : Q) (y : Z) :
  1 ≤ y →
  ∃ bounds,
    get_section_bounds x y = Return bounds ∧
    len bounds = y ∧
    (∃ r, bounds !! 0%nat = Some r ∧ (r.1 == 0)%Q) ∧
    (∀ i r r', bounds !! i = Some r → bounds !! S i = Some r' → r.2 = r'.1) ∧
    ((0 <= x)%Q → ∀ i r, bounds !! i = Some r → (r.1 <= r.2)%Q).
Proof.
  intros Hy. eexists. split; [apply get_section_bounds_pos; lia|].
  set (f := λ i : Z, (inject_Z i * (x / inject_Z y),
                      inject_Z (i + 1) * (x / inject_Z y))%Q).
  assert (length (f <$> py_range y) = Z.to_nat y) as Hlen.
  { by rewrite length_fmap, length_py_range. }
  split; [unfold len; rewrite Hlen; lia|].
  split; [|split].
  - exists (f 0). split.
    + rewrite list_lookup_fmap, (py_range_lookup y 0) by lia. reflexivity.
    + simpl. ring.
  - intros i r r' [_ ->]%lookup_section_bounds [_ ->]%lookup_section_bounds.
    simpl. do 2 f_equal. lia.
  - intros Hx i r [_ ->]%lookup_section_bounds. simpl.
    apply Qmult_le_compat_r.
    + rewrite <- Zle_Qle. lia.
    + apply Qle_shift_div_l.
      * replace 0%Q with (inject_Z 0) by done. rewrite <- Zlt_Qlt. lia.
      * by rewrite Qmult_0_l.
Qed.

(** X2. With no section at all the two helpers differ: for [y <= 0]
    [find_midpoints] returns the empty list without dividing, while
    [get_section_bounds] divides first and so raises for [y = 0] and returns
    the empty list only for [y < 0]. *)
Theorem no_sections (x : Z) (y : Z) :
  y ≤ 0 →
  find_midpoints x y = Return [] ∧
  get_section_bounds (inject_Z x) y
  = if decide (y = 0) then Raise ZeroDivisionError else Return [].
Proof.
  intros Hy. split.
  - unfold find_midpoints, py_range2, seqZ.
    by replace (Z.to_nat (y + 1 - 1)) with 0%nat by lia.
  - destruct (decide (y = 0)) as [->|Hne]; [reflexivity|].
    rewrite get_section_bounds_pos by done.
    by rewrite py_range_nonpos by lia.
Qed.

(** X3. For [x >= 1] and [y >= 1] the two helpers describe the same [y]
    sections: the [i]-th value of [find_midpoints(x, y)] lies strictly inside
    the [i]-th section of [get_section_bounds(x, y)]. *)
Theorem find_midpoints_inside_sections (x y : Z) :
  1 ≤ x → 1 ≤ y →
  ∃ mids bounds,
    find_midpoints x y = Return mids ∧
    get_section_bounds (inject_Z x) y = Return bounds ∧
    length mids = length bounds ∧
    ∀ i m r, mids !! i = Some m → bounds !! i = Some r →
             (r.1 < m)%Q ∧ (m < r.2)%Q.
Proof.
  intros Hx Hy. eexists _, _.
  split; [apply find_midpoints_pos; lia|].
  split; [apply get_section_bounds_pos; lia|]. split.
  - rewrite !length_fmap. unfold py_range2, py_range.
    rewrite !length_seqZ. lia.
  - intros i m r [_ ->]%lookup_ticks [Hi ->]%lookup_section_bounds. simpl.
    assert ((0 < inject_Z x / inject_Z y)%Q) as Hpos
      by (apply Qdiv_inject_Z_pos; lia).
    rewrite tick_midpoint by lia. unfold midpoint_of_band.
    set (s := (inject_Z x / inject_Z y)%Q) in *.
    set (a := inject_Z (Z.of_nat i)).
    rewrite inject_Z_plus. change (inject_Z 1) with 1%Q. fold a.
    assert (((a * s + (a + 1) * s) / 2 == a * s + s / 2)%Q) as -> by field.
    assert (((a + 1) * s == a * s + s)%Q) as -> by ring.
    assert ((0 < s / 2)%Q) as Hhalf by (by apply Qlt_shift_div_l).
    assert ((s / 2 < s)%Q) as Hless.
    { apply Qlt_shift_div_r; [done|].
      rewrite <- (Qplus_0_r s) at 1.
      assert ((s * 2 == s + s)%Q) as -> by ring.
      by apply Qplus_lt_r. }
    split.
    + rewrite <- (Qplus_0_r (a * s)) at 1. by apply Qplus_lt_r.
    + by apply Qplus_lt_r.
Qed.

(** ** Hex codes and the colour gradient *)

Lemma string_length_append (a b : string) :
  String.length (a +:+ b) = (String.length a + String.length b)%nat.
Proof. induction a as [|c a IH]; simpl; [done|]. by rewrite IH. Qed.

Lemma format_02x_small (n : nat) :
  (n < 256)%nat → String.length (format_02x (Z.of_nat n)) = 2%nat.
Proof.
  intros Hn.
  assert (forallb (λ n, Nat.eqb (String.length (format_02x (Z.of_nat n))) 2)
            (seq 0 256) = true) as Hall by (vm_compute; reflexivity).
  rewrite forallb_forall in Hall.
  apply Nat.eqb_eq, Hall, in_seq. lia.
Qed.

Lemma hex_digits_decode (p : positive) :
  HexString.Raw.to_N (HexString.Raw.of_pos p "") 0 = N.pos p.
Proof. by rewrite HexString.Raw.to_N_of_pos. Qed.

Lemma decode_leading_zero (s : string) :
  HexString.Raw.to_N ("0" +:+ s) 0 = HexString.Raw.to_N s 0.
Proof. reflexivity. Qed.

Lemma format_02x_decode (z : Z) :
  0 ≤ z → HexString.Raw.to_N (format_02x z) 0 = Z.to_N z.
Proof.
  intros Hz. unfold format_02x. rewrite decide_False by lia.
  destruct z as [|p|p]; [reflexivity| |lia]. simpl hex_digits.
  destruct (decide _); [rewrite decode_leading_zero|]; apply hex_digits_decode.
Qed.

Lemma format_02x_min_width (z : Z) :
  0 ≤ z → (2 ≤ String.length (format_02x z))%nat.
Proof.
  intros Hz. unfold format_02x. rewrite decide_False by lia.
  destruct (decide _) as [Hlt|Hge]; [|lia].
  rewrite string_length_append.
  destruct z as [|p|p]; [simpl; lia| |lia]. simpl hex_digits in *.
  pose proof (hex_digits_decode p) as Hd.
  destruct (HexString.Raw.of_pos p "") as [|c d]; [discriminate Hd|].
  simpl. lia.
Qed.

Lemma format_02x_byte_width (z : Z) :
  0 ≤ z ≤ 255 → String.length (format_02x z) = 2%nat.
Proof.
  intros Hz. rewrite <- (Z2Nat.id z) by lia. apply format_02x_small. lia.
Qed.

(** X4. ['%02x' % z] for [z >= 0] reads back as [z] in base sixteen, has at
    least two characters, and has exactly two for [z <= 255]. *)
Theorem format_02x_round_trip (z : Z) :
  0 ≤ z →
  HexString.Raw.to_N (format_02x z) 0 = Z.to_N z ∧
  (2 ≤ String.length (format_02x z))%nat ∧
  (z ≤ 255 → String.length (format_02x z) = 2%nat).
Proof.
  intros Hz. split; [by apply format_02x_decode|].
  split; [by apply format_02x_min_width|].
  intros Hle. by apply format_02x_byte_width.
Qed.

(** [int()] reads the value of a rational, not its representation. *)
Lemma py_int_Qeq (p q : Q) : (p == q)%Q → py_int p = py_int q.
Proof.
  destruct p as [a b], q as [c d]. unfold Qeq, py_int. simpl. intros Heq.
  assert (∀ a b c d : Z, 0 ≤ a → 0 < b → 0 < d → a * d = c * b →
            Z.quot a b = Z.quot c d) as Hpos.
  { clear. intros a b c d Ha Hb Hd Heq.
    assert (0 ≤ c) by nia.
    rewrite !Z.quot_div_nonneg by lia.
    rewrite <- (Z.div_mul_cancel_r a b d) by lia.
    rewrite <- (Z.div_mul_cancel_r c d b) by lia.
    rewrite Heq. f_equal. lia. }
  destruct (Z_le_gt_dec 0 a) as [Ha|Ha].
  - apply Hpos; lia.
  - assert (c < 0) by nia.
    assert (Z.quot (- a) (Z.pos b) = Z.quot (- c) (Z.pos d)) as Hq
      by (apply Hpos; lia).
    rewrite !Z.quot_opp_l in Hq by lia. lia.
Qed.

Lemma rgb_hex_Qeq (r g b r' g' b' : Q) :
  (r == r')%Q → (g == g')%Q → (b == b')%Q →
  rgb_hex (r, g, b) = rgb_hex (r', g', b').
Proof.
  intros Hr Hg Hb. unfold rgb_hex.
  rewrite (py_int_Qeq (r * 255) (r' * 255)) by (by rewrite Hr).
  rewrite (py_int_Qeq (g * 255) (g' * 255)) by (by rewrite Hg).
  by rewrite (py_int_Qeq (b * 255) (b' * 255)) by (by rewrite Hb).
Qed.

(** The gradient of [n >= 2] colours, colour by colour. *)
Lemma get_color_gradient_colors (to_rgb : string → result rgb)
    (start_color end_color : string) (n : Z) sr sg sb er eg eb :
  2 ≤ n →
  to_rgb start_color = Return (sr, sg, sb) →
  to_rgb end_color = Return (er, eg, eb) →
  get_color_gradient to_rgb start_color end_color n
  = Return ((λ i, let t := (inject_Z i / inject_Z (n - 1))%Q in
                  rgb_hex ((sr + (er - sr) * t)%Q, (sg + (eg - sg) * t)%Q,
                           (sb + (eb - sb) * t)%Q)) <$> py_range n).
Proof.
  intros Hn Hs He. unfold get_color_gradient. rewrite Hs, He, !bind_Return.
  rewrite (mapM_Return _ (λ i, (inject_Z i / inject_Z (n - 1))%Q));
    [|intros i _; by rewrite py_truediv_nonzero by lia].
  rewrite bind_Return. f_equal. rewrite <- !list_fmap_compose.
  apply list_fmap_ext. intros _ i _. reflexivity.
Qed.

(** The first colour of a gradient, and every colour of a gradient that
    ends where it starts. *)
Lemma get_color_gradient_head (to_rgb : string → result rgb)
    (start_color end_color : string) (n : Z) (s e : rgb) :
  2 ≤ n →
  to_rgb start_color = Return s →
  to_rgb end_color = Return e →
  ∃ cs, get_color_gradient to_rgb start_color end_color n
        = Return (rgb_hex s :: cs).
Proof.
  intros Hn Hs He. destruct s as [[sr sg] sb], e as [[er eg] eb].
  rewrite (get_color_gradient_colors _ _ _ _ _ _ _ _ _ _ Hn Hs He).
  assert (¬ (inject_Z (n - 1) == 0)%Q) as Hnz
    by (apply inject_Z_nonzero; lia).
  set (f := λ i : Z, _).
  assert (head (f <$> py_range n) = Some (rgb_hex (sr, sg, sb))) as Hhead.
  { rewrite head_lookup, list_lookup_fmap, (py_range_lookup n 0) by lia.
    simpl. f_equal. apply rgb_hex_Qeq; field; exact Hnz. }
  destruct (f <$> py_range n) as [|c cs]; [done|].
  injection Hhead as ->. by exists cs.
Qed.

Lemma get_color_gradient_constant (to_rgb : string → result rgb)
    (color : string) (n : Z) (s : rgb) :
  2 ≤ n →
  to_rgb color = Return s →
  ∃ cs, get_color_gradient to_rgb color color n = Return cs ∧
        len cs = n ∧ Forall (eq (rgb_hex s)) cs.
Proof.
  intros Hn Hs. destruct s as [[sr sg] sb].
  rewrite (get_color_gradient_colors _ _ _ _ _ _ _ _ _ _ Hn Hs Hs).
  assert (¬ (inject_Z (n - 1) == 0)%Q) as Hnz
    by (apply inject_Z_nonzero; lia).
  eexists. split; [reflexivity|]. split.
  - unfold len. rewrite length_fmap, length_py_range. lia.
  - apply Forall_fmap, Forall_forall. intros i _. simpl.
    apply rgb_hex_Qeq; field; exact Hnz.
Qed.

(** X5. A gradient of two or more colours starts at its start colour,
    whatever it ends at and however many colours it has: two gradients from
    one start colour have the same first colour, and this is also every
    colour of a gradient from the start colour to itself. *)
Theorem get_color_gradient_first_color (to_rgb : string → result rgb)
    (start_color end_color end_color' : string) (n n' m : Z) :
  2 ≤ n → 2 ≤ n' → 2 ≤ m →
  returns (to_rgb start_color) →
  returns (to_rgb end_color) →
  returns (to_rgb end_color') →
  ∃ c cs cs' same,
    get_color_gradient to_rgb start_color end_color n = Return (c :: cs) ∧
    get_color_gradient to_rgb start_color end_color' n' = Return (c :: cs') ∧
    get_color_gradient to_rgb start_color start_color m = Return same ∧
    len same = m ∧ Forall (eq c) same.
Proof.
  intros Hn Hn' Hm [s Hs] [e He] [e' He'].
  destruct (get_color_gradient_head to_rgb _ _ n s e Hn Hs He) as [cs Hcs].
  destruct (get_color_gradient_head to_rgb _ _ n' s e' Hn' Hs He')
    as [cs' Hcs'].
  destruct (get_color_gradient_constant to_rgb _ m s Hm Hs)
    as (same & Hsame & Hlen & Hall).
  by exists (rgb_hex s), cs, cs', same.
Qed.

Lemma py_int_byte (c : Q) :
  (0 <= c)%Q → (c <= 1)%Q → 0 ≤ py_int (c * 255) ≤ 255.
Proof.
  destruct c as [a b]. unfold Qle, py_int. simpl. intros H0 H1.
  rewrite Z.mul_1_r in *.
  rewrite Z.quot_div_nonneg by lia. split.
  - apply Z.div_pos; lia.
  - apply Z.div_le_upper_bound; lia.
Qed.

Lemma mix_unit (s e t : Q) :
  (0 <= s)%Q → (s <= 1)%Q → (0 <= e)%Q → (e <= 1)%Q →
  (0 <= t)%Q → (t <= 1)%Q →
  (0 <= s + (e - s) * t)%Q ∧ (s + (e - s) * t <= 1)%Q.
Proof.
  intros Hs0 Hs1 He0 He1 Ht0 Ht1.
  assert (s + (e - s) * t == s * (1 - t) + e * t)%Q as -> by ring.
  assert (0 <= 1 - t)%Q as Ht by (by apply Qle_minus_iff in Ht1).
  split.
  - rewrite <- (Qplus_0_r 0). apply Qplus_le_compat; by apply Qmult_le_0_compat.
  - apply Qle_trans with (1 * (1 - t) + 1 * t)%Q.
    + apply Qplus_le_compat; by apply Qmult_le_compat_r.
    + assert (1 * (1 - t) + 1 * t == 1)%Q as -> by ring. apply Qle_refl.
Qed.

Lemma rgb_hex_length (c : rgb) : unit_rgb c → String.length (rgb_hex c) = 7%nat.
Proof.
  destruct c as [[r g] b]. intros ([Hr0 Hr1] & [Hg0 Hg1] & [Hb0 Hb1]).
  unfold rgb_hex. rewrite !string_length_append.
  pose proof (py_int_byte r Hr0 Hr1) as Hr.
  pose proof (py_int_byte g Hg0 Hg1) as Hg.
  pose proof (py_int_byte b Hb0 Hb1) as Hb.
  by rewrite !format_02x_byte_width by done.
Qed.

(** X6. For [n >= 2] and two colours with channels in [[0, 1]], every colour
    of the gradient is a hex code: ['#'] and six hexadecimal digits. *)
Theorem get_color_gradient_hex_codes (to_rgb : string → result rgb)
    (start_color end_color : string) (n : Z) (s e : rgb) :
  2 ≤ n →
  to_rgb start_color = Return s → unit_rgb s →
  to_rgb end_color = Return e → unit_rgb e →
  ∃ cs,
    get_color_gradient to_rgb start_color end_color n = Return cs ∧
    Forall (λ c, String.length c = 7%nat ∧ ∃ digits, c = "#" +:+ digits) cs.
Proof.
  intros Hn Hs Hus He Hue. destruct s as [[sr sg] sb], e as [[er eg] eb].
  eexists. split; [by apply get_color_gradient_colors|].
  apply Forall_fmap, Forall_forall. intros i [Hi0 Hin]%elem_of_py_range.
  unfold compose. cbv beta zeta.
  destruct Hus as ([??] & [??] & [??]), Hue as ([??] & [??] & [??]).
  assert (0 <= inject_Z i / inject_Z (n - 1))%Q as Ht0.
  { change 0%Q with (inject_Z 0 / inject_Z 1)%Q.
    apply Qdiv_inject_Z_le; lia. }
  assert (inject_Z i / inject_Z (n - 1) <= 1)%Q as Ht1.
  { change 1%Q with (inject_Z 1 / inject_Z 1)%Q.
    apply Qdiv_inject_Z_le; lia. }
  split; [|by eexists].
  apply rgb_hex_length. repeat split; by apply mix_unit.
Qed.

(** X7. [get_color_gradient] returns exactly when [to_rgb] knows both colours
    and the number of colours is not [1]; it then gives as many colours as
    asked, none for a number below [1].  An unknown colour is reported before
    the division by zero. *)
Theorem get_color_gradient_outcome (to_rgb : string → result rgb)
    (start_color end_color : string) (n : Z) :
  (returns (get_color_gradient to_rgb start_color end_color n)
   ↔ returns (to_rgb start_color) ∧ returns (to_rgb end_color) ∧ n ≠ 1) ∧
  (∀ cs, get_color_gradient to_rgb start_color end_color n = Return cs →
         len cs = Z.max 0 n) ∧
  (∀ err, to_rgb start_color = Raise err →
          get_color_gradient to_rgb start_color end_color n = Raise err) ∧
  (∀ s err, to_rgb start_color = Return s → to_rgb end_color = Raise err →
            get_color_gradient to_rgb start_color end_color n = Raise err).
Proof.
  split; [|split; [|split]].
  - split.
    + intros [cs Hcs]. unfold get_color_gradient in Hcs.
      destruct (to_rgb start_color) as [s|]; [|done].
      destruct (to_rgb end_color) as [e|]; [|done].
      split; [by eexists|]. split; [by eexists|]. intros ->. done.
    + intros ([s Hs] & [e He] & Hn).
      destruct (Z_le_gt_dec 2 n) as [Hge|Hlt].
      * destruct s as [[sr sg] sb], e as [[er eg] eb].
        eexists. by apply get_color_gradient_colors.
      * exists []. unfold get_color_gradient. rewrite Hs, He, !bind_Return.
        by rewrite py_range_nonpos by lia.
  - intros cs Hcs. apply get_color_gradient_length in Hcs.
    unfold len. lia.
  - intros err Hs. unfold get_color_gradient. by rewrite Hs.
  - intros s err Hs He. unfold get_color_gradient. by rewrite Hs, He.
Qed.

(** ** lollipop_chart *)

Lemma foldl_add_trace {A} (g : Figure → A → Figure) (f : A → trace)
    (l : list A) (fig : Figure) :
  (∀ fig a, g fig a = add_trace (f a) fig) →
  foldl g fig l
  = {| fig_data := fig_data fig ++ (f <$> l);
       fig_annotations := fig_annotations fig;
       fig_layout := fig_layout fig |}.
Proof.
  intros Hg. revert fig. induction l as [|a l IH]; intros fig; simpl.
  - rewrite app_nil_r. by destruct fig.
  - rewrite IH, Hg. simpl. by rewrite <- app_assoc.
Qed.

(** X8. [lollipop_chart] raises its ValueError exactly when the two lists
    differ in length.  Otherwise it returns a figure with one stick per
    category, from [(x, 0)] to [(x, y)], followed by one trace of markers
    at all the points, and no annotation. *)
Theorem lollipop_chart_sticks (categories values : list pyval)
    (title stick_color marker_color : string) :
  (lollipop_chart categories values title stick_color marker_color
   = Raise (ValueError "Length of categories and values must match.")
   ↔ length categories ≠ length values) ∧
  (length categories = length values →
   ∃ fig sticks markers,
     lollipop_chart categories values title stick_color marker_color
       = Return fig ∧
     fig_data fig = (TScatter <$> sticks) ++ [TScatter markers] ∧
     fig_annotations fig = [] ∧
     length sticks = length categories ∧
     (∀ i x y, categories !! i = Some x → values !! i = Some y →
        ∃ s, sticks !! i = Some s ∧
             sc_x s = [x; x] ∧ sc_y s = [PInt 0; y] ∧ sc_mode s = "lines") ∧
     sc_x markers = categories ∧ sc_y markers = values ∧
     sc_mode markers = "markers").
Proof.
  unfold lollipop_chart.
  destruct (decide (length categories = length values)) as [Heq|Hne].
  - rewrite bool_decide_true by (unfold len; congruence). simpl. split.
    + split; [done|]. by intros ?.
    + intros _.
      rewrite (foldl_add_trace _ (λ '(x, y), TScatter
        {| sc_x := [x; x]; sc_y := [PInt 0; y]; sc_mode := "lines";
           sc_line := Some (stick_color, 2); sc_marker := None;
           sc_name := None; sc_showlegend := Some false |}))
        by (by intros ? [??]).
      eexists _, ((λ '(x, y),
        {| sc_x := [x; x]; sc_y := [PInt 0; y]; sc_mode := "lines";
           sc_line := Some (stick_color, 2); sc_marker := None;
           sc_name := None; sc_showlegend := Some false |})
          <$> zip categories values), _.
      split; [reflexivity|]. simpl. split.
      { f_equal. rewrite <- list_fmap_compose. apply list_fmap_ext.
        by intros _ [x y] _. }
      split; [done|]. split.
      { rewrite length_fmap, length_zip. lia. }
      split; [|done].
      intros i x y Hx Hy.
      assert (zip categories values !! i = Some (x, y)) as Hz
        by (apply lookup_zip_with_Some; by exists x, y).
      eexists. split; [by rewrite list_lookup_fmap, Hz|]. done.
  - rewrite bool_decide_false
      by (unfold len; intros ?%Nat2Z.inj; done). simpl.
    split; [done|]. by intros ?.
Qed.

(** ** dumbbell and line_range: the figure *)

Lemma foldl_add_annotation (l : list Annotation) (fig : Figure) :
  foldl (λ fig a, add_annotation a fig) fig l
  = {| fig_data := fig_data fig;
       fig_annotations := fig_annotations fig ++ l;
       fig_layout := fig_layout fig |}.
Proof.
  revert fig. induction l as [|a l IH]; intros fig; simpl.
  - rewrite app_nil_r. by destruct fig.
  - rewrite IH. simpl. by rewrite <- app_assoc.
Qed.

(** The traces and the annotations of the figure of [dumbbell]. *)
Lemma dumbbell_figure_parts categories values1 values2 label1 label2 title
    orientation marker_color1 marker_color2 line_color marker_size line_width
    labels :
  let h := String.eqb orientation "h" in
  let showlegend := truthy_str label1 && truthy_str label2 in
  let fig := dumbbell_figure categories values1 values2 label1 label2 title
               orientation marker_color1 marker_color2 line_color marker_size
               line_width labels in
  fig_data fig
  = (TScatter ∘ line_trace h line_color line_width
       <$> zip (zip categories values1) values2)
    ++ [ TScatter (marker_trace h categories values1 marker_color1 marker_size
                     label1 showlegend);
         TScatter (marker_trace h categories values2 marker_color2 marker_size
                     label2 showlegend) ] ∧
  fig_annotations fig = mjoin labels.
Proof.
  unfold dumbbell_figure.
  destruct (String.eqb orientation "h"); cbv zeta;
    rewrite foldl_add_annotation.
  - rewrite (foldl_add_trace _
      (TScatter ∘ line_trace true line_color line_width))
      by (by intros ? [[??]?]).
    simpl. by rewrite <- app_assoc.
  - rewrite (foldl_add_trace _
      (TScatter ∘ line_trace false line_color line_width))
      by (by intros ? [[??]?]).
    simpl. by rewrite <- app_assoc.
Qed.

(** Lists that pass the checks of [dumbbell] have one length. *)
Lemma dumbbell_inputs_lengths df category_col value1_col value2_col categories
    values1 values2 cats vals1 vals2 :
  dumbbell_inputs df category_col value1_col value2_col categories values1
                  values2 = Return (cats, vals1, vals2) →
  length vals1 = length cats ∧ length vals2 = length cats.
Proof.
  unfold dumbbell_inputs.
  match goal with
  | |- (?m ≫= _) = _ → _ => destruct m as [[[c v1] v2]|]; [|done]
  end.
  rewrite bind_Return.
  destruct (bool_decide (len c = len v1)) eqn:E1; [|done].
  destruct (bool_decide (len v1 = len v2)) eqn:E2; [|done].
  simpl. intros [= <- <- <-].
  apply bool_decide_eq_true in E1, E2. unfold len in *. lia.
Qed.

Lemma dumbbell_labels_pair h c1 c2 cat val1 val2 l :
  dumbbell_labels h c1 c2 cat val1 val2 = Return l → length l = 2%nat.
Proof.
  unfold dumbbell_labels. destruct (py_lt val1 val2) as [less|]; [|done].
  rewrite bind_Return. destruct h, less; by intros [= <-].
Qed.

Lemma mapM_Forall2 {A B} (f : A → result B) (l : list A) (k : list B) :
  mapM f l = Return k → Forall2 (λ a b, f a = Return b) l k.
Proof.
  revert k. induction l as [|x l IH]; intros k.
  - intros [= <-]. constructor.
  - rewrite mapM_cons. destruct (f x) as [y|] eqn:Hx; [|done].
    rewrite bind_Return. destruct (mapM f l) as [k'|]; [|done].
    rewrite bind_Return. intros [= <-]. constructor; [done|by apply IH].
Qed.

Lemma length_join_labels h c1 c2 (rows : list (pyval * pyval * pyval))
    (labels : list (list Annotation)) :
  mapM (λ '(cat, val1, val2), dumbbell_labels h c1 c2 cat val1 val2) rows
    = Return labels →
  length (mjoin labels) = (2 * length rows)%nat.
Proof.
  intros Hm. apply mapM_Forall2 in Hm.
  induction Hm as [|[[cat val1] val2] l rows labels Hl _ IH]; [done|].
  simpl. rewrite length_app, IH, (dumbbell_labels_pair _ _ _ _ _ _ _ Hl). lia.
Qed.

(** X9. A figure returned by [dumbbell] for [n] categories has [n] lines, then
    the two traces of markers, and [2 n] value labels.  Line [i] joins the two
    values of category [i]: along x on the row of the category when the
    orientation is ['h'], along y on its column otherwise. *)
Theorem dumbbell_figure_shape df (category_col value1_col value2_col : option string)
    (categories values1 values2 : option (list pyval))
    (label1 label2 : option string) (title orientation : string)
    (marker_color1 marker_color2 line_color : string)
    (marker_size line_width : Z) (fig : Figure) :
  dumbbell df category_col value1_col value2_col categories values1 values2
           label1 label2 title orientation marker_color1 marker_color2
           line_color marker_size line_width = Return fig →
  ∃ cats vals1 vals2 m1 m2,
    dumbbell_inputs df category_col value1_col value2_col categories values1
                    values2 = Return (cats, vals1, vals2) ∧
    length vals1 = length cats ∧ length vals2 = length cats ∧
    length (fig_data fig) = (length cats + 2)%nat ∧
    length (fig_annotations fig) = (2 * length cats)%nat ∧
    (∀ i c a b, cats !! i = Some c → vals1 !! i = Some a →
                vals2 !! i = Some b →
       ∃ s, fig_data fig !! i = Some (TScatter s) ∧ sc_mode s = "lines" ∧
            zip (sc_x s) (sc_y s)
            = if String.eqb orientation "h" then [(a, c); (b, c)]
              else [(c, a); (c, b)]) ∧
    fig_data fig !! length cats = Some (TScatter m1) ∧
    fig_data fig !! S (length cats) = Some (TScatter m2) ∧
    sc_mode m1 = "markers" ∧ sc_mode m2 = "markers" ∧
    zip (sc_x m1) (sc_y m1)
      = (if String.eqb orientation "h" then zip vals1 cats
         else zip cats vals1) ∧
    zip (sc_x m2) (sc_y m2)
      = (if String.eqb orientation "h" then zip vals2 cats
         else zip cats vals2).
Proof.
  rewrite dumbbell_unfold.
  destruct (dumbbell_inputs _ _ _ _ _ _ _) as [[[cats vals1] vals2]|] eqn:Hin;
    [|done].
  rewrite bind_Return.
  destruct (mapM _ _) as [labels|] eqn:Hl; [|done].
  rewrite bind_Return. intros [= <-].
  destruct (dumbbell_inputs_lengths _ _ _ _ _ _ _ _ _ _ Hin) as [H1 H2].
  destruct (dumbbell_figure_parts cats vals1 vals2 label1 label2 title
    orientation marker_color1 marker_color2 line_color marker_size line_width
    labels) as [Hdata Hann].
  assert (length (zip (zip cats vals1) vals2) = length cats) as Hrows.
  { rewrite !length_zip. lia. }
  eexists cats, vals1, vals2, _, _. split; [done|].
  split; [done|]. split; [done|].
  rewrite Hdata, Hann. split.
  { rewrite length_app, length_fmap, Hrows. simpl. lia. }
  split.
  { rewrite (length_join_labels _ _ _ _ _ Hl), Hrows. lia. }
  split.
  { intros i c a b Hc Ha Hb.
    assert (zip (zip cats vals1) vals2 !! i = Some (c, a, b)) as Hz.
    { apply lookup_zip_with_Some. exists (c, a), b. split; [done|].
      split; [|done]. apply lookup_zip_with_Some. by exists c, a. }
    eexists. split.
    { rewrite lookup_app_l by (rewrite length_fmap, Hrows;
                                by apply lookup_lt_Some in Hc).
      by rewrite list_lookup_fmap, Hz. }
    simpl. by destruct (String.eqb orientation "h"). }
  split.
  { rewrite lookup_app_r by (rewrite length_fmap, Hrows; lia).
    rewrite length_fmap, Hrows, Nat.sub_diag. reflexivity. }
  split.
  { rewrite lookup_app_r by (rewrite length_fmap, Hrows; lia).
    rewrite length_fmap, Hrows.
    replace (S (length cats) - length cats)%nat with 1%nat by lia.
    reflexivity. }
  simpl. by destruct (String.eqb orientation "h").
Qed.

Lemma mapM_returns_iff {A B} (f : A → result B) (l : list A) :
  returns (mapM f l) ↔ Forall (λ x, returns (f x)) l.
Proof.
  split; [|apply mapM_returns].
  intros [k Hk]. apply mapM_Forall2 in Hk.
  induction Hk as [|x y l k Hxy _ IH]; constructor; [by exists y|done].
Qed.

Lemma dumbbell_labels_returns_iff h c1 c2 cat val1 val2 :
  returns (dumbbell_labels h c1 c2 cat val1 val2) ↔ returns (py_lt val1 val2).
Proof.
  unfold dumbbell_labels. destruct (py_lt val1 val2) as [less|e].
  - rewrite bind_Return. split; [by eexists|].
    intros _. destruct h, less; by eexists.
  - split; by intros [? ?].
Qed.

Lemma transpose_line_trace h line_color line_width row :
  transpose_trace (TScatter (line_trace h line_color line_width row))
  = TScatter (line_trace (negb h) line_color line_width row).
Proof. destruct row as [[cat val1] val2]. by destruct h. Qed.

Lemma returns_bind_Return {A B} (m : result A) (g : A → B) :
  returns (m ≫= λ a, Return (g a)) ↔ returns m.
Proof.
  destruct m as [a|e].
  - rewrite bind_Return. split; intros _; by eexists.
  - split; intros [? ?]; discriminate.
Qed.

Lemma dumbbell_labels_all_return h c1 c2 (rows : list (pyval * pyval * pyval)) :
  returns (mapM (λ '(cat, val1, val2),
             dumbbell_labels h c1 c2 cat val1 val2) rows)
  ↔ Forall (λ '(cat, val1, val2), returns (py_lt val1 val2)) rows.
Proof.
  rewrite mapM_returns_iff. apply Forall_iff. intros [[cat val1] val2].
  apply dumbbell_labels_returns_iff.
Qed.

Lemma dumbbell_figure_vertical categories values1 values2 label1 label2 title
    orientation marker_color1 marker_color2 line_color marker_size line_width
    labels :
  orientation ≠ "h" →
  dumbbell_figure categories values1 values2 label1 label2 title orientation
    marker_color1 marker_color2 line_color marker_size line_width labels
  = dumbbell_figure categories values1 values2 label1 label2 title "v"
      marker_color1 marker_color2 line_color marker_size line_width labels.
Proof.
  intros Ho%String.eqb_neq. unfold dumbbell_figure. by rewrite Ho.
Qed.

(** X10. Any orientation other than ['h'] is drawn as ['v'].  The vertical
    chart exists exactly when the horizontal one does, and its traces are
    those of the horizontal chart with the two axes exchanged, with as many
    value labels. *)
Theorem dumbbell_orientation df (category_col value1_col value2_col : option string)
    (categories values1 values2 : option (list pyval))
    (label1 label2 : option string) (title orientation : string)
    (marker_color1 marker_color2 line_color : string)
    (marker_size line_width : Z) :
  orientation ≠ "h" →
  let chart (o : string) :=
    dumbbell df category_col value1_col value2_col categories values1 values2
             label1 label2 title o marker_color1 marker_color2 line_color
             marker_size line_width in
  chart orientation = chart "v" ∧
  (returns (chart "h") ↔ returns (chart "v")) ∧
  (∀ fh fv, chart "h" = Return fh → chart "v" = Return fv →
     fig_data fv = transpose_trace <$> fig_data fh ∧
     length (fig_annotations fv) = length (fig_annotations fh)).
Proof.
  intros Ho chart. subst chart. cbv beta. rewrite !dumbbell_unfold.
  rewrite (proj2 (String.eqb_neq _ _) Ho).
  change (String.eqb "v" "h") with false.
  change (String.eqb "h" "h") with true.
  destruct (dumbbell_inputs _ _ _ _ _ _ _) as [[[cats vals1] vals2]|e];
    [|split; [done|split; [split; by intros [? ?]|by intros ?]]].
  rewrite !bind_Return.
  set (rows := zip (zip cats vals1) vals2).
  split; [|split].
  - destruct (mapM _ rows) as [labels|]; [|done].
    rewrite !bind_Return. f_equal. by apply dumbbell_figure_vertical.
  - by rewrite !returns_bind_Return, !dumbbell_labels_all_return.
  - intros fh fv.
    destruct (mapM (λ '(cat, val1, val2), dumbbell_labels true _ _ _ _ _) rows)
      as [lh|] eqn:Hlh; [|done].
    destruct (mapM (λ '(cat, val1, val2), dumbbell_labels false _ _ _ _ _) rows)
      as [lv|] eqn:Hlv; [|done].
    rewrite !bind_Return. intros [= <-] [= <-].
    destruct (dumbbell_figure_parts cats vals1 vals2 label1 label2 title
      "h" marker_color1 marker_color2 line_color marker_size line_width lh)
      as [Hdh Hah].
    destruct (dumbbell_figure_parts cats vals1 vals2 label1 label2 title
      "v" marker_color1 marker_color2 line_color marker_size line_width lv)
      as [Hdv Hav].
    change (String.eqb "v" "h") with false in Hdv.
    change (String.eqb "h" "h") with true in Hdh.
    rewrite Hdh, Hah, Hdv, Hav. split.
    + rewrite fmap_app, <- list_fmap_compose. fold rows. f_equal.
      apply list_fmap_ext. intros _ row _. unfold compose.
      by rewrite transpose_line_trace.
    + by rewrite (length_join_labels _ _ _ _ _ Hlh),
        (length_join_labels _ _ _ _ _ Hlv).
Qed.

(** * Further properties of line_range and waterfall *)

(** X11. A chart returned by [line_range] is the dumbbell chart of its
    inputs in which no trace has a name or a legend entry and every trace,
    line or markers, is drawn in [line_color] with [line_width]; the two
    labels passed in play no part. *)
Theorem line_range_plain_traces df
    (category_col value1_col value2_col : option string)
    (categories values1 values2 : option (list pyval))
    (label1 label2 : option string) (title orientation : string)
    (line_color : string) (line_width : Z) (fig : Figure) :
  line_range df category_col value1_col value2_col categories values1 values2
             label1 label2 title orientation line_color line_width
    = Return fig →
  ∃ cats vals1 vals2,
    dumbbell_inputs df category_col value1_col value2_col categories values1
                    values2 = Return (cats, vals1, vals2) ∧
    let h := String.eqb orientation "h" in
    fig_data fig
    = (TScatter ∘ line_trace h line_color line_width
         <$> zip (zip cats vals1) vals2)
      ++ [ TScatter (marker_trace h cats vals1 line_color line_width None
                       false);
           TScatter (marker_trace h cats vals2 line_color line_width None
                       false) ] ∧
    Forall (λ t, ∃ s, t = TScatter s ∧ sc_name s = None ∧
                      sc_showlegend s = Some false ∧
                      (sc_line s = Some (line_color, line_width) ∨
                       sc_marker s = Some (line_color, line_width)))
           (fig_data fig) ∧
    ∀ l1 l2,
      line_range df category_col value1_col value2_col categories values1
                 values2 l1 l2 title orientation line_color line_width
      = Return fig.
Proof.
  intros Hfig. assert (Hfig' := Hfig).
  unfold line_range in Hfig. cbv zeta in Hfig.
  rewrite dumbbell_unfold in Hfig.
  destruct (dumbbell_inputs _ _ _ _ _ _ _) as [[[cats vals1] vals2]|]
    eqn:Hin; [|done].
  rewrite bind_Return in Hfig.
  destruct (mapM _ _) as [labels|]; [|done].
  rewrite bind_Return in Hfig. injection Hfig as <-.
  exists cats, vals1, vals2. split; [done|]. cbv zeta.
  destruct (dumbbell_figure_parts cats vals1 vals2 None None title
    orientation line_color line_color line_color line_width line_width
    labels) as [Hdata _].
  change (truthy_str None && truthy_str None) with false in Hdata.
  rewrite Hdata. split; [done|]. split; [|done].
  apply Forall_app. split.
  - apply Forall_fmap, Forall_forall. intros [[cat val1] val2] _.
    eexists. split; [done|]. repeat split. by left.
  - repeat constructor; eexists; (split; [done|]); repeat split; by right.
Qed.

(** X12. Without a DataFrame, [waterfall] raises its input error exactly when
    the labels or the values are missing or empty.  Otherwise it returns a
    chart that carries the labels, the values, the annotation and a given
    measure unchanged: their lengths are never compared. *)
Theorem waterfall_lists_unchecked (category_col value_col : option string)
    (labels data : option (list pyval)) (title : string)
    (annotation : option (list string)) (icolor dcolor tcolor ccolor : string)
    (color : option string) (measure : option (list string)) :
  let call := waterfall None category_col value_col labels data title
                annotation icolor dcolor tcolor ccolor color measure in
  (call = Raise (ValueError
                   "Provide either a DataFrame or labels and data lists.")
   ↔ labels = None ∨ labels = Some [] ∨ data = None ∨ data = Some []) ∧
  (∀ ls ds, labels = Some ls → data = Some ds → ls ≠ [] → ds ≠ [] →
     ∃ fig w, call = Return fig ∧ fig_data fig = [TWaterfall w] ∧
       fig_annotations fig = [] ∧
       wf_x w = ls ∧ wf_y w = ds ∧ wf_text w = annotation ∧
       (∀ m, measure = Some m → wf_measure w = m)).
Proof.
  cbv zeta. unfold waterfall. split.
  - destruct labels as [[|l ls]|], data as [[|d ds]|]; simpl;
      try (split; [intros _; tauto | done]).
    split; [|intros [|[|[|]]]; done].
    destruct color as [c|]; [destruct (truthy_str (Some c))|]; done.
  - intros ls ds -> -> Hls Hds.
    destruct ls as [|l ls]; [done|]. destruct ds as [|d ds]; [done|].
    simpl.
    destruct color as [c|]; [destruct (truthy_str (Some c))|];
      eexists _, _; (split; [done|]); repeat split;
      by intros m ->.
Qed.

(** X13. A non-empty [color] replaces all four colours of a waterfall chart;
    with no [color], or an empty one, the chart keeps the four colours it was
    given. *)
Theorem waterfall_color_override df (category_col value_col : option string)
    (labels data : option (list pyval)) (title : string)
    (annotation : option (list string)) (icolor dcolor tcolor ccolor : string)
    (color : option string) (measure : option (list string)) (fig : Figure) :
  waterfall df category_col value_col labels data title annotation icolor
            dcolor tcolor ccolor color measure = Return fig →
  ∃ w, fig_data fig = [TWaterfall w] ∧
    (wf_increasing_color w, wf_decreasing_color w, wf_totals_color w,
     wf_connector_color w)
    = match color with
      | Some c => if decide (c = "") then (icolor, dcolor, tcolor, ccolor)
                  else (c, c, c, c)
      | None => (icolor, dcolor, tcolor, ccolor)
      end.
Proof.
  intros H. unfold waterfall in H.
  match type of H with
  | (?m ≫= _) = _ => destruct m as [[ls ds]|]; [|discriminate H]
  end.
  rewrite bind_Return in H. revert H.
  destruct color as [c|].
  - destruct (decide (c = "")) as [->|Hc].
    + simpl. intros [= <-]. by eexists.
    + assert (truthy_str (Some c) = true) as ->.
      { destruct c; [done|reflexivity]. }
      intros [= <-]. by eexists.
  - intros [= <-]. by eexists.
Qed.

(** * Further properties of the DataFrame inputs *)

Lemma truthy_str_Some (c : string) : truthy_str (Some c) = bool_decide (c ≠ "").
Proof.
  unfold truthy_str. destruct (String.eqb_spec c "") as [->|Hc].
  - by rewrite bool_decide_false by (by intros ?).
  - by rewrite bool_decide_true.
Qed.

(** The check of a column name passes, or reports the name. *)
Lemma check_column_cases (df : DataFrame) (col : option string) :
  (check_column df col = Return tt ∧
   ∀ c, col = Some c → c ≠ "" → c ∈ df.*1) ∨
  (∃ c, col = Some c ∧ c ≠ "" ∧ (c ∉ df.*1) ∧
        check_column df col = Raise (column_not_found c)).
Proof.
  destruct col as [c|]; [|by left]. unfold check_column.
  rewrite truthy_str_Some.
  destruct (decide (c = "")) as [->|Hc].
  - left. rewrite bool_decide_false by (by intros ?). simpl.
    split; [done|]. by intros ? [= <-].
  - rewrite bool_decide_true by done.
    destruct (decide (c ∈ df.*1)) as [Hin|Hin].
    + left. rewrite bool_decide_true by done. split; [done|].
      by intros ? [= <-].
    + right. rewrite bool_decide_false by done. by exists c.
Qed.

Lemma check_column_missing (df : DataFrame) (c : string) :
  c ≠ "" → c ∉ df.*1 → check_column df (Some c) = Raise (column_not_found c).
Proof.
  intros Hc Hin.
  destruct (check_column_cases df (Some c)) as [[_ H]|(c' & [= <-] & _ & _ & H)];
    [|done].
  destruct Hin. by apply H.
Qed.

(** A checked column name resolves to a column of the DataFrame, or to an
    IndexError when the name is left out and the position does not exist. *)
Lemma column_or_cases (df : DataFrame) (col : option string) (i : nat) :
  (∀ c, col = Some c → c ≠ "" → c ∈ df.*1) →
  (∃ name, column_or df col i = Return name ∧ name ∈ df.*1) ∨
  (column_or df col i = Raise IndexError ∧ (length df ≤ i)%nat).
Proof.
  intros Hcol.
  assert ((∃ name, df_columns_at df i = Return name ∧ name ∈ df.*1) ∨
          (df_columns_at df i = Raise IndexError ∧ (length df ≤ i)%nat))
    as Hat.
  { unfold df_columns_at. destruct (df.*1 !! i) as [name|] eqn:Hi.
    - left. exists name. split; [done|]. by eapply list_elem_of_lookup_2.
    - right. split; [done|]. apply lookup_ge_None in Hi.
      by rewrite length_fmap in Hi. }
  destruct col as [c|]; [|done]. unfold column_or.
  rewrite truthy_str_Some. destruct (decide (c = "")) as [->|Hc].
  - by rewrite bool_decide_false by (by intros ?).
  - rewrite bool_decide_true by done. left. exists c. split; [done|].
    by apply Hcol.
Qed.

(** The cells of a column that the DataFrame has. *)
Lemma df_tolist_elem_of (df : DataFrame) (name : string) :
  name ∈ df.*1 →
  ∃ cells, df_tolist df name = Return cells ∧ (name, cells) ∈ df.
Proof.
  induction df as [|[c cells] df IH]; [by intros ?%elem_of_nil|].
  intros Hin. simpl. destruct (String.eqb_spec c name) as [->|Hc].
  - exists cells. split; [done|]. by left.
  - apply elem_of_cons in Hin as [Hin|Hin]; [by destruct Hc|].
    destruct (IH Hin) as (cells' & -> & Hin'). exists cells'.
    split; [done|]. by right.
Qed.

(** X14. A column name that is given, not empty and not a column of the
    DataFrame stops each chart with the error that names it, whatever the
    other arguments are.  The category column is checked first, so a missing
    value column is reported only when the category column passes. *)
Theorem missing_column_rejected (to_rgb : string → result rgb)
    (df : DataFrame) (c : string) (category_col : option string) :
  c ≠ "" → c ∉ df.*1 →
  (∀ value_col data title local_colors startcolor endcolor fig_height
     tile_gap grid_width,
     waffle to_rgb (Some df) (Some c) value_col data title local_colors
            startcolor endcolor fig_height tile_gap grid_width
     = Raise (column_not_found c)) ∧
  (∀ value_col labels data title annotation icolor dcolor tcolor ccolor color
     measure,
     waterfall (Some df) (Some c) value_col labels data title annotation
               icolor dcolor tcolor ccolor color measure
     = Raise (column_not_found c)) ∧
  (∀ value1_col value2_col categories values1 values2 label1 label2 title
     orientation marker_color1 marker_color2 line_color marker_size
     line_width,
     dumbbell (Some df) (Some c) value1_col value2_col categories values1
              values2 label1 label2 title orientation marker_color1
              marker_color2 line_color marker_size line_width
     = Raise (column_not_found c)) ∧
  (∀ value1_col value2_col categories values1 values2 label1 label2 title
     orientation line_color line_width,
     line_range (Some df) (Some c) value1_col value2_col categories values1
                values2 label1 label2 title orientation line_color line_width
     = Raise (column_not_found c)) ∧
  (check_column df category_col = Return tt →
   ∀ data title local_colors startcolor endcolor fig_height tile_gap
     grid_width labels wdata annotation icolor dcolor tcolor ccolor color
     measure,
     waffle to_rgb (Some df) category_col (Some c) data title local_colors
            startcolor endcolor fig_height tile_gap grid_width
     = Raise (column_not_found c) ∧
     waterfall (Some df) category_col (Some c) labels wdata title annotation
               icolor dcolor tcolor ccolor color measure
     = Raise (column_not_found c)).
Proof.
  intros Hc Hin. pose proof (check_column_missing df c Hc Hin) as Hmiss.
  repeat split; intros.
  - unfold waffle. by rewrite Hmiss.
  - unfold waterfall. by rewrite Hmiss.
  - unfold dumbbell. by rewrite Hmiss.
  - unfold line_range, dumbbell. by rewrite Hmiss.
  - unfold waffle. rewrite H, bind_Return. by rewrite Hmiss.
  - unfold waterfall. rewrite H, bind_Return. by rewrite Hmiss.
Qed.

(** The two leading columns of a DataFrame, under their names, an empty name
    or no name. *)
Lemma leading_columns {B} (k : list pyval → list pyval → result B)
    (c0 c1 : string) (ks vs : list pyval) (rest : DataFrame)
    (category_col value_col : option string) :
  c0 ≠ c1 →
  category_col = None ∨ category_col = Some "" ∨ category_col = Some c0 →
  value_col = None ∨ value_col = Some "" ∨ value_col = Some c1 →
  let df := (c0, ks) :: (c1, vs) :: rest in
  (_ ← check_column df category_col;
   _ ← check_column df value_col;
   category_col ← column_or df category_col 0;
   value_col ← column_or df value_col 1;
   labels ← df_tolist df category_col;
   data ← df_tolist df value_col;
   k labels data) = k ks vs.
Proof.
  intros Hne Hc Hv df.
  assert (check_column df category_col = Return tt ∧
          column_or df category_col 0 = Return c0) as [-> Hc0].
  { destruct Hc as [-> | [-> | ->]]; [done|done|].
    unfold check_column, column_or. rewrite truthy_str_Some.
    destruct (decide (c0 = "")) as [->|H0].
    - by rewrite bool_decide_false by (by intros ?).
    - rewrite bool_decide_true by done.
      rewrite bool_decide_true by (subst df; simpl; by left). done. }
  assert (check_column df value_col = Return tt ∧
          column_or df value_col 1 = Return c1) as [-> Hc1].
  { destruct Hv as [-> | [-> | ->]]; [done|done|].
    unfold check_column, column_or. rewrite truthy_str_Some.
    destruct (decide (c1 = "")) as [->|H0].
    - by rewrite bool_decide_false by (by intros ?).
    - rewrite bool_decide_true by done.
      rewrite bool_decide_true by (subst df; simpl; right; by left). done. }
  rewrite !bind_Return, Hc0, bind_Return, Hc1, bind_Return.
  subst df. cbn [df_tolist].
  rewrite !String.eqb_refl, (proj2 (String.eqb_neq c0 c1) Hne).
  by rewrite !bind_Return.
Qed.

Lemma NoDup_leading (c0 c1 : string) (ks vs : list pyval) (rest : DataFrame) :
  NoDup ((c0, ks) :: (c1, vs) :: rest).*1 → c0 ≠ c1.
Proof.
  rewrite !fmap_cons. intros [Hc0 _]%NoDup_cons ->. apply Hc0. by left.
Qed.

(** X15. With a DataFrame whose columns have different names,
    [waffle] and [waterfall] read the categories from the first column and
    the values from the second, whether the columns are named, named by the
    empty string or left out; the [data], [labels] and values passed besides are ignored.
    The waffle chart is the one of the dict that pairs the two columns. *)
Theorem dataframe_leading_columns (to_rgb : string → result rgb)
    (c0 c1 : string) (ks vs : list pyval) (rest : DataFrame)
    (category_col value_col : option string) :
  NoDup ((c0, ks) :: (c1, vs) :: rest).*1 →
  category_col = None ∨ category_col = Some "" ∨ category_col = Some c0 →
  value_col = None ∨ value_col = Some "" ∨ value_col = Some c1 →
  let df := (c0, ks) :: (c1, vs) :: rest in
  (∀ data title local_colors startcolor endcolor fig_height tile_gap
     grid_width,
     waffle to_rgb (Some df) category_col value_col data title local_colors
            startcolor endcolor fig_height tile_gap grid_width
     = waffle to_rgb None None None (Some (dict_of_zip ks vs)) title
              local_colors startcolor endcolor fig_height tile_gap grid_width) ∧
  (∀ labels data,
     waterfall_inputs (Some df) category_col value_col labels data
     = Return (ks, vs)) ∧
  (∀ labels data title annotation icolor dcolor tcolor ccolor color measure,
     ∃ fig w,
       waterfall (Some df) category_col value_col labels data title annotation
                 icolor dcolor tcolor ccolor color measure = Return fig ∧
       fig_data fig = [TWaterfall w] ∧ wf_x w = ks ∧ wf_y w = vs).
Proof.
  intros Hnd Hc Hv df. subst df.
  pose proof (NoDup_leading c0 c1 ks vs rest Hnd) as Hne.
  split; [|split].
  - intros. rewrite !waffle_unfold. f_equal. unfold waffle_data.
    by apply (leading_columns (λ ks vs, Return (dict_of_zip ks vs))).
  - intros. unfold waterfall_inputs.
    by apply (leading_columns (λ ls ds, Return (ls, ds))).
  - intros. unfold waterfall. cbv beta iota.
    rewrite (leading_columns (λ ls ds, Return (ls, ds))) by done.
    rewrite bind_Return.
    destruct color as [c|]; [destruct (truthy_str (Some c))|];
      by eexists _, _.
Qed.

(** The three lists [dumbbell] reads from a DataFrame, before their lengths
    are compared. *)
Lemma dumbbell_columns (df : DataFrame)
    (category_col value1_col value2_col : option string) :
  let read :=
    _ ← check_column df category_col;
    _ ← check_column df value1_col;
    _ ← check_column df value2_col;
    category_col ← column_or df category_col 0;
    value1_col ← column_or df value1_col 1;
    value2_col ← column_or df value2_col 2;
    categories ← df_tolist df category_col;
    values1 ← df_tolist df value1_col;
    values2 ← df_tolist df value2_col;
    Return (categories, values1, values2) in
  match read with
  | Return (cats, vals1, vals2) =>
      (∃ n0, (n0, cats) ∈ df) ∧ (∃ n1, (n1, vals1) ∈ df) ∧
      (∃ n2, (n2, vals2) ∈ df)
  | Raise e =>
      (∃ c, e = column_not_found c ∧ c ≠ "" ∧ (c ∉ df.*1) ∧
            Some c ∈ [category_col; value1_col; value2_col]) ∨
      (e = IndexError ∧ (length df < 3)%nat)
  end.
Proof.
  cbv zeta.
  destruct (check_column_cases df category_col)
    as [[-> H0]|(c & -> & ? & ? & ->)];
    [|left; exists c; repeat split; try done; by left].
  rewrite bind_Return.
  destruct (check_column_cases df value1_col)
    as [[-> H1]|(c & -> & ? & ? & ->)];
    [|left; exists c; repeat split; try done; right; by left].
  rewrite bind_Return.
  destruct (check_column_cases df value2_col)
    as [[-> H2]|(c & -> & ? & ? & ->)];
    [|left; exists c; repeat split; try done; right; right; by left].
  rewrite bind_Return.
  destruct (column_or_cases df category_col 0 H0) as [(n0 & -> & Hn0)|[-> ?]];
    [|right; split; [done|lia]].
  rewrite bind_Return.
  destruct (column_or_cases df value1_col 1 H1) as [(n1 & -> & Hn1)|[-> ?]];
    [|right; split; [done|lia]].
  rewrite bind_Return.
  destruct (column_or_cases df value2_col 2 H2) as [(n2 & -> & Hn2)|[-> ?]];
    [|right; split; [done|lia]].
  rewrite bind_Return.
  destruct (df_tolist_elem_of df n0 Hn0) as (cats & -> & ?).
  rewrite bind_Return.
  destruct (df_tolist_elem_of df n1 Hn1) as (vals1 & -> & ?).
  rewrite bind_Return.
  destruct (df_tolist_elem_of df n2 Hn2) as (vals2 & -> & ?).
  rewrite bind_Return. split_and!; by eexists.
Qed.

(** X16. When the columns of a DataFrame have different names and [n] cells
    each, the inputs [dumbbell] reads from it are three of its columns, of
    [n] cells each.  The only errors are a named column that is missing and
    an IndexError of a DataFrame with fewer than three columns: the length
    check cannot fail, and an empty DataFrame is not refused as empty lists
    are.  (Different names, because selecting a repeated name gives no single
    column in pandas.) *)
Theorem dumbbell_dataframe_inputs (df : DataFrame) (n : nat)
    (category_col value1_col value2_col : option string)
    (categories values1 values2 : option (list pyval)) :
  NoDup df.*1 →
  Forall (λ col, length col.2 = n) df →
  match dumbbell_inputs (Some df) category_col value1_col value2_col
                        categories values1 values2 with
  | Return (cats, vals1, vals2) =>
      (∃ n0, (n0, cats) ∈ df) ∧ (∃ n1, (n1, vals1) ∈ df) ∧
      (∃ n2, (n2, vals2) ∈ df) ∧
      length cats = n ∧ length vals1 = n ∧ length vals2 = n
  | Raise e =>
      (∃ c, e = column_not_found c ∧ c ≠ "" ∧ (c ∉ df.*1) ∧
            Some c ∈ [category_col; value1_col; value2_col]) ∨
      (e = IndexError ∧ (length df < 3)%nat)
  end.
Proof.
  intros _ Hdf. rewrite Forall_forall in Hdf.
  pose proof (dumbbell_columns df category_col value1_col value2_col) as Hcols.
  cbv zeta in Hcols. unfold dumbbell_inputs.
  match type of Hcols with
  | match ?m with _ => _ end =>
      destruct m as [[[cats vals1] vals2]|e]; [|exact Hcols]
  end.
  rewrite bind_Return.
  destruct Hcols as ((n0 & Hn0) & (n1 & Hn1) & (n2 & Hn2)).
  pose proof (Hdf _ Hn0) as L0. pose proof (Hdf _ Hn1) as L1.
  pose proof (Hdf _ Hn2) as L2. simpl in L0, L1, L2.
  unfold len. rewrite L0, L1, L2.
  rewrite !bool_decide_true by done. simpl. eauto 10.
Qed.

(** * Further properties of the waffle inputs and grid *)

(** ** The dict of two DataFrame columns *)

Lemma dict_set_keys (d : dict) (k v : pyval) :
  (dict_set d k v).*1 = if decide (k ∈ d.*1) then d.*1 else d.*1 ++ [k].
Proof.
  induction d as [|[a b] d IH].
  - destruct (decide (k ∈ ([] : dict).*1)) as [Hin|Hin]; [|done].
    by apply elem_of_nil in Hin.
  - cbn [dict_set]. destruct (decide (a = k)) as [->|Ha].
    + rewrite !fmap_cons. cbn [fst].
      destruct (decide (k ∈ k :: d.*1)) as [Hin|Hin]; [done|].
      destruct Hin. by left.
    + rewrite !fmap_cons, IH. cbn [fst].
      destruct (decide (k ∈ d.*1)) as [Hin|Hin];
        destruct (decide (k ∈ a :: d.*1)) as [Hin'|Hin']; try done.
      * destruct Hin'. by right.
      * apply elem_of_cons in Hin' as [?|?]; [by destruct Ha|done].
Qed.

Lemma dict_set_fresh (d : dict) (k v : pyval) :
  k ∉ d.*1 → dict_set d k v = d ++ [(k, v)].
Proof.
  induction d as [|[a b] d IH]; [done|].
  rewrite fmap_cons. cbn [fst dict_set]. intros [? ?]%not_elem_of_cons.
  destruct (decide (a = k)) as [?|?]; [done|]. by rewrite IH.
Qed.

Lemma elem_of_dict_set (d : dict) (k v k' v' : pyval) :
  NoDup d.*1 →
  (k', v') ∈ dict_set d k v ↔ (k' = k ∧ v' = v) ∨ (k' ≠ k ∧ (k', v') ∈ d).
Proof.
  induction d as [|[a b] d IH].
  - intros _. cbn [dict_set].
    rewrite list_elem_of_singleton, elem_of_nil. split.
    + intros [= -> ->]. by left.
    + intros [[-> ->]|[_ []]]. done.
  - rewrite fmap_cons. cbn [fst dict_set].
    intros [Ha Hd]%NoDup_cons. specialize (IH Hd).
    assert (∀ y, (a, y) ∉ d) as Hfresh.
    { intros y Hy. apply Ha. apply list_elem_of_fmap. by exists (a, y). }
    destruct (decide (a = k)) as [->|Hak].
    + rewrite !elem_of_cons. split.
      * intros [[= -> ->]|Hin]; [by left|right]. split; [|by right].
        intros ->. by apply (Hfresh v').
      * intros [[-> ->]|[Hne [[= ? ?]|Hin]]]; [by left|done|by right].
    + rewrite !elem_of_cons, IH. split.
      * intros [[= -> ->]|[[-> ->]|[Hne Hin]]].
        -- right. split; [done|by left].
        -- by left.
        -- right. split; [done|by right].
      * intros [[-> ->]|[Hne [[= -> ->]|Hin]]].
        -- right. by left.
        -- by left.
        -- right. by right.
Qed.

(** What a dict built row by row holds: its keys are those of the rows, each
    at the place of its first row, with the value of its last row. *)
Lemma dict_of_rows (rows : list (pyval * pyval)) :
  let d := foldl (λ d kv, dict_set d kv.1 kv.2) [] rows in
  d.*1 = reverse (remove_dups (reverse rows.*1)) ∧
  ∀ k v, (k, v) ∈ d ↔ ∃ l1 l2, rows = l1 ++ (k, v) :: l2 ∧ k ∉ l2.*1.
Proof.
  induction rows as [|[k0 v0] rows IH] using rev_ind; cbv zeta.
  - split; [done|]. intros k v. split; [by intros ?%elem_of_nil|].
    intros (l1 & l2 & H & _). by destruct l1.
  - cbv zeta in IH. destruct IH as [Hkeys Hvals].
    rewrite foldl_app. cbn [foldl fst snd].
    set (d := foldl (λ d kv, dict_set d kv.1 kv.2) [] rows) in *.
    assert (NoDup d.*1) as Hnd.
    { rewrite Hkeys, reverse_Permutation. apply NoDup_remove_dups. }
    split.
    + rewrite dict_set_keys, fmap_app, reverse_app. cbn [fmap list_fmap fst].
      change (reverse [k0]) with [k0]. cbn [app remove_dups].
      assert (k0 ∈ d.*1 ↔ k0 ∈ reverse rows.*1) as Hmem.
      { by rewrite Hkeys, elem_of_reverse, elem_of_remove_dups. }
      destruct (decide (k0 ∈ d.*1)) as [Hin|Hin];
        destruct (decide_rel elem_of k0 (reverse rows.*1)) as [Hin'|Hin'];
        [done|by destruct Hin'; apply Hmem|by destruct Hin; apply Hmem|].
      by rewrite reverse_cons, <- Hkeys.
    + intros k v. rewrite elem_of_dict_set by done. split.
      * intros [[-> ->]|[Hne Hin]].
        { exists rows, []. split; [done|]. by intros ?%elem_of_nil. }
        apply Hvals in Hin as (l1 & l2 & -> & Hl2).
        exists l1, (l2 ++ [(k0, v0)]). split; [by rewrite <- app_assoc|].
        rewrite fmap_app. intros [?|Hk]%elem_of_app; [done|].
        apply list_elem_of_singleton in Hk. done.
      * intros (l1 & l2 & Heq & Hl2).
        destruct l2 as [|x l2 _] using rev_ind.
        { apply app_inj_tail in Heq as [_ [= -> ->]]. by left. }
        rewrite app_comm_cons, app_assoc in Heq.
        apply app_inj_tail in Heq as [-> <-].
        rewrite fmap_app in Hl2. apply not_elem_of_app in Hl2 as [Hl2 Hk].
        right. split.
        { intros ->. apply Hk. by left. }
        apply Hvals. by exists l1, l2.
Qed.

Lemma dict_of_distinct_rows (rows : list (pyval * pyval)) :
  NoDup rows.*1 → foldl (λ d kv, dict_set d kv.1 kv.2) [] rows = rows.
Proof.
  induction rows as [|[k0 v0] rows IH] using rev_ind; [done|].
  rewrite fmap_app, foldl_app. intros [Hnd [Hk _]]%NoDup_app.
  rewrite IH by done. cbn [foldl fst snd]. apply dict_set_fresh.
  intros Hin. apply (Hk k0 Hin). by left.
Qed.

Lemma NoDup_fst_zip {A B} (l : list A) (k : list B) :
  NoDup l → NoDup (zip l k).*1.
Proof.
  intros Hl. revert k. induction Hl as [|x l Hx Hl IH]; intros [|y k];
    simpl; try constructor; [|by apply IH].
  intros Hin. apply Hx. apply list_elem_of_fmap in Hin as [[a b] [-> Hin]].
  by apply elem_of_zip_l in Hin.
Qed.

(** X17. From a DataFrame with columns of different names, [waffle] takes
    the dict that pairs the first two
    columns row by row.  A category that occurs in several rows gives one
    entry, at the place of its first row and with the count of its last row:
    counts of a repeated category are not added up.  With distinct categories
    the dict is the rows themselves. *)
Theorem waffle_dataframe_categories (c0 c1 : string) (ks vs : list pyval)
    (rest : DataFrame) (data : option dict) :
  NoDup ((c0, ks) :: (c1, vs) :: rest).*1 →
  let rows := zip ks vs in
  ∃ d, waffle_data (Some ((c0, ks) :: (c1, vs) :: rest)) None None data
       = Return d ∧
    NoDup d.*1 ∧
    d.*1 = reverse (remove_dups (reverse rows.*1)) ∧
    (∀ k v, (k, v) ∈ d ↔ ∃ l1 l2, rows = l1 ++ (k, v) :: l2 ∧ k ∉ l2.*1) ∧
    (NoDup ks → d = rows).
Proof.
  intros Hne%NoDup_leading rows. exists (dict_of_zip ks vs).
  destruct (dict_of_rows rows) as [Hkeys Hvals].
  split; [|split; [|split; [|split]]].
  - unfold waffle_data.
    apply (leading_columns (λ ks vs, Return (dict_of_zip ks vs))); auto.
  - unfold dict_of_zip. fold rows. rewrite Hkeys, reverse_Permutation.
    apply NoDup_remove_dups.
  - exact Hkeys.
  - exact Hvals.
  - intros Hks. apply dict_of_distinct_rows. by apply NoDup_fst_zip.
Qed.

(** ** The shape of the grid *)

Lemma reshape_cons_rows {A} (w h : nat) (l : list A) :
  reshape (replicate (S h) w) l = take w l :: reshape (replicate h w) (drop w l).
Proof. reflexivity. Qed.

Lemma reshape_without {A} (x : A) (ns : list nat) (l : list A) :
  x ∉ l → Forall (λ row, x ∉ row) (reshape ns l).
Proof.
  revert l. induction ns as [|n ns IH]; intros l Hl; simpl; constructor.
  - intros Hin. apply Hl. by eapply subseteq_take.
  - apply IH. intros Hin. apply Hl. by eapply subseteq_drop.
Qed.

(** X18. Without [grid_width], the grid of a positive total [T] is as square
    as can be: its width [w] is the least with [T <= w * w], its height is [w]
    or [w - 1], and fewer than [w] cells are padding. *)
Theorem waffle_default_grid_near_square (counts : list (string * Z)) :
  Forall (λ kc, 0 ≤ kc.2) counts →
  0 < py_sum counts.*2 →
  let T := py_sum counts.*2 in
  ∃ w h b,
    waffle_width T None = Return w ∧
    waffle_height T w = Return h ∧
    waffle_grid counts.*2 None = Return b ∧
    (w - 1) * (w - 1) < T ≤ w * w ∧
    w - 1 ≤ h ≤ w ∧
    0 ≤ w * h - T < w ∧
    len b = h ∧ Forall (λ row, len row = w) b.
Proof.
  intros Hpos HT T. fold T in HT.
  set (w := Z.sqrt_up T). set (h := (T + w - 1) / w).
  assert (0 < w) as Hw by (by apply Z.sqrt_up_pos).
  assert (waffle_width T None = Return w) as Hwidth.
  { unfold waffle_width, ceil_sqrt. by rewrite decide_False by lia. }
  pose proof (Z.sqrt_up_spec T HT) as Hsq. fold w in Hsq.
  pose proof (ceil_div_bounds T w Hw) as Hh. fold h in Hh.
  assert (0 ≤ h) as Hh0 by (apply Z.div_pos; lia).
  eexists w, h, _. split; [done|]. split; [by apply waffle_height_pos|].
  split; [by apply (waffle_grid_typed counts None w)|].
  fold T h.
  assert (length (replicate (Z.to_nat (w * h - T)) nan
                  ++ tiles_in_order 0 counts)
          = (Z.to_nat w * Z.to_nat h)%nat) as Hlen.
  { rewrite length_app, length_replicate.
    pose proof (len_tiles_in_order 0 counts Hpos) as Ht. unfold len in Ht.
    fold T in Ht. nia. }
  split; [lia|]. split; [nia|]. split; [lia|]. split.
  - unfold len. rewrite length_reshape, length_replicate. lia.
  - eapply Forall_impl; [by apply rows_reshape|].
    intros row Hrow. simpl in Hrow. unfold len. lia.
Qed.

(** X19. Whatever the width, the padding of the grid is in its first row
    only: that row starts with the padding cells, fewer than the width, and
    every other cell of the grid carries a category.  The flip that follows
    moves the padding to the end of the first row. *)
Theorem waffle_padding_first_row (counts : list (string * Z))
    (grid_width : option Z) (w : Z) :
  Forall (λ kc, 0 ≤ kc.2) counts →
  0 < py_sum counts.*2 →
  waffle_width (py_sum counts.*2) grid_width = Return w →
  0 < w →
  ∃ row0 rows (pad : nat),
    waffle_grid counts.*2 grid_width = Return (row0 :: rows) ∧
    Z.of_nat pad = w * len (row0 :: rows) - py_sum counts.*2 ∧
    Z.of_nat pad < w ∧
    take pad row0 = replicate pad nan ∧
    (nan ∉ drop pad row0) ∧
    Forall (λ row, nan ∉ row) rows ∧
    np_fliplr (row0 :: rows)
    = (reverse (drop pad row0) ++ replicate pad nan) :: np_fliplr rows.
Proof.
  intros Hpos HT Hwidth Hw.
  pose proof (waffle_grid_typed counts grid_width w Hpos Hwidth Hw) as Hgrid.
  cbv zeta in Hgrid.
  set (T := py_sum counts.*2) in *. set (h := (T + w - 1) / w) in *.
  pose proof (ceil_div_bounds T w Hw) as Hh. fold h in Hh.
  assert (0 < h) as Hh0 by nia.
  set (pad := Z.to_nat (w * h - T)) in *.
  set (tiles := tiles_in_order 0 counts) in *.
  assert (nan ∉ tiles) as Htiles by apply nan_not_in_tiles.
  assert (Z.to_nat h = S (Z.to_nat (h - 1))) as Hh1 by lia.
  rewrite Hh1, reshape_cons_rows in Hgrid.
  assert (pad ≤ Z.to_nat w)%nat as Hpad by lia.
  assert (take (Z.to_nat w) (replicate pad nan ++ tiles)
          = replicate pad nan ++ take (Z.to_nat w - pad) tiles) as Hrow0.
  { rewrite take_app, take_replicate, length_replicate.
    by rewrite Nat.min_r by lia. }
  assert (drop (Z.to_nat w) (replicate pad nan ++ tiles)
          = drop (Z.to_nat w - pad) tiles) as Hrest.
  { rewrite drop_app, length_replicate, drop_replicate.
    by replace (pad - Z.to_nat w)%nat with 0%nat by lia. }
  rewrite Hrow0, Hrest in Hgrid.
  eexists _, _, pad. split; [exact Hgrid|].
  assert (take pad (replicate pad nan ++ take (Z.to_nat w - pad) tiles)
          = replicate pad nan) as Htake.
  { rewrite take_app_length'; [done|by rewrite length_replicate]. }
  assert (drop pad (replicate pad nan ++ take (Z.to_nat w - pad) tiles)
          = take (Z.to_nat w - pad) tiles) as Hdrop.
  { rewrite drop_app_length'; [done|by rewrite length_replicate]. }
  split_and!.
  - unfold len. cbn [length]. rewrite length_reshape, length_replicate. lia.
  - lia.
  - exact Htake.
  - rewrite Hdrop. intros Hin. apply Htiles. by eapply subseteq_take.
  - apply reshape_without. intros Hin. apply Htiles. by eapply subseteq_drop.
  - unfold np_fliplr. rewrite fmap_cons. f_equal.
    rewrite Hdrop, reverse_app, reverse_replicate. done.
Qed.

(** * Further properties of the value labels *)

Lemma lookup_join_pairs {A} (ls : list (list A)) (i : nat) (x y : A) :
  Forall (λ l, length l = 2%nat) ls →
  ls !! i = Some [x; y] →
  mjoin ls !! (2 * i)%nat = Some x ∧ mjoin ls !! S (2 * i) = Some y.
Proof.
  intros Hls. revert i. induction Hls as [|l ls Hl _ IH]; intros i; [done|].
  destruct i as [|i].
  - intros [= ->]. done.
  - intros Hi. destruct l as [|a [|b [|]]]; try done.
    replace (2 * S i)%nat with (S (S (2 * i))) by lia.
    exact (IH i Hi).
Qed.

Lemma py_lt_less (a b : pyval) (less : bool) :
  is_number a → is_number b → py_lt a b = Return less →
  (less = true ↔ (num_of a < num_of b)%Q).
Proof.
  intros Ha Hb. destruct a, b; try done; simpl; intros [= <-];
    rewrite negb_true_iff, <- not_true_iff_false, Qle_bool_iff;
    (split; [apply Qnot_le_lt|apply Qlt_not_le]).
Qed.

(** X20. In a figure returned by [dumbbell] the two value labels of a
    category follow each other, in the colours of the two markers and at the
    two ends of its line.  The label of a first value that is the smaller one
    is pushed 5 back along the value axis and the other 5 forward; otherwise,
    also for equal values, the first is pushed forward and the second back.
    Neither is moved across. *)
Theorem dumbbell_value_labels df
    (category_col value1_col value2_col : option string)
    (categories values1 values2 : option (list pyval))
    (label1 label2 : option string) (title orientation : string)
    (marker_color1 marker_color2 line_color : string)
    (marker_size line_width : Z) (fig : Figure) :
  dumbbell df category_col value1_col value2_col categories values1 values2
           label1 label2 title orientation marker_color1 marker_color2
           line_color marker_size line_width = Return fig →
  ∃ cats vals1 vals2,
    dumbbell_inputs df category_col value1_col value2_col categories values1
                    values2 = Return (cats, vals1, vals2) ∧
    let h := String.eqb orientation "h" in
    ∀ i c a b, cats !! i = Some c → vals1 !! i = Some a →
               vals2 !! i = Some b →
      ∃ l1 l2 less,
        py_lt a b = Return less ∧
        fig_annotations fig !! (2 * i)%nat = Some l1 ∧
        fig_annotations fig !! S (2 * i) = Some l2 ∧
        label_point h l1 = (a, c) ∧ label_point h l2 = (b, c) ∧
        an_text_of l1 = a ∧ an_text_of l2 = b ∧
        an_font_color l1 = marker_color1 ∧
        an_font_color l2 = marker_color2 ∧
        label_shift h l1 = Some (if less then -5 else 5) ∧
        label_shift h l2 = Some (if less then 5 else -5) ∧
        label_shift (negb h) l1 = None ∧ label_shift (negb h) l2 = None ∧
        (is_number a → is_number b →
         (less = true ↔ (num_of a < num_of b)%Q)).
Proof.
  rewrite dumbbell_unfold.
  destruct (dumbbell_inputs _ _ _ _ _ _ _) as [[[cats vals1] vals2]|] eqn:Hin;
    [|done].
  rewrite bind_Return.
  destruct (mapM _ _) as [labels|] eqn:Hl; [|done].
  rewrite bind_Return. intros [= <-].
  exists cats, vals1, vals2. split; [done|]. cbv zeta.
  destruct (dumbbell_figure_parts cats vals1 vals2 label1 label2 title
    orientation marker_color1 marker_color2 line_color marker_size line_width
    labels) as [_ ->].
  apply mapM_Forall2 in Hl.
  assert (Forall (λ l, length l = 2%nat) labels) as Hpairs.
  { clear -Hl. induction Hl as [|[[cat val1] val2] l rows labels H _ IH];
      constructor; [|done]. by eapply dumbbell_labels_pair. }
  intros i c a b Hc Ha Hb.
  assert (zip (zip cats vals1) vals2 !! i = Some (c, a, b)) as Hz.
  { apply lookup_zip_with_Some. exists (c, a), b. split; [done|].
    split; [|done]. apply lookup_zip_with_Some. by exists c, a. }
  destruct (Forall2_lookup_l _ _ _ _ _ Hl Hz) as (lab & Hlab & Hrow).
  simpl in Hrow. unfold dumbbell_labels in Hrow.
  destruct (py_lt a b) as [less|] eqn:Hlt; [|done].
  rewrite bind_Return in Hrow.
  destruct (String.eqb orientation "h"), less; injection Hrow as <-;
    destruct (lookup_join_pairs _ _ _ _ Hpairs Hlab) as [-> ->];
    eexists _, _, _; (split; [done|]); (split; [done|]); (split; [done|]);
    split_and!; try done; intros ? ?; by apply py_lt_less.
Qed.

(** * The further properties at concrete inputs *)

Lemma get_section_bounds_contiguous_witness :
  1 ≤ 4 ∧ (0 <= 1)%Q ∧
  ∃ bounds, get_section_bounds 1 4 = Return bounds ∧ len bounds = 4 ∧
            ∀ i r, bounds !! i = Some r → (r.1 <= r.2)%Q.
Proof.
  assert (1 ≤ 4) as H by lia.
  assert ((0 <= 1)%Q) as Hx by discriminate.
  do 2 (split; [assumption|]).
  destruct (get_section_bounds_contiguous 1 4 H)
    as (bounds & Hb & Hlen & _ & _ & Hord).
  exists bounds. split; [assumption|]. split; [assumption|]. exact (Hord Hx).
Defined.

Lemma no_sections_witness :
  0 ≤ 0 ∧ find_midpoints 3 0 = Return [] ∧
  get_section_bounds (inject_Z 3) 0 = Raise ZeroDivisionError.
Proof.
  assert (0 ≤ 0) as H by lia. split; [assumption|].
  exact (no_sections 3 0 H).
Defined.

Lemma find_midpoints_inside_sections_witness :
  1 ≤ 2 ∧ 1 ≤ 3 ∧
  ∃ mids bounds,
    find_midpoints 2 3 = Return mids ∧
    get_section_bounds (inject_Z 2) 3 = Return bounds ∧
    length mids = length bounds ∧
    ∀ i m r, mids !! i = Some m → bounds !! i = Some r →
             (r.1 < m)%Q ∧ (m < r.2)%Q.
Proof.
  assert (1 ≤ 2) as Hx by lia. assert (1 ≤ 3) as Hy by lia.
  do 2 (split; [assumption|]).
  exact (find_midpoints_inside_sections 2 3 Hx Hy).
Defined.

Lemma format_02x_round_trip_witness :
  0 ≤ 139 ∧ HexString.Raw.to_N (format_02x 139) 0 = 139%N ∧
  String.length (format_02x 139) = 2%nat.
Proof.
  assert (0 ≤ 139) as H by lia. split; [assumption|].
  destruct (format_02x_round_trip 139 H) as (Hval & _ & Hlen).
  split; [exact Hval|]. apply Hlen. lia.
Defined.

Lemma get_color_gradient_first_color_witness :
  2 ≤ 3 ∧ 2 ≤ 7 ∧ 2 ≤ 2 ∧
  returns (named_rgb "lightblue") ∧ returns (named_rgb "darkblue") ∧
  ∃ c cs cs' same,
    get_color_gradient named_rgb "lightblue" "darkblue" 3 = Return (c :: cs) ∧
    get_color_gradient named_rgb "lightblue" "lightblue" 7
      = Return (c :: cs') ∧
    get_color_gradient named_rgb "lightblue" "lightblue" 2 = Return same ∧
    len same = 2 ∧ Forall (eq c) same.
Proof.
  assert (2 ≤ 3) as H3 by lia. assert (2 ≤ 7) as H7 by lia.
  assert (2 ≤ 2) as H2 by lia.
  assert (returns (named_rgb "lightblue")) as Hs by (eexists; reflexivity).
  assert (returns (named_rgb "darkblue")) as He by (eexists; reflexivity).
  do 5 (split; [assumption|]).
  exact (get_color_gradient_first_color named_rgb "lightblue" "darkblue"
           "lightblue" 3 7 2 H3 H7 H2 Hs He Hs).
Defined.

Lemma get_color_gradient_hex_codes_witness :
  2 ≤ 3 ∧
  unit_rgb (173 # 255, 216 # 255, 230 # 255)%Q ∧
  unit_rgb (0, 0, 139 # 255)%Q ∧
  ∃ cs, get_color_gradient named_rgb "lightblue" "darkblue" 3 = Return cs ∧
        Forall (λ c, String.length c = 7%nat ∧ ∃ digits, c = "#" +:+ digits)
               cs.
Proof.
  assert (2 ≤ 3) as H by lia.
  assert (unit_rgb (173 # 255, 216 # 255, 230 # 255)%Q) as Hs
    by (repeat split; discriminate).
  assert (unit_rgb (0, 0, 139 # 255)%Q) as He
    by (repeat split; discriminate).
  do 3 (split; [assumption|]).
  exact (get_color_gradient_hex_codes named_rgb "lightblue" "darkblue" 3
           _ _ H eq_refl Hs eq_refl He).
Defined.

Lemma get_color_gradient_outcome_witness :
  named_rgb "lightblue"
  = Return (173 # 255, 216 # 255, 230 # 255)%Q ∧
  named_rgb "teal" = Raise ColorError ∧
  get_color_gradient named_rgb "lightblue" "teal" 3 = Raise ColorError.
Proof.
  assert (named_rgb "lightblue"
          = Return (173 # 255, 216 # 255, 230 # 255)%Q) as Hs by reflexivity.
  assert (named_rgb "teal" = Raise ColorError) as He by reflexivity.
  do 2 (split; [assumption|]).
  destruct (get_color_gradient_outcome named_rgb "lightblue" "teal" 3)
    as (_ & _ & _ & Herr).
  exact (Herr _ _ Hs He).
Defined.

Lemma lollipop_chart_sticks_witness :
  length [PStr "a"; PStr "b"] = length [PInt 4; PInt 7] ∧
  ∃ fig sticks markers,
    lollipop_chart [PStr "a"; PStr "b"] [PInt 4; PInt 7] "Lollipop Chart"
                   "gray" "blue" = Return fig ∧
    fig_data fig = (TScatter <$> sticks) ++ [TScatter markers] ∧
    length sticks = 2%nat.
Proof.
  assert (length [PStr "a"; PStr "b"] = length [PInt 4; PInt 7]) as H
    by reflexivity.
  split; [assumption|].
  destruct (lollipop_chart_sticks [PStr "a"; PStr "b"] [PInt 4; PInt 7]
              "Lollipop Chart" "gray" "blue") as [_ Hret].
  destruct (Hret H) as (fig & sticks & markers & Hfig & Hdata & _ & Hlen & _).
  exists fig, sticks, markers. repeat split; assumption.
Defined.

Lemma dumbbell_figure_shape_witness :
  ∃ fig,
    dumbbell_call [PStr "P"; PStr "Q"] [PInt 1; PInt 2] [PInt 3; PInt 1] "h"
      = Return fig ∧
    length (fig_data fig) = 4%nat ∧ length (fig_annotations fig) = 4%nat.
Proof.
  assert (∃ fig, dumbbell_call [PStr "P"; PStr "Q"] [PInt 1; PInt 2]
                               [PInt 3; PInt 1] "h" = Return fig)
    as [fig Hfig] by (eexists; reflexivity).
  exists fig. split; [assumption|]. unfold dumbbell_call in Hfig.
  destruct (dumbbell_figure_shape _ _ _ _ _ _ _ _ _ _ _ _ _ _ _ _ _ Hfig)
    as (cats & vals1 & vals2 & m1 & m2 & Hin & _ & _ & Hdata & Hann & _).
  injection Hin as <- _ _. split; assumption.
Defined.

Lemma dumbbell_orientation_witness :
  "x" ≠ "h" ∧
  dumbbell_call [PStr "P"; PStr "Q"] [PInt 1; PInt 2] [PInt 3; PInt 1] "x"
  = dumbbell_call [PStr "P"; PStr "Q"] [PInt 1; PInt 2] [PInt 3; PInt 1] "v".
Proof.
  assert ("x" ≠ "h") as H by discriminate. split; [assumption|].
  exact (proj1 (dumbbell_orientation None None None None
    (Some [PStr "P"; PStr "Q"]) (Some [PInt 1; PInt 2])
    (Some [PInt 3; PInt 1]) (Some "") (Some "") "Dumbbell Chart" "x"
    "blue" "orange" "gray" 10 2 H)).
Defined.

Lemma line_range_plain_traces_witness :
  ∃ fig,
    line_range None None None None (Some [PStr "P"; PStr "Q"])
               (Some [PInt 1; PInt 2]) (Some [PInt 3; PInt 1]) (Some "low")
               (Some "high") "Range Chart" "h" "blue" 10 = Return fig ∧
    Forall (λ t, ∃ s, t = TScatter s ∧ sc_name s = None ∧
                      sc_showlegend s = Some false ∧
                      (sc_line s = Some ("blue", 10) ∨
                       sc_marker s = Some ("blue", 10)))
           (fig_data fig).
Proof.
  assert (∃ fig, line_range None None None None (Some [PStr "P"; PStr "Q"])
               (Some [PInt 1; PInt 2]) (Some [PInt 3; PInt 1]) (Some "low")
               (Some "high") "Range Chart" "h" "blue" 10 = Return fig)
    as [fig Hfig] by (eexists; reflexivity).
  exists fig. split; [assumption|].
  destruct (line_range_plain_traces _ _ _ _ _ _ _ _ _ _ _ _ _ _ Hfig)
    as (cats & vals1 & vals2 & _ & _ & Hall & _).
  exact Hall.
Defined.

Lemma waterfall_lists_unchecked_witness :
  ∃ fig w,
    waterfall None None None (Some [PStr "a"; PStr "b"; PStr "c"])
              (Some [PInt 5]) "Waterfall" None "green" "red" "blue" "gray"
              None (Some ["relative"]) = Return fig ∧
    fig_data fig = [TWaterfall w] ∧
    wf_x w = [PStr "a"; PStr "b"; PStr "c"] ∧ wf_y w = [PInt 5] ∧
    wf_measure w = ["relative"].
Proof.
  destruct (waterfall_lists_unchecked None None
              (Some [PStr "a"; PStr "b"; PStr "c"]) (Some [PInt 5])
              "Waterfall" None "green" "red" "blue" "gray" None
              (Some ["relative"])) as [_ Hret].
  destruct (Hret _ _ eq_refl eq_refl) as (fig & w & Hfig & Hdata & _ & Hx & Hy
                                          & _ & Hm); [discriminate..|].
  exists fig, w. repeat split; try assumption. by apply Hm.
Defined.

Lemma waterfall_color_override_witness :
  ∃ fig w,
    waterfall None None None (Some [PStr "a"; PStr "b"])
              (Some [PInt 5; PInt 8]) "Waterfall" None "green" "red" "blue"
              "gray" (Some "teal") None = Return fig ∧
    fig_data fig = [TWaterfall w] ∧
    (wf_increasing_color w, wf_decreasing_color w, wf_totals_color w,
     wf_connector_color w) = ("teal", "teal", "teal", "teal").
Proof.
  assert (∃ fig, waterfall None None None (Some [PStr "a"; PStr "b"])
              (Some [PInt 5; PInt 8]) "Waterfall" None "green" "red" "blue"
              "gray" (Some "teal") None = Return fig)
    as [fig Hfig] by (eexists; reflexivity).
  destruct (waterfall_color_override _ _ _ _ _ _ _ _ _ _ _ _ _ _ Hfig)
    as (w & Hdata & Hcolors).
  exists fig, w. repeat split; assumption.
Defined.

Lemma missing_column_rejected_witness :
  "z" ≠ "" ∧
  ("z" ∉ [("a", [PStr "x"]); ("b", [PInt 1])].*1) ∧
  waterfall (Some [("a", [PStr "x"]); ("b", [PInt 1])]) (Some "z") None None
            None "Waterfall" None "green" "red" "blue" "gray" None None
  = Raise (column_not_found "z") ∧
  waterfall (Some [("a", [PStr "x"]); ("b", [PInt 1])]) None (Some "z") None
            None "Waterfall" None "green" "red" "blue" "gray" None None
  = Raise (column_not_found "z").
Proof.
  assert ("z" ≠ "") as H1 by discriminate.
  assert ("z" ∉ [("a", [PStr "x"]); ("b", [PInt 1])].*1) as H2.
  { intros H. apply elem_of_cons in H as [H|H]; [discriminate|].
    apply elem_of_cons in H as [H|H]; [discriminate|].
    by apply elem_of_nil in H. }
  do 2 (split; [assumption|]).
  destruct (missing_column_rejected named_rgb
              [("a", [PStr "x"]); ("b", [PInt 1])] "z" None H1 H2)
    as (_ & Hwf & _ & _ & Hval).
  split; [apply Hwf|].
  exact (proj2 (Hval eq_refl None "" None "lightblue" "darkblue" 600 2 None
                  None None None "green" "red" "blue" "gray" None None)).
Defined.

Lemma dataframe_leading_columns_witness :
  NoDup [("a", [PStr "x"]); ("b", [PInt 1]); ("c", [PInt 0])].*1 ∧
  waterfall_inputs (Some [("a", [PStr "x"]); ("b", [PInt 1]); ("c", [PInt 0])])
                   (Some "") (Some "b") (Some [PStr "ignored"]) None
  = Return ([PStr "x"], [PInt 1]).
Proof.
  assert (NoDup [("a", [PStr "x"]); ("b", [PInt 1]); ("c", [PInt 0])].*1)
    as H by (apply (bool_decide_unpack _); exact I).
  split; [assumption|].
  destruct (dataframe_leading_columns named_rgb "a" "b" [PStr "x"] [PInt 1]
              [("c", [PInt 0])] (Some "") (Some "b") H)
    as (_ & Hin & _); [by right; left|by right; right|].
  apply Hin.
Defined.

Lemma dumbbell_dataframe_inputs_witness :
  NoDup [("a", [] : list pyval); ("b", []); ("c", [])].*1 ∧
  Forall (λ col : string * list pyval, length col.2 = 0%nat)
         [("a", []); ("b", []); ("c", [])] ∧
  dumbbell_inputs (Some [("a", []); ("b", []); ("c", [])]) None None None
                  None None None = Return ([], [], []) ∧
  dumbbell_inputs None None None None (Some []) (Some []) (Some [])
  = Raise missing_lists.
Proof.
  assert (NoDup [("a", [] : list pyval); ("b", []); ("c", [])].*1) as Hnd
    by (apply (bool_decide_unpack _); exact I).
  assert (Forall (λ col : string * list pyval, length col.2 = 0%nat)
                 [("a", []); ("b", []); ("c", [])]) as H
    by (repeat constructor).
  do 2 (split; [assumption|]).
  pose proof (dumbbell_dataframe_inputs _ 0 None None None None None None
                Hnd H) as Hin.
  destruct (dumbbell_inputs (Some [("a", []); ("b", []); ("c", [])]) None
              None None None None None) as [[[cats vals1] vals2]|e] eqn:E.
  - destruct Hin as (_ & _ & _ & H0 & H1 & H2).
    destruct cats, vals1, vals2; try discriminate. split; reflexivity.
  - discriminate E.
Defined.

Lemma waffle_dataframe_categories_witness :
  NoDup [("a", [PStr "x"; PStr "y"; PStr "x"]);
         ("b", [PInt 1; PInt 2; PInt 3])].*1 ∧
  ∃ d, waffle_data (Some [("a", [PStr "x"; PStr "y"; PStr "x"]);
                          ("b", [PInt 1; PInt 2; PInt 3])]) None None None
       = Return d ∧
       d.*1 = [PStr "x"; PStr "y"] ∧ (PStr "x", PInt 3) ∈ d.
Proof.
  assert (NoDup [("a", [PStr "x"; PStr "y"; PStr "x"]);
                 ("b", [PInt 1; PInt 2; PInt 3])].*1) as H
    by (apply (bool_decide_unpack _); exact I).
  split; [assumption|].
  destruct (waffle_dataframe_categories "a" "b" [PStr "x"; PStr "y"; PStr "x"]
              [PInt 1; PInt 2; PInt 3] [] None H)
    as (d & Hd & _ & Hkeys & Hvals & _).
  exists d. split; [exact Hd|]. split; [exact Hkeys|].
  apply Hvals. exists [(PStr "x", PInt 1); (PStr "y", PInt 2)], [].
  split; [reflexivity|]. by intros ?%elem_of_nil.
Defined.

Lemma waffle_default_grid_near_square_witness :
  Forall (λ kc : string * Z, 0 ≤ kc.2) [("a", 3); ("b", 4)] ∧
  0 < py_sum [("a", 3); ("b", 4)].*2 ∧
  ∃ w h b,
    waffle_width 7 None = Return w ∧ waffle_height 7 w = Return h ∧
    waffle_grid [3; 4] None = Return b ∧
    w - 1 ≤ h ≤ w ∧ 0 ≤ w * h - 7 < w.
Proof.
  assert (Forall (λ kc : string * Z, 0 ≤ kc.2) [("a", 3); ("b", 4)]) as H1
    by (repeat constructor; discriminate).
  assert (0 < py_sum [("a", 3); ("b", 4)].*2) as H2 by reflexivity.
  do 2 (split; [assumption|]).
  destruct (waffle_default_grid_near_square _ H1 H2)
    as (w & h & b & Hw & Hh & Hb & _ & Hwh & Hpad & _).
  exists w, h, b. exact (conj Hw (conj Hh (conj Hb (conj Hwh Hpad)))).
Defined.

Lemma waffle_padding_first_row_witness :
  Forall (λ kc : string * Z, 0 ≤ kc.2) [("a", 3); ("b", 4)] ∧
  0 < py_sum [("a", 3); ("b", 4)].*2 ∧
  waffle_width (py_sum [("a", 3); ("b", 4)].*2) (Some 4) = Return 4 ∧
  0 < 4 ∧
  ∃ row0 rows (pad : nat),
    waffle_grid [3; 4] (Some 4) = Return (row0 :: rows) ∧
    Z.of_nat pad < 4 ∧ take pad row0 = replicate pad nan ∧
    Forall (λ row, nan ∉ row) rows.
Proof.
  assert (Forall (λ kc : string * Z, 0 ≤ kc.2) [("a", 3); ("b", 4)]) as H1
    by (repeat constructor; discriminate).
  assert (0 < py_sum [("a", 3); ("b", 4)].*2) as H2 by reflexivity.
  assert (waffle_width (py_sum [("a", 3); ("b", 4)].*2) (Some 4) = Return 4)
    as H3 by reflexivity.
  assert (0 < 4) as H4 by reflexivity.
  do 4 (split; [assumption|]).
  destruct (waffle_padding_first_row _ _ _ H1 H2 H3 H4)
    as (row0 & rows & pad & Hb & _ & Hpad & Htake & _ & Hrows & _).
  exists row0, rows, pad. repeat split; assumption.
Defined.

Lemma dumbbell_value_labels_witness :
  ∃ fig l1 l2,
    dumbbell_call [PStr "P"; PStr "Q"] [PInt 1; PInt 2] [PInt 3; PInt 1] "h"
      = Return fig ∧
    fig_annotations fig !! 2%nat = Some l1 ∧
    fig_annotations fig !! 3%nat = Some l2 ∧
    label_shift true l1 = Some 5 ∧ label_shift true l2 = Some (-5).
Proof.
  assert (∃ fig, dumbbell_call [PStr "P"; PStr "Q"] [PInt 1; PInt 2]
                               [PInt 3; PInt 1] "h" = Return fig)
    as [fig Hfig] by (eexists; reflexivity).
  pose proof Hfig as Hcall. unfold dumbbell_call in Hcall.
  destruct (dumbbell_value_labels _ _ _ _ _ _ _ _ _ _ _ _ _ _ _ _ _ Hcall)
    as (cats & vals1 & vals2 & Hin & Hrow).
  injection Hin as <- <- <-.
  destruct (Hrow 1%nat (PStr "Q") (PInt 2) (PInt 1) eq_refl eq_refl eq_refl)
    as (l1 & l2 & less & Hless & Hl1 & Hl2 & _ & _ & _ & _ & _ & _ & Hs1 & Hs2
        & _).
  injection Hless as <-.
  exists fig, l1, l2. repeat split; assumption.
Defined.
